(** * QA Coaching Agent: the evaluation cycle of [app.py]

    A shallow embedding of [evaluate_ticket] and of the ROI estimator of
    [app.py], with the properties of its prompt composition, of the
    extraction of the JSON span from the raw model output, of the shape
    validation and of the ROI arithmetic.

    Python [str] values are modelled as [string], the UTF-8 encoding of
    the text: the characters the program inspects (braces, quotes, the
    JSON punctuation) are ASCII and never occur inside the encoding of
    another character, so searching bytes and searching code points
    agree.  Python integers are [Z]. *)

From Stdlib Require Import String Ascii List ZArith NArith Bool Lia.
From Stdlib Require Import Permutation.
Import ListNotations.

Open Scope list_scope.
Open Scope string_scope.

(** ** Characters and strings *)

Module Chars.

(** The characters that cannot be written inside a literal. *)
Definition dquote : ascii := "034"%char.
Definition newline : ascii := "010"%char.
Definition tab : ascii := "009"%char.
Definition cr : ascii := "013"%char.
Definition backslash : ascii := "092"%char.

Definition dq : string := String dquote "".
Definition nl : string := String newline "".

(** [qs s] is [s] between double quotes, the way a JSON key or a JSON
    string is written. *)
Definition qs (s : string) : string := dq ++ s ++ dq.

End Chars.
Import Chars.

(** [s.find(c)]: index of the leftmost occurrence of [c]. *)
Fixpoint find (c : ascii) (s : string) : option nat :=
  match s with
  | "" => None
  | String x s' => if Ascii.eqb x c then Some 0 else option_map S (find c s')
  end.

(** [s.rfind(c)]: index of the rightmost occurrence of [c]. *)
Fixpoint rfind (c : ascii) (s : string) : option nat :=
  match s with
  | "" => None
  | String x s' =>
      match rfind c s' with
      | Some j => Some (S j)
      | None => if Ascii.eqb x c then Some 0 else None
      end
  end.

(** [occurs c s]: the character [c] occurs in [s]. *)
Fixpoint occurs (c : ascii) (s : string) : bool :=
  match s with
  | "" => false
  | String x s' => Ascii.eqb x c || occurs c s'
  end.

(** [needle in hay] on two Python strings. *)
Fixpoint contains (needle hay : string) : bool :=
  prefix needle hay ||
  match hay with
  | "" => false
  | String _ hay' => contains needle hay'
  end.

(** ** The regular expression of line 67

    [re.search(r"\{.*\}", raw, re.DOTALL)]: the pattern is a sequence of
    three atoms, a literal brace, [.*] (under DOTALL the dot matches every
    character, the newline included) and a literal brace.  The matcher is
    the backtracking one of [re]: a greedy star first takes one more
    character and only when the rest of the pattern cannot match after
    that does it stop where it is. *)

Inductive atom : Type :=
| Lit (c : ascii)
| AnyStar.

Definition regex : Type := list atom.

(** [match_here p s] is the text matched by [p] at the very start of [s]. *)
Fixpoint match_here (p : regex) (s : string) : option string :=
  match p with
  | [] => Some ""
  | Lit c :: p' =>
      match s with
      | "" => None
      | String x s' =>
          if Ascii.eqb x c then option_map (String x) (match_here p' s') else None
      end
  | AnyStar :: p' =>
      (fix star (s : string) : option string :=
         match s with
         | "" => match_here p' ""
         | String x s' =>
             match star s' with
             | Some m => Some (String x m)
             | None => match_here p' s
             end
         end) s
  end.

(** [re.search]: the match at the leftmost position that has one;
    the result is [match.group(0)]. *)
Fixpoint re_search (p : regex) (s : string) : option string :=
  match match_here p s with
  | Some m => Some m
  | None =>
      match s with
      | "" => None
      | String _ s' => re_search p s'
      end
  end.

(** The pattern [\{.*\}]. *)
Definition JSON_SPAN : regex := [Lit "{"%char; AnyStar; Lit "}"%char].

(** The span in the words of the specification: from the leftmost opening
    brace through the rightmost closing brace, when the first comes
    before the second. *)
Definition greedy_span (raw : string) : option string :=
  match find "{" raw, rfind "}" raw with
  | Some i, Some j =>
      if Nat.ltb i j then Some (substring i (j - i + 1) raw) else None
  | _, _ => None
  end.

(** ** JSON values

    What [json.loads] builds: [None], [bool], [int], [float], [str],
    [list] and [dict].  A [dict] keeps its keys in insertion order, so it
    is an association list without repeated keys.  A [float] is kept as
    the text of its literal; the program never computes with one. *)

#[warnings="-register-all"]
Inductive json : Type :=
| JNull
| JBool (b : bool)
| JInt (z : Z)
| JFloat (literal : string)
| JStr (s : string)
| JArr (items : list json)
| JObj (fields : list (string * json)).

(** [d[k] = v] on a dict: an existing key keeps its place and takes the
    new value, a new key goes to the end. *)
Fixpoint dict_set (k : string) (v : json) (d : list (string * json))
  : list (string * json) :=
  match d with
  | [] => [(k, v)]
  | (k', v') :: d' =>
      if String.eqb k' k then (k, v) :: d' else (k', v') :: dict_set k v d'
  end.

(** [dict(pairs)]. *)
Definition dict_of_pairs (pairs : list (string * json)) : list (string * json) :=
  fold_left (fun d kv => dict_set (fst kv) (snd kv) d) pairs [].

(** [d.get(k)]. *)
Fixpoint dict_get (k : string) (d : list (string * json)) : option json :=
  match d with
  | [] => None
  | (k', v) :: d' => if String.eqb k' k then Some v else dict_get k d'
  end.

(** [k in d]. *)
Definition dict_has (k : string) (d : list (string * json)) : bool :=
  match dict_get k d with Some _ => true | None => false end.

(** [d.keys()]. *)
Definition dict_keys (d : list (string * json)) : list string := map fst d.

(** ** [json.loads]

    The decoder of the standard library ([json.decoder], [json.scanner]),
    in its default configuration: strict strings, no hooks.  The reasons
    of a [JSONDecodeError] are kept, its position is not.  The limits of
    the interpreter (the depth of its recursion, the number of digits it
    converts to an [int]) are not part of the model: on a text they
    strike, some thousand brackets deep or with an integer of more than
    4300 digits, the interpreter raises [RecursionError] or [ValueError]
    where the model decodes.  What is proved of the values of
    [json.loads] is stated for a text on which it returned. *)

Module Json.

(** Why the decoder raises.  [FuelExhausted] belongs to the model only:
    it marks the bound put on the recursion of the scanners, and
    [loads] never answers with it ([loads_fuel] below). *)
Inductive decode_error : Type :=
| ExpectingValue
| ExpectingPropertyName
| ExpectingColonDelimiter
| ExpectingCommaDelimiter
| UnterminatedString
| InvalidControlCharacter
| InvalidEscape
| InvalidUnicodeEscape
| ExtraData
| UnexpectedBOM
| FuelExhausted.

(** Result of a scanner positioned on the text still to read. *)
Inductive presult (A : Type) : Type :=
| Done (a : A) (rest : string)
| Raise (e : decode_error)
| NoFuel.
Arguments Done {A} a rest.
Arguments Raise {A} e.
Arguments NoFuel {A}.

(** [WHITESPACE_STR = ' \t\n\r']. *)
Definition is_ws (c : ascii) : bool :=
  Ascii.eqb c " " || Ascii.eqb c tab || Ascii.eqb c newline || Ascii.eqb c cr.

(** [WHITESPACE.match(s, end).end()]. *)
Fixpoint skip_ws (s : string) : string :=
  match s with
  | "" => ""
  | String c s' => if is_ws c then skip_ws s' else s
  end.

(** [s[n:]]. *)
Fixpoint drop (n : nat) (s : string) : string :=
  match n, s with
  | O, _ => s
  | S _, "" => ""
  | S n', String _ s' => drop n' s'
  end.

(** *** Strings *)

Definition is_digit (c : ascii) : bool :=
  (48 <=? N_of_ascii c)%N && (N_of_ascii c <=? 57)%N.

(** Value of one character of [[0-9A-Fa-f]]. *)
Definition hex_val (c : ascii) : option N :=
  let n := N_of_ascii c in
  if is_digit c then Some (n - 48)%N
  else if (65 <=? n)%N && (n <=? 70)%N then Some (n - 55)%N
  else if (97 <=? n)%N && (n <=? 102)%N then Some (n - 87)%N
  else None.

(** [_decode_uXXXX]: the four hexadecimal digits after [\u]. *)
Definition hex4 (a b c d : ascii) : option N :=
  match hex_val a, hex_val b, hex_val c, hex_val d with
  | Some x, Some y, Some z, Some w => Some (((x * 16 + y) * 16 + z) * 16 + w)%N
  | _, _, _, _ => None
  end.

(** The table [BACKSLASH] of the one-letter escapes. *)
Definition BACKSLASH (e : ascii) : option ascii :=
  if Ascii.eqb e dquote then Some dquote
  else if Ascii.eqb e backslash then Some backslash
  else if Ascii.eqb e "/" then Some "/"%char
  else if Ascii.eqb e "b" then Some "008"%char
  else if Ascii.eqb e "f" then Some "012"%char
  else if Ascii.eqb e "n" then Some newline
  else if Ascii.eqb e "r" then Some cr
  else if Ascii.eqb e "t" then Some tab
  else None.

(** What a string literal is made of: characters taken as they are (or
    through a one-letter escape) and [\uXXXX] escapes. *)
Inductive chunk : Type :=
| Plain (c : ascii)
| Esc (code : N).

Definition push (x : chunk) (r : decode_error + (list chunk * string))
  : decode_error + (list chunk * string) :=
  match r with
  | inl e => inl e
  | inr (cs, rest) => inr (x :: cs, rest)
  end.

(** The loop of [py_scanstring], from just after the opening quote up to
    the closing one. *)
Fixpoint scan_chunks (s : string) : decode_error + (list chunk * string) :=
  match s with
  | "" => inl UnterminatedString
  | String c s' =>
      if Ascii.eqb c dquote then inr ([], s')
      else if Ascii.eqb c backslash then
        match s' with
        | "" => inl UnterminatedString
        | String e s'' =>
            if Ascii.eqb e "u" then
              match s'' with
              | String h1 (String h2 (String h3 (String h4 r))) =>
                  match hex4 h1 h2 h3 h4 with
                  | Some n => push (Esc n) (scan_chunks r)
                  | None => inl InvalidUnicodeEscape
                  end
              | _ => inl InvalidUnicodeEscape
              end
            else
              match BACKSLASH e with
              | Some ch => push (Plain ch) (scan_chunks s'')
              | None => inl InvalidEscape
              end
        end
      else if (N_of_ascii c <? 32)%N then inl InvalidControlCharacter
      else push (Plain c) (scan_chunks s')
  end.

Definition byte (n : N) : ascii := ascii_of_N n.

(** [chr(n)], in UTF-8. *)
Definition utf8 (n : N) : string :=
  if (n <? 128)%N then String (byte n) ""
  else if (n <? 2048)%N then
    String (byte (N.lor 192 (N.shiftr n 6)))
      (String (byte (N.lor 128 (N.land n 63))) "")
  else if (n <? 65536)%N then
    String (byte (N.lor 224 (N.shiftr n 12)))
      (String (byte (N.lor 128 (N.land (N.shiftr n 6) 63)))
         (String (byte (N.lor 128 (N.land n 63))) ""))
  else
    String (byte (N.lor 240 (N.shiftr n 18)))
      (String (byte (N.lor 128 (N.land (N.shiftr n 12) 63)))
         (String (byte (N.lor 128 (N.land (N.shiftr n 6) 63)))
            (String (byte (N.lor 128 (N.land n 63))) ""))).

Definition is_high (n : N) : bool := (55296 <=? n)%N && (n <=? 56319)%N.
Definition is_low (n : N) : bool := (56320 <=? n)%N && (n <=? 57343)%N.

(** A high surrogate escape directly followed by a low surrogate escape
    is one character. *)
Fixpoint decode_chunks (cs : list chunk) : string :=
  match cs with
  | [] => ""
  | Plain c :: cs' => String c (decode_chunks cs')
  | Esc hi :: cs' =>
      match cs' with
      | Esc lo :: cs'' =>
          if is_high hi && is_low lo then
            utf8 (65536 + N.lor (N.shiftl (hi - 55296) 10) (lo - 56320))
            ++ decode_chunks cs''
          else utf8 hi ++ decode_chunks cs'
      | _ => utf8 hi ++ decode_chunks cs'
      end
  end.

(** [scanstring(s, end)] with [end] just after the opening quote. *)
Definition scanstring (s : string) : decode_error + (string * string) :=
  match scan_chunks s with
  | inl e => inl e
  | inr (cs, rest) => inr (decode_chunks cs, rest)
  end.

(** *** Numbers

    [NUMBER_RE] has three groups: an optional minus sign and either a
    single zero or a digit from 1 to 9 with any digits after it; then,
    optionally, a dot and at least one digit; then, optionally, [e] or
    [E], an optional sign and at least one digit. *)

(** The longest run of decimal digits at the start of [s], and what
    follows it. *)
Fixpoint digits (s : string) : string * string :=
  match s with
  | "" => ("", "")
  | String c s' =>
      if is_digit c then
        let (ds, rest) := digits s' in (String c ds, rest)
      else ("", s)
  end.

(** [int(ds)] for a run of decimal digits, most significant first. *)
Fixpoint int_of_digits (acc : Z) (ds : string) : Z :=
  match ds with
  | "" => acc
  | String c ds' => int_of_digits (10 * acc + (Z.of_N (N_of_ascii c) - 48)) ds'
  end.

(** A single zero, or a digit from 1 to 9 and the digits after it. *)
Definition unsigned_part (s : string) : option (string * string) :=
  match s with
  | "" => None
  | String d r =>
      if Ascii.eqb d "0" then Some ("0", r)
      else if is_digit d then
        let (ds, rest) := digits r in Some (String d ds, rest)
      else None
  end.

(** First group: the integer, with its sign. *)
Definition integer_part (s : string) : option (string * string) :=
  match s with
  | "" => None
  | String c t =>
      if Ascii.eqb c "-" then
        match unsigned_part t with
        | Some (ds, rest) => Some (String c ds, rest)
        | None => None
        end
      else unsigned_part s
  end.

(** Second group: the fraction. *)
Definition frac_part (s : string) : string * string :=
  match s with
  | "" => ("", s)
  | String c r =>
      if Ascii.eqb c "." then
        match digits r with
        | ("", _) => ("", s)
        | (ds, rest) => (String c ds, rest)
        end
      else ("", s)
  end.

(** Third group: the exponent. *)
Definition exp_part (s : string) : string * string :=
  match s with
  | String e r =>
      if Ascii.eqb e "e" || Ascii.eqb e "E" then
        let (sign, r') :=
          match r with
          | String g r'' =>
              if Ascii.eqb g "-" || Ascii.eqb g "+"
              then (String g "", r'') else ("", r)
          | "" => ("", r)
          end in
        match digits r' with
        | ("", _) => ("", s)
        | (ds, rest) => (String e (sign ++ ds), rest)
        end
      else ("", s)
  | "" => ("", s)
  end.

(** [int(integer)] on the first group. *)
Definition int_of_literal (integer : string) : Z :=
  match integer with
  | "" => 0
  | String c ds =>
      if Ascii.eqb c "-" then - int_of_digits 0 ds
      else int_of_digits 0 integer
  end.

(** [match_number], and the conversion of the groups: [int(integer)]
    when there is neither fraction nor exponent, [float(...)]
    otherwise. *)
Definition match_number (s : string) : option (json * string) :=
  match integer_part s with
  | None => None
  | Some (integer, r1) =>
      let (frac, r2) := frac_part r1 in
      let (exp, r3) := exp_part r2 in
      match frac, exp with
      | "", "" => Some (JInt (int_of_literal integer), r3)
      | _, _ => Some (JFloat (integer ++ frac ++ exp), r3)
      end
  end.

(** *** Values

    [scan_once], [JSONObject] and [JSONArray].  The recursion of the
    three follows the nesting of the text and is bounded by [fuel]; a
    fuel above the length of the text is never used up
    ([scanners_fuel] below). *)

Fixpoint scan_once (fuel : nat) (s : string) : presult json :=
  match fuel with
  | O => NoFuel
  | S f =>
      match s with
      | "" => Raise ExpectingValue
      | String c s' =>
          if Ascii.eqb c dquote then
            match scanstring s' with
            | inl e => Raise e
            | inr (str, rest) => Done (JStr str) rest
            end
          else if Ascii.eqb c "{" then
            (* JSONObject: an empty object, or the first key *)
            match skip_ws s' with
            | String k r =>
                if Ascii.eqb k dquote then object_loop f [] r
                else if Ascii.eqb k "}" then Done (JObj []) r
                else Raise ExpectingPropertyName
            | "" => Raise ExpectingPropertyName
            end
          else if Ascii.eqb c "[" then
            (* JSONArray: an empty array, or the first value *)
            match skip_ws s' with
            | "" => array_loop f [] ""
            | String k r =>
                if Ascii.eqb k "]" then Done (JArr []) r
                else array_loop f [] (String k r)
            end
          else if prefix "null" s then Done JNull (drop 4 s)
          else if prefix "true" s then Done (JBool true) (drop 4 s)
          else if prefix "false" s then Done (JBool false) (drop 5 s)
          else
            match match_number s with
            | Some (v, rest) => Done v rest
            | None =>
                if prefix "NaN" s then Done (JFloat "NaN") (drop 3 s)
                else if prefix "Infinity" s then Done (JFloat "Infinity") (drop 8 s)
                else if prefix "-Infinity" s then Done (JFloat "-Infinity") (drop 9 s)
                else Raise ExpectingValue
            end
      end
  end

(** One turn of the [while True] of [JSONObject]: [s] starts just after
    the opening quote of a key, [pairs] are the pairs read so far. *)
with object_loop (fuel : nat) (pairs : list (string * json)) (s : string)
  : presult json :=
  match fuel with
  | O => NoFuel
  | S f =>
      match scanstring s with
      | inl e => Raise e
      | inr (key, r) =>
          match skip_ws r with
          | "" => Raise ExpectingColonDelimiter
          | String colon r1 =>
              if Ascii.eqb colon ":" then
                match scan_once f (skip_ws r1) with
                | Done value r2 =>
                    let pairs' := (pairs ++ [(key, value)])%list in
                    match skip_ws r2 with
                    | "" => Raise ExpectingCommaDelimiter
                    | String nextchar r3 =>
                        if Ascii.eqb nextchar "}" then
                          Done (JObj (dict_of_pairs pairs')) r3
                        else if Ascii.eqb nextchar "," then
                          match skip_ws r3 with
                          | "" => Raise ExpectingPropertyName
                          | String k r4 =>
                              if Ascii.eqb k dquote
                              then object_loop f pairs' r4
                              else Raise ExpectingPropertyName
                          end
                        else Raise ExpectingCommaDelimiter
                    end
                | Raise e => Raise e
                | NoFuel => NoFuel
                end
              else Raise ExpectingColonDelimiter
          end
      end
  end

(** One turn of the [while True] of [JSONArray]: [s] starts on a value,
    [values] are the values read so far. *)
with array_loop (fuel : nat) (values : list json) (s : string)
  : presult json :=
  match fuel with
  | O => NoFuel
  | S f =>
      match scan_once f s with
      | Done value r =>
          let values' := (values ++ [value])%list in
          match skip_ws r with
          | "" => Raise ExpectingCommaDelimiter
          | String nextchar r' =>
              if Ascii.eqb nextchar "]" then Done (JArr values') r'
              else if Ascii.eqb nextchar "," then
                array_loop f values' (skip_ws r')
              else Raise ExpectingCommaDelimiter
          end
      | Raise e => Raise e
      | NoFuel => NoFuel
      end
  end.

(** The UTF-8 encoding of U+FEFF. *)
Definition BOM : string :=
  String (byte 239) (String (byte 187) (String (byte 191) "")).

(** [json.loads(s)]: one value between optional white space, and
    nothing else. *)
Definition loads (s : string) : decode_error + json :=
  if prefix BOM s then inl UnexpectedBOM
  else
    match scan_once (S (2 * String.length s)) (skip_ws s) with
    | Done obj rest =>
        match skip_ws rest with
        | "" => inr obj
        | _ => inl ExtraData
        end
    | Raise e => inl e
    | NoFuel => inl FuelExhausted
    end.

End Json.

(** ** The text helpers of the configuration block *)

Module Text.

(** White space for [str.strip], in ASCII; the text it is used on has no
    other. *)
Definition is_space (c : ascii) : bool :=
  let n := N_of_ascii c in
  (n =? 32)%N || ((9 <=? n)%N && (n <=? 13)%N) || ((28 <=? n)%N && (n <=? 31)%N).

Fixpoint lstrip (s : string) : string :=
  match s with
  | "" => ""
  | String c s' => if is_space c then lstrip s' else s
  end.

Fixpoint rstrip (s : string) : string :=
  match s with
  | "" => ""
  | String c s' =>
      match rstrip s' with
      | "" => if is_space c then "" else String c ""
      | t => String c t
      end
  end.

(** [s.strip()]. *)
Definition strip (s : string) : string := rstrip (lstrip s).

(** [s.split('\n')]. *)
Fixpoint split_lines (s : string) : list string :=
  match s with
  | "" => [""]
  | String c s' =>
      if Ascii.eqb c newline then "" :: split_lines s'
      else
        match split_lines s' with
        | l :: ls => String c l :: ls
        | [] => [String c ""]
        end
  end.

(** ['\n'.join(ls)]. *)
Fixpoint join_lines (ls : list string) : string :=
  match ls with
  | [] => ""
  | [l] => l
  | l :: ls' => l ++ nl ++ join_lines ls'
  end.

Definition is_blank (c : ascii) : bool := Ascii.eqb c " " || Ascii.eqb c tab.

(** The spaces and tabs a line starts with. *)
Fixpoint indent (l : string) : string :=
  match l with
  | "" => ""
  | String c l' => if is_blank c then String c (indent l') else ""
  end.

(** A line of spaces and tabs only (or an empty one). *)
Fixpoint blank_line (l : string) : bool :=
  match l with
  | "" => true
  | String c l' => is_blank c && blank_line l'
  end.

Fixpoint common_prefix (a b : string) : string :=
  match a, b with
  | String x a', String y b' =>
      if Ascii.eqb x y then String x (common_prefix a' b') else ""
  | _, _ => ""
  end.

(** The margin of [textwrap.dedent]: what all the lines that are not
    blank start with. *)
Fixpoint margin (ls : list string) : option string :=
  match ls with
  | [] => None
  | l :: ls' =>
      if blank_line l then margin ls'
      else
        match margin ls' with
        | None => Some (indent l)
        | Some m => Some (common_prefix (indent l) m)
        end
  end.

(** [textwrap.dedent]: blank lines are emptied, the margin is taken off
    the others. *)
Definition dedent (s : string) : string :=
  let ls := split_lines s in
  let m := match margin ls with Some m => String.length m | None => 0 end in
  join_lines
    (map (fun l => if blank_line l then "" else Json.drop m l) ls).

End Text.

(** ** Configuration: the rubric and the instruction block *)

Definition QA_CRITERIA : list string :=
  [ "accuracy";
    "empathy_and_tone";
    "clarity";
    "actionability";
    "escalation_awareness" ].

(** The triple-quoted literal of lines 33 to 54, line by line. *)
Definition GUIDE_LINES : list string :=
  [ "";
    "You are a meticulous QA coach for SaaS support agents.";
    "Read the entire ticket transcript (customer, agent, follow-ups).";
    "Score the agent responses on the following 5 criteria from 1–5:";
    "- accuracy";
    "- empathy_and_tone";
    "- clarity";
    "- actionability";
    "- escalation_awareness";
    "";
    "Rules:";
    "- Return ONLY valid JSON. No code fences, no commentary.";
    "- JSON schema:";
    "  {";
    ("    " ++ qs "criteria_scores" ++ ": {" ++ qs "accuracy" ++ ": int, "
       ++ qs "empathy_and_tone" ++ ": int, " ++ qs "clarity" ++ ": int, "
       ++ qs "actionability" ++ ": int, " ++ qs "escalation_awareness"
       ++ ": int},")%string;
    ("    " ++ qs "overall_score" ++ ": int,")%string;
    ("    " ++ qs "coaching_summary" ++ ": "
       ++ qs "string with 2-4 crisp, actionable points" ++ ",")%string;
    ("    " ++ qs "suggested_1on1_questions" ++ ": [" ++ qs "short question 1"
       ++ ", " ++ qs "short question 2" ++ "]")%string;
    "  }";
    "- overall_score = sum(criteria)";
    "- coaching summary should be specific and actionable";
    "" ].

Definition SYSTEM_GUIDE : string :=
  Text.strip (Text.dedent (Text.join_lines GUIDE_LINES)).

(** ** [evaluate_ticket] *)

(** What [evaluate_ticket] can raise.  The first four are the failures the
    function raises itself or lets through from [json.loads]; the rest
    come from the operators applied to a value of an unexpected type. *)
Inductive error : Type :=
| NoJsonFound (message : string)
    (* line 69: [ValueError] carrying this message *)
| MalformedJson (why : Json.decode_error)
    (* line 70: [json.JSONDecodeError] *)
| MissingKeys (got : json)
    (* line 74: [ValueError], the message shows [got] *)
| CriteriaMismatch
    (* line 76: [ValueError("Criteria keys mismatch.")] *)
| AttributeError
    (* line 75: [.keys()] of a value that is not a [dict] *)
| TypeError
    (* lines 73 and 75: [in] or a string subscript on a value that does
       not have them *)
| KeyError
    (* line 75: subscript with a key the [dict] does not hold *)
| ModelCallFailed.
    (* line 63 or 64: the request to the model raised *)

Inductive outcome : Type :=
| Returns (data : json)
| Raises (e : error).

(** The f-string of lines 58 to 62. *)
Definition TRANSCRIPT_HEADER : string := nl ++ nl ++ "TICKET TRANSCRIPT:" ++ nl.

Definition prompt (ticket_text : string) : string :=
  SYSTEM_GUIDE ++ TRANSCRIPT_HEADER ++ ticket_text ++ nl.

(** The message of line 69. *)
Definition no_json_message (raw : string) : string :=
  "Model did not return JSON." ++ nl ++ "Raw output:" ++ nl ++ raw.

(** [k in data]; [None] when [data] has no such operator. *)
Definition py_in (k : string) (data : json) : option bool :=
  match data with
  | JObj d => Some (dict_has k d)
  | JArr items =>
      Some (existsb (fun x => match x with
                              | JStr s => String.eqb s k
                              | _ => false
                              end) items)
  | JStr s => Some (contains k s)
  | _ => None
  end.

(** [data[k]] for a string [k]. *)
Definition py_getitem (k : string) (data : json) : error + json :=
  match data with
  | JObj d =>
      match dict_get k d with
      | Some v => inr v
      | None => inl KeyError
      end
  | _ => inl TypeError
  end.

(** [v.keys()]. *)
Definition py_keys (v : json) : error + list string :=
  match v with
  | JObj d => inr (dict_keys d)
  | _ => inl AttributeError
  end.

Definition mem (x : string) (l : list string) : bool :=
  existsb (String.eqb x) l.

(** [set(a) == set(b)]. *)
Definition set_eqb (a b : list string) : bool :=
  forallb (fun x => mem x b) a && forallb (fun x => mem x a) b.

(** Lines 72 to 77: the validation of the parsed value. *)
Definition validate (data : json) : outcome :=
  match py_in "criteria_scores" data with
  | None => Raises TypeError
  | Some false => Raises (MissingKeys data)
  | Some true =>
      match py_in "overall_score" data with
      | None => Raises TypeError
      | Some false => Raises (MissingKeys data)
      | Some true =>
          match py_getitem "criteria_scores" data with
          | inl e => Raises e
          | inr scores =>
              match py_keys scores with
              | inl e => Raises e
              | inr keys =>
                  if set_eqb keys QA_CRITERIA then Returns data
                  else Raises CriteriaMismatch
              end
          end
      end
  end.

(** Line 70 and what follows it: the span goes to [json.loads], the value
    to the validation. *)
Definition parse_and_validate (span : string) : outcome :=
  match Json.loads span with
  | inl e => Raises (MalformedJson e)
  | inr data => validate data
  end.

(** Lines 66 to 77: what [evaluate_ticket] does with the raw text of the
    model. *)
Definition evaluate_raw (raw : string) : outcome :=
  match re_search JSON_SPAN raw with
  | None => Raises (NoJsonFound (no_json_message raw))
  | Some span => parse_and_validate span
  end.

(** The answer of [model.generate_content]: its [text] may be missing. *)
Record response : Type := { text : option string }.

Section Evaluate.

(** The model client: [None] when the call raises. *)
Variable generate_content : string -> option response.

(** [resp.text or ""]. *)
Definition raw_text (resp : response) : string :=
  match text resp with
  | Some t => t
  | None => ""
  end.

Definition evaluate_ticket (ticket_text : string) : outcome :=
  match generate_content (prompt ticket_text) with
  | None => Raises ModelCallFailed
  | Some resp => evaluate_raw (raw_text resp)
  end.

End Evaluate.

(** ** The ROI estimator, lines 130 to 134 *)

Module ROI.

Local Open Scope Z_scope.

(** [st.number_input(label, lo, hi, value)] hands back an integer of
    [lo .. hi]. *)
Definition in_range (lo hi v : Z) : Prop := lo <= v <= hi.

Definition managers_ok (managers : Z) : Prop := in_range 1 500 managers.
Definition hrs_saved_ok (hrs_saved_per_mgr : Z) : Prop :=
  in_range 1 20 hrs_saved_per_mgr.
Definition hourly_cost_ok (hourly_cost : Z) : Prop :=
  in_range 20 300 hourly_cost.

Definition weekly_hours (managers hrs_saved_per_mgr : Z) : Z :=
  managers * hrs_saved_per_mgr.

Definition weekly_savings (managers hrs_saved_per_mgr hourly_cost : Z) : Z :=
  weekly_hours managers hrs_saved_per_mgr * hourly_cost.

End ROI.

(** [answers generate_content ticket_text raw]: on the prompt built for
    [ticket_text], the model call returns and line 64 reads [raw]. *)
Definition answers (generate_content : string -> option response)
    (ticket_text raw : string) : Prop :=
  exists resp,
    generate_content (prompt ticket_text) = Some resp /\ raw_text resp = raw.

(** A model client that gives the same text to every prompt. *)
Definition canned (reply : option string) : string -> option response :=
  fun _ => Some {| text := reply |}.

(** ** Model outputs used as scenarios *)

Module Scenario.

(** [k: v] as a member of a JSON object, without spaces. *)
Definition member (k v : string) : string := qs k ++ ":" ++ v.

Definition five_scores : string :=
  "{" ++ member "accuracy" "4" ++ "," ++ member "empathy_and_tone" "3"
  ++ "," ++ member "clarity" "5" ++ "," ++ member "actionability" "4"
  ++ "," ++ member "escalation_awareness" "2" ++ "}".

(** The round trip of the specification: one object between two pieces
    of prose. *)
Definition round_trip_span : string :=
  "{" ++ member "criteria_scores" five_scores
  ++ "," ++ member "overall_score" "18"
  ++ "," ++ member "coaching_summary"
              (qs "Be more proactive about escalation.")
  ++ "," ++ member "suggested_1on1_questions"
              ("[" ++ qs "What blocked escalation?" ++ "]")
  ++ "}".

Definition round_trip_raw : string :=
  "Sure! " ++ round_trip_span ++ " Hope this helps!".

Definition round_trip_scores : list (string * json) :=
  [ ("accuracy", JInt 4);
    ("empathy_and_tone", JInt 3);
    ("clarity", JInt 5);
    ("actionability", JInt 4);
    ("escalation_awareness", JInt 2) ].

Definition round_trip_result : json :=
  JObj [ ("criteria_scores", JObj round_trip_scores);
         ("overall_score", JInt 18);
         ("coaching_summary", JStr "Be more proactive about escalation.");
         ("suggested_1on1_questions", JArr [JStr "What blocked escalation?"]) ].

(** An object cut off before any closing brace. *)
Definition truncated_raw : string :=
  "{" ++ qs "criteria_scores" ++ ": {" ++ qs "accuracy" ++ ":5,".

(** An object cut off after the closing brace of its inner object. *)
Definition unclosed_raw : string :=
  "{" ++ qs "criteria_scores" ++ ": {" ++ qs "accuracy" ++ ":5}".

(** Four of the five criteria: [escalation_awareness] is missing. *)
Definition four_keys_raw : string :=
  "{" ++ member "criteria_scores"
           ("{" ++ member "accuracy" "4" ++ "," ++ member "empathy_and_tone" "3"
            ++ "," ++ member "clarity" "5" ++ "," ++ member "actionability" "4"
            ++ "}")
  ++ "," ++ member "overall_score" "16" ++ "}".

Definition four_scores : list (string * json) :=
  [ ("accuracy", JInt 4);
    ("empathy_and_tone", JInt 3);
    ("clarity", JInt 5);
    ("actionability", JInt 4) ].

Definition four_keys_fields : list (string * json) :=
  [ ("criteria_scores", JObj four_scores); ("overall_score", JInt 16) ].

(** [criteria_scores] is a number, not an object. *)
Definition scalar_scores_raw : string :=
  "{" ++ member "criteria_scores" "5" ++ "," ++ member "overall_score" "1"
  ++ "}".

Definition scalar_scores_data : json :=
  JObj [ ("criteria_scores", JInt 5); ("overall_score", JInt 1) ].

(** No [overall_score]. *)
Definition no_overall_raw : string :=
  "{" ++ member "criteria_scores" five_scores ++ "}".

Definition no_overall_data : json :=
  JObj [ ("criteria_scores", JObj round_trip_scores) ].

(** No [overall_score], and a [criteria_scores] that is not an object. *)
Definition scalar_no_overall_raw : string :=
  "{" ++ member "criteria_scores" "5" ++ "}".

(** No [criteria_scores]. *)
Definition no_scores_raw : string :=
  "{" ++ member "overall_score" "18" ++ "}".

(** The five keys in another order; a total that is not the sum, scores
    out of range or not integers, questions that are not a list and no
    summary. *)
Definition unchecked_raw : string :=
  "{" ++ member "suggested_1on1_questions" (qs "none")
  ++ "," ++ member "overall_score" "99"
  ++ "," ++ member "criteria_scores"
              ("{" ++ member "clarity" "9" ++ ","
               ++ member "escalation_awareness" "-3" ++ ","
               ++ member "accuracy" (qs "high") ++ ","
               ++ member "actionability" "null" ++ ","
               ++ member "empathy_and_tone" "2.5" ++ "}")
  ++ "}".

Definition unchecked_scores : list (string * json) :=
  [ ("clarity", JInt 9);
    ("escalation_awareness", JInt (-3));
    ("accuracy", JStr "high");
    ("actionability", JNull);
    ("empathy_and_tone", JFloat "2.5") ].

Definition unchecked_fields : list (string * json) :=
  [ ("suggested_1on1_questions", JStr "none");
    ("overall_score", JInt 99);
    ("criteria_scores", JObj unchecked_scores) ].

Definition unchecked_result : json := JObj unchecked_fields.

(** Both braces, the closing one first. *)
Definition reversed_raw : string := "} text {".

End Scenario.

(** ** The shape of a decoded value

    [distinct_keys v]: no [dict] inside [v], at any depth, holds a key
    twice.  Python gives this for free; here it is what [dict_of_pairs]
    has to ensure. *)

#[warnings="-register-all"]
Inductive distinct_keys : json -> Prop :=
| DistinctNull : distinct_keys JNull
| DistinctBool (b : bool) : distinct_keys (JBool b)
| DistinctInt (z : Z) : distinct_keys (JInt z)
| DistinctFloat (literal : string) : distinct_keys (JFloat literal)
| DistinctStr (s : string) : distinct_keys (JStr s)
| DistinctArr (items : list json) :
    Forall distinct_keys items -> distinct_keys (JArr items)
| DistinctObj (fields : list (string * json)) :
    NoDup (dict_keys fields) ->
    Forall (fun kv => distinct_keys (snd kv)) fields ->
    distinct_keys (JObj fields).

(** ** The page: what the Evaluate button shows, lines 103 to 126

    The calls to Streamlit are recorded in the order they are made, each
    with the values it is given.  Of what Streamlit does with them one
    thing is modelled, for it ends the page: [st.progress] raises
    [StreamlitAPIException] for a [float] that is not between 0.0 and
    1.0; the other calls take the values they are given here.  A value
    put into an f-string is kept as the value: the text [f"{v}"] of a
    [float] is not computed.  The spinner and the expander only wrap the
    calls made inside them. *)

Inductive call : Type :=
| StError (e : error)
    (* line 108: [st.error(str(e))] *)
| StSubheader (overall : json)
    (* line 110: [st.subheader(f"Overall Score: {overall} / 25")] *)
| StWrite (text : string)
    (* lines 113, 117, 121 and 123: [st.write] of a [str] *)
| StWriteValue (v : json)
    (* line 118: [st.write(result["coaching_summary"])] *)
| StProgress (score : json) (label : string)
    (* line 115: [st.progress(score / 5.0, text=f"{label}: {score} / 5")] *)
| StJson (v : json).
    (* line 126: [st.json(result)] *)

(** The exceptions of the [else] branch; nothing catches them. *)
Inductive render_error : Type :=
| RKeyError (key : string)
| RTypeError
| ROverflowError
| RAttributeError
| RStreamlitAPIException.
    (* [st.progress] refusing its value *)

(** The calls made, and the exception that ended them if one did. *)
Definition page : Type := (list call * option render_error)%type.

Module Page.

Definition emit (c : call) : page := ([c], None).

Definition fail (e : render_error) : page := ([], Some e).

Definition done : page := ([], None).

(** One statement after the other: the second runs when the first has
    not raised. *)
Definition seq (p q : page) : page :=
  match p with
  | (cs, Some e) => (cs, Some e)
  | (cs, None) => let (ds, r) := q in ((cs ++ ds)%list, r)
  end.

(** A statement that first evaluates an expression. *)
Definition eval {A : Type} (x : render_error + A) (k : A -> page) : page :=
  match x with
  | inl e => fail e
  | inr a => k a
  end.

End Page.

Notation "p ;; q" := (Page.seq p q) (at level 61, right associativity).

(** [v[k]] for a string [k], line by line as the page needs it. *)
Definition subscript (k : string) (v : json) : render_error + json :=
  match v with
  | JObj d =>
      match dict_get k d with
      | Some x => inr x
      | None => inl (RKeyError k)
      end
  | _ => inl RTypeError
  end.

(** [v.get(k)]. *)
Definition py_get (k : string) (v : json) : render_error + json :=
  match v with
  | JObj d =>
      match dict_get k d with
      | Some x => inr x
      | None => inr JNull
      end
  | _ => inl RAttributeError
  end.

(** The least integer that [float] does not take: [2**1024 - 2**970],
    half way between the largest double and [2**1024]. *)
Definition FLOAT_OVERFLOW : Z := 2 ^ 1024 - 2 ^ 970.

(** What [v / 5.0] raises, if anything. *)
Definition div_by_float (v : json) : option render_error :=
  match v with
  | JInt z => if (FLOAT_OVERFLOW <=? Z.abs z)%Z then Some ROverflowError else None
  | JFloat _ => None
  | JBool _ => None
  | _ => Some RTypeError
  end.

(** The score of criterion [k] in [scores]; [None] stands in where there
    is none. *)
Definition score_of (scores : list (string * json)) (k : string) : json :=
  match dict_get k scores with
  | Some v => v
  | None => JNull
  end.


(** *** The label of a bar: [k.replace('_',' ').title()], on ASCII *)

Definition is_upper (c : ascii) : bool :=
  (65 <=? N_of_ascii c)%N && (N_of_ascii c <=? 90)%N.

Definition is_lower (c : ascii) : bool :=
  (97 <=? N_of_ascii c)%N && (N_of_ascii c <=? 122)%N.

Definition to_upper (c : ascii) : ascii :=
  if is_lower c then ascii_of_N (N_of_ascii c - 32) else c.

Definition to_lower (c : ascii) : ascii :=
  if is_upper c then ascii_of_N (N_of_ascii c + 32) else c.

(** [s.replace(old, new)] for two characters. *)
Fixpoint replace_char (old new : ascii) (s : string) : string :=
  match s with
  | "" => ""
  | String c s' =>
      String (if Ascii.eqb c old then new else c) (replace_char old new s')
  end.

(** [s.title()]: a letter after a letter is made small, any other letter
    is made capital. *)
Fixpoint title_from (after_letter : bool) (s : string) : string :=
  match s with
  | "" => ""
  | String c s' =>
      if is_upper c || is_lower c then
        String (if after_letter then to_lower c else to_upper c)
          (title_from true s')
      else String c (title_from false s')
  end.

Definition title (s : string) : string := title_from false s.

Definition criterion_label (k : string) : string :=
  title (replace_char "_" " " k).

(** *** The questions *)

(** A byte [10xxxxxx] continues the character before it. *)
Definition is_continuation (c : ascii) : bool :=
  (128 <=? N_of_ascii c)%N && (N_of_ascii c <? 192)%N.

(** The characters of a [str], each with all its bytes. *)
Fixpoint code_points (s : string) : list string :=
  match s with
  | "" => []
  | String c s' =>
      let rest := code_points s' in
      match s' with
      | "" => String c "" :: rest
      | String d _ =>
          if is_continuation d then
            match rest with
            | p :: ps => String c p :: ps
            | [] => [String c ""]
            end
          else String c "" :: rest
      end
  end.

(** What [for q in v] goes through. *)
Definition iterate (v : json) : render_error + list json :=
  match v with
  | JArr items => inr items
  | JStr s => inr (map JStr (code_points s))
  | JObj d => inr (map JStr (dict_keys d))
  | _ => inl RTypeError
  end.

(** Line 123: [st.write("• " + q)]. *)
Definition bullet (q : json) : page :=
  match q with
  | JStr s => Page.emit (StWrite ("• " ++ s))
  | _ => Page.fail RTypeError
  end.

Fixpoint bullets (qs : list json) : page :=
  match qs with
  | [] => Page.done
  | q :: qs' => bullet q ;; bullets qs'
  end.

Section Render.

(** Whether [float(literal) == 0.0]: the reading of a [float] literal is
    the interpreter's. *)
Variable float_is_zero : string -> bool.

(** [bool(v)]. *)
Definition truthy (v : json) : bool :=
  match v with
  | JNull => false
  | JBool b => b
  | JInt z => negb (z =? 0)%Z
  | JFloat literal => negb (float_is_zero literal)
  | JStr s => negb (String.eqb s "")
  | JArr items => match items with [] => false | _ => true end
  | JObj d => match d with [] => false | _ => true end
  end.

(** Whether [float(literal) / 5.0] is a value [st.progress] takes, one
    from 0.0 to 1.0: the arithmetic of a [float] is the interpreter's. *)
Variable float_in_bar : string -> bool.

(** Whether [st.progress] takes [score / 5.0], which is a [float]: an
    [int] from 0 to 5 gives 0.0, 0.2 and so on to 1.0, any other [int]
    a value below 0.0 or above 1.0; [True] and [False] give 0.2 and
    0.0. *)
Definition progress_takes (score : json) : bool :=
  match score with
  | JInt z => (0 <=? z)%Z && (z <=? 5)%Z
  | JBool _ => true
  | JFloat literal => float_in_bar literal
  | _ => false
  end.

(** What stops the bar of [score]: the division, which is evaluated
    first, or [st.progress] when it is called with the quotient. *)
Definition bar_refusal (score : json) : option render_error :=
  match div_by_float score with
  | Some e => Some e
  | None =>
      if progress_takes score then None else Some RStreamlitAPIException
  end.

(** Line 115, for one criterion. *)
Definition score_bar (result : json) (k : string) : page :=
  Page.eval (subscript "criteria_scores" result) (fun scores =>
  Page.eval (subscript k scores) (fun score =>
  match bar_refusal score with
  | Some e => Page.fail e
  | None => Page.emit (StProgress score (criterion_label k))
  end)).

(** Lines 114 and 115. *)
Fixpoint score_bars (result : json) (ks : list string) : page :=
  match ks with
  | [] => Page.done
  | k :: ks' => score_bar result k ;; score_bars result ks'
  end.

(** Lines 120 to 123. *)
Definition questions_section (result : json) : page :=
  Page.eval (py_get "suggested_1on1_questions" result) (fun questions =>
  if truthy questions then
    Page.emit (StWrite "### Suggested 1:1 Questions") ;;
    Page.eval (iterate questions) bullets
  else Page.done).

(** Lines 110 to 126: the [else] branch. *)
Definition show_result (result : json) : page :=
  Page.eval (subscript "overall_score" result) (fun overall =>
    Page.emit (StSubheader overall)) ;;
  Page.emit (StWrite "### Criteria Scores") ;;
  score_bars result QA_CRITERIA ;;
  Page.emit (StWrite "### Coaching Summary") ;;
  Page.eval (subscript "coaching_summary" result) (fun summary =>
    Page.emit (StWriteValue summary)) ;;
  questions_section result ;;
  Page.emit (StJson result).

(** Lines 103 to 126, when the button was pressed. *)
Definition on_evaluate (generate_content : string -> option response)
    (ticket : string) : page :=
  match evaluate_ticket generate_content ticket with
  | Raises e => Page.emit (StError e)
  | Returns result => show_result result
  end.

End Render.

(** ** The two metrics of the ROI estimator, lines 135 and 136 *)

Module Metric.

Definition digit_char (n : N) : ascii := ascii_of_N (48 + n).

(** The decimal digits of [n] put before [acc], the last digit first. *)
Fixpoint decimal_from (fuel : nat) (n : N) (acc : string) : string :=
  match fuel with
  | O => acc
  | S f =>
      let acc' := String (digit_char (n mod 10)) acc in
      if (n <? 10)%N then acc' else decimal_from f (n / 10) acc'
  end.

(** [str(n)] for a natural number: it has no more digits than bits. *)
Definition decimal (n : N) : string :=
  decimal_from (S (N.to_nat (N.log2 n))) n "".

(** [f"{z}"] for an [int]. *)
Definition str_int (z : Z) : string :=
  (if (z <? 0)%Z then "-" else "") ++ decimal (Z.abs_N z).

(** A comma before every group of three digits but the first; [lead] is
    the number of digits left in the group being written. *)
Fixpoint commas (lead : nat) (ds : string) : string :=
  match ds with
  | "" => ""
  | String c ds' =>
      match lead with
      | O => String "," (String c (commas 2 ds'))
      | S l => String c (commas l ds')
      end
  end.

Definition group_thousands (ds : string) : string :=
  commas (S ((String.length ds - 1) mod 3)) ds.

(** [format(z, ",.0f")] for an [int] below [2**53] in absolute value,
    which [float] takes without rounding. *)
Definition format_comma_0f (z : Z) : string :=
  (if (z <? 0)%Z then "-" else "") ++ group_thousands (decimal (Z.abs_N z)).

(** Line 135: [f"{weekly_hours}"]. *)
Definition hours_text (managers hrs_saved_per_mgr : Z) : string :=
  str_int (ROI.weekly_hours managers hrs_saved_per_mgr).

(** Line 136: [f"${weekly_savings:,.0f}"]. *)
Definition savings_text (managers hrs_saved_per_mgr hourly_cost : Z) : string :=
  "$" ++ format_comma_0f
           (ROI.weekly_savings managers hrs_saved_per_mgr hourly_cost).

(** [s.replace(c, "")]. *)
Fixpoint remove_char (c : ascii) (s : string) : string :=
  match s with
  | "" => ""
  | String x s' =>
      if Ascii.eqb x c then remove_char c s' else String x (remove_char c s')
  end.

(** [s.split(c)]. *)
Fixpoint split_char (c : ascii) (s : string) : list string :=
  match s with
  | "" => [""]
  | String x s' =>
      if Ascii.eqb x c then "" :: split_char c s'
      else
        match split_char c s' with
        | g :: gs => String x g :: gs
        | [] => [String x ""]
        end
  end.

Fixpoint all_digits (s : string) : bool :=
  match s with
  | "" => true
  | String c s' => Json.is_digit c && all_digits s'
  end.

(** The numeral of a positive number as [str] writes it: digits, at
    least one, the first not a zero. *)
Definition canonical (s : string) : bool :=
  match s with
  | "" => false
  | String c _ => negb (Ascii.eqb c "0") && all_digits s
  end.

(** The groups of a numeral written with thousands separators: one to
    three characters in the first, three in every other. *)
Definition grouped (groups : list string) : bool :=
  match groups with
  | [] => false
  | g :: gs =>
      Nat.leb 1 (String.length g) && Nat.leb (String.length g) 3
      && forallb (fun h => Nat.eqb (String.length h) 3) gs
  end.

End Metric.

(** ** Text after a value

    What the study of [json.loads] on a text with something added at its
    end needs: the characters that end a number, the values that end by
    themselves, and the last branches of [scan_once] as one function. *)

Module Tail.
Import Json.

(** The characters that may follow a value inside an object or an array. *)
Definition is_delimiter (c : ascii) : bool :=
  is_ws c || Ascii.eqb c "," || Ascii.eqb c "}" || Ascii.eqb c "]".

Definition delimited (r : string) : bool :=
  match r with
  | "" => false
  | String c _ => is_delimiter c
  end.

(** The text starts with [c]. *)
Definition head_is (c : ascii) (r : string) : bool :=
  match r with
  | "" => false
  | String x _ => Ascii.eqb x c
  end.

(** A string, an object or an array starts here. *)
Definition starts_struct (s : string) : bool :=
  match s with
  | "" => false
  | String c _ => Ascii.eqb c dquote || Ascii.eqb c "{" || Ascii.eqb c "["
  end.

(** [scan_once] on a text that starts none of the three: the constants
    and the numbers. *)
Definition scan_atom (s : string) : presult json :=
  if prefix "null" s then Done JNull (drop 4 s)
  else if prefix "true" s then Done (JBool true) (drop 4 s)
  else if prefix "false" s then Done (JBool false) (drop 5 s)
  else
    match match_number s with
    | Some (v, rest) => Done v rest
    | None =>
        if prefix "NaN" s then Done (JFloat "NaN") (drop 3 s)
        else if prefix "Infinity" s then Done (JFloat "Infinity") (drop 8 s)
        else if prefix "-Infinity" s then Done (JFloat "-Infinity") (drop 9 s)
        else Raise ExpectingValue
    end.

End Tail.

(** ** More model outputs used as scenarios *)

Module PageScenario.

(** The fields of the result of the round trip. *)
Definition round_trip_fields : list (string * json) :=
  [ ("criteria_scores", JObj Scenario.round_trip_scores);
    ("overall_score", JInt 18);
    ("coaching_summary", JStr "Be more proactive about escalation.");
    ("suggested_1on1_questions", JArr [JStr "What blocked escalation?"]) ].

(** The scores and the total, and nothing else. *)
Definition no_summary_raw : string :=
  "{" ++ Scenario.member "criteria_scores" Scenario.five_scores
  ++ "," ++ Scenario.member "overall_score" "18" ++ "}".

Definition no_summary_fields : list (string * json) :=
  [ ("criteria_scores", JObj Scenario.round_trip_scores);
    ("overall_score", JInt 18) ].

(** A reading of [float] literals for the scenarios, none of which has
    one. *)
Definition no_float (literal : string) : bool := false.

(** The second score is 9, the third is not a number. *)
Definition out_of_range_raw : string :=
  "{" ++ Scenario.member "criteria_scores"
           ("{" ++ Scenario.member "accuracy" "4" ++ ","
            ++ Scenario.member "empathy_and_tone" "9" ++ ","
            ++ Scenario.member "clarity" (qs "high") ++ ","
            ++ Scenario.member "actionability" "4" ++ ","
            ++ Scenario.member "escalation_awareness" "2" ++ "}")
  ++ "," ++ Scenario.member "overall_score" "19" ++ "}".

Definition out_of_range_scores : list (string * json) :=
  [ ("accuracy", JInt 4);
    ("empathy_and_tone", JInt 9);
    ("clarity", JStr "high");
    ("actionability", JInt 4);
    ("escalation_awareness", JInt 2) ].

Definition out_of_range_fields : list (string * json) :=
  [ ("criteria_scores", JObj out_of_range_scores);
    ("overall_score", JInt 19) ].

End PageScenario.

(** * Properties *)

(** ** Searching characters *)

Section CharSearch.

Variable c : ascii.

Lemma find_get (s : string) (i : nat) :
  find c s = Some i -> get i s = Some c.
Proof.
  revert i; induction s as [|x s IH]; intros i; simpl; [discriminate|].
  destruct (Ascii.eqb_spec x c) as [->|Hne].
  - intros [= <-]; reflexivity.
  - destruct (find c s) as [k|]; simpl; [|discriminate].
    intros [= <-]. now apply IH.
Qed.

Lemma find_least (s : string) (i k : nat) :
  find c s = Some i -> get k s = Some c -> i <= k.
Proof.
  revert i k; induction s as [|x s IH]; intros i k; simpl; [discriminate|].
  destruct (Ascii.eqb_spec x c) as [->|Hne].
  - intros [= <-] _; lia.
  - destruct (find c s) as [i'|] eqn:E; simpl; [|discriminate].
    intros [= <-]. destruct k as [|k]; simpl.
    + intros [= ->]; contradiction.
    + intros Hk. specialize (IH i' k eq_refl Hk). lia.
Qed.

Lemma find_none (s : string) : find c s = None <-> occurs c s = false.
Proof.
  induction s as [|x s IH]; simpl; [tauto|].
  destruct (Ascii.eqb x c); simpl.
  - split; discriminate.
  - destruct (find c s); simpl.
    + split; [discriminate|]. intros H. apply IH in H. discriminate.
    + tauto.
Qed.

Lemma rfind_get (s : string) (j : nat) :
  rfind c s = Some j -> get j s = Some c.
Proof.
  revert j; induction s as [|x s IH]; intros j; simpl; [discriminate|].
  destruct (rfind c s) as [k|].
  - intros [= <-]. now apply IH.
  - destruct (Ascii.eqb_spec x c) as [->|Hne]; [|discriminate].
    intros [= <-]; reflexivity.
Qed.

Lemma rfind_none_get (s : string) (k : nat) :
  rfind c s = None -> get k s <> Some c.
Proof.
  revert k; induction s as [|x s IH]; intros k; simpl; [discriminate|].
  destruct (rfind c s) as [j|]; [discriminate|].
  destruct (Ascii.eqb_spec x c) as [->|Hne]; [discriminate|].
  intros _. destruct k as [|k]; [congruence|]. now apply IH.
Qed.

Lemma rfind_greatest (s : string) (j k : nat) :
  rfind c s = Some j -> get k s = Some c -> k <= j.
Proof.
  revert j k; induction s as [|x s IH]; intros j k; simpl; [discriminate|].
  destruct (rfind c s) as [j'|] eqn:E.
  - intros [= <-]. destruct k as [|k]; [lia|].
    intros Hk. specialize (IH j' k eq_refl Hk). lia.
  - destruct (Ascii.eqb_spec x c) as [->|Hne]; [|discriminate].
    intros [= <-]. destruct k as [|k]; [lia|].
    intros Hk. exfalso. now apply (rfind_none_get s k E).
Qed.

Lemma rfind_none (s : string) : rfind c s = None <-> occurs c s = false.
Proof.
  induction s as [|x s IH]; simpl; [tauto|].
  destruct (rfind c s).
  - split; [discriminate|]. intros H.
    apply orb_false_iff in H as [_ H]. apply IH in H. discriminate.
  - destruct (Ascii.eqb x c); simpl; [split; discriminate|tauto].
Qed.

Lemma get_find (s : string) (k : nat) :
  get k s = Some c -> exists i, find c s = Some i /\ i <= k.
Proof.
  intros Hk. destruct (find c s) as [i|] eqn:E.
  - exists i; split; [reflexivity|]. now apply (find_least s i k).
  - exfalso. revert k Hk E. induction s as [|x s IH]; intros k; simpl.
    + discriminate.
    + destruct (Ascii.eqb_spec x c) as [->|Hne]; [discriminate|].
      destruct k as [|k]; [congruence|].
      intros Hk. destruct (find c s) eqn:E'; simpl; [discriminate|].
      intros _. now apply (IH k).
Qed.

Lemma get_rfind (s : string) (k : nat) :
  get k s = Some c -> exists j, rfind c s = Some j /\ k <= j.
Proof.
  intros Hk. destruct (rfind c s) as [j|] eqn:E.
  - exists j; split; [reflexivity|]. now apply (rfind_greatest s j k).
  - exfalso. now apply (rfind_none_get s k E).
Qed.

End CharSearch.

(** ** The span found by the regular expression *)

Lemma substring_zero (n : nat) (s : string) : substring n 0 s = "".
Proof.
  revert s; induction n as [|n IH]; intros [|x s]; simpl; auto.
Qed.

(** [.*\}] takes everything up to the last closing brace. *)
Lemma match_star_close (s : string) :
  match_here [AnyStar; Lit "}"%char] s =
  match rfind "}" s with
  | Some j => Some (substring 0 (S j) s)
  | None => None
  end.
Proof.
  induction s as [|x s IH]; [reflexivity|].
  change (match_here [AnyStar; Lit "}"%char] (String x s))
    with (match match_here [AnyStar; Lit "}"%char] s with
          | Some m => Some (String x m)
          | None => match_here [Lit "}"%char] (String x s)
          end).
  rewrite IH. simpl rfind.
  destruct (rfind "}" s) as [j|]; [reflexivity|].
  simpl. destruct (Ascii.eqb x "}"); [|reflexivity].
  now rewrite substring_zero.
Qed.

Lemma match_json_span (x : ascii) (s : string) :
  match_here JSON_SPAN (String x s) =
  if Ascii.eqb x "{" then
    match rfind "}" s with
    | Some j => Some (String x (substring 0 (S j) s))
    | None => None
    end
  else None.
Proof.
  unfold JSON_SPAN.
  change (match_here (Lit "{"%char :: [AnyStar; Lit "}"%char]) (String x s))
    with (if Ascii.eqb x "{"
          then option_map (String x) (match_here [AnyStar; Lit "}"%char] s)
          else None).
  rewrite match_star_close.
  destruct (Ascii.eqb x "{"); [|reflexivity].
  destruct (rfind "}" s); reflexivity.
Qed.

(** The search of line 67 finds the greedy span, and nothing when there
    is none. *)
Lemma re_search_greedy (raw : string) :
  re_search JSON_SPAN raw = greedy_span raw.
Proof.
  induction raw as [|x s IH]; [reflexivity|].
  change (re_search JSON_SPAN (String x s))
    with (match match_here JSON_SPAN (String x s) with
          | Some m => Some m
          | None => re_search JSON_SPAN s
          end).
  rewrite match_json_span, IH. unfold greedy_span. simpl find. simpl rfind.
  destruct (Ascii.eqb_spec x "{") as [->|Hne].
  - destruct (rfind "}" s) as [j|] eqn:Ej.
    + simpl. now rewrite Nat.add_1_r.
    + simpl. destruct (find "{" s); reflexivity.
  - destruct (find "{" s) as [i|] eqn:Ei; simpl.
    + destruct (rfind "}" s) as [j|] eqn:Ej.
      * change (Nat.ltb (S i) (S j)) with (Nat.ltb i j).
        destruct (Nat.ltb i j) eqn:Elt; [|reflexivity].
        apply Nat.ltb_lt in Elt.
        replace (S j - S i + 1) with (j - i + 1) by lia. reflexivity.
      * destruct (Ascii.eqb x "}"); reflexivity.
    + reflexivity.
Qed.

(** ** [json.loads] always answers

    Every scanner leaves strictly less text than it was given, so the
    nesting depth of a text is below its length and the recursion bound of
    [Json.loads] is never reached. *)

Module JsonFacts.
Import Json.

Lemma skip_ws_length (s : string) :
  String.length (skip_ws s) <= String.length s.
Proof.
  induction s as [|c s IH]; simpl; [lia|].
  destruct (is_ws c); simpl; lia.
Qed.

Lemma drop_length (n : nat) (s : string) :
  String.length (drop n s) <= String.length s.
Proof.
  revert s; induction n as [|n IH]; intros [|c s]; simpl; try lia.
  specialize (IH s); lia.
Qed.

Lemma drop_S_length (n : nat) (c : ascii) (s : string) :
  String.length (drop (S n) (String c s)) < S (String.length s).
Proof. simpl. pose proof (drop_length n s). lia. Qed.

Lemma scan_chunks_length (s : string) (cs : list chunk) (r : string) :
  scan_chunks s = inr (cs, r) -> String.length r < String.length s.
Proof.
  remember (String.length s) as n eqn:Hn.
  revert s cs r Hn.
  induction n as [n IH] using lt_wf_ind.
  intros s cs r Hn. destruct s as [|c s]; simpl; [discriminate|].
  assert (Hpush : forall x t, String.length t < n ->
            push x (scan_chunks t) = inr (cs, r) ->
            String.length r < String.length t).
  { intros x t Ht. unfold push.
    destruct (scan_chunks t) as [e|[cs' r']] eqn:E; [discriminate|].
    intros [= _ <-]. now apply (IH (String.length t) Ht t cs'). }
  simpl in Hn.
  destruct (Ascii.eqb c dquote).
  { intros [= _ <-]. lia. }
  destruct (Ascii.eqb c backslash).
  { destruct s as [|e s]; [discriminate|]. simpl in Hn.
    destruct (Ascii.eqb e "u").
    - destruct s as [|h1 [|h2 [|h3 [|h4 t]]]]; try discriminate.
      simpl in Hn. destruct (hex4 h1 h2 h3 h4); [|discriminate].
      intros H. apply Hpush in H; simpl; lia.
    - destruct (BACKSLASH e); [|discriminate].
      intros H. apply Hpush in H; simpl; lia. }
  destruct (N_of_ascii c <? 32)%N; [discriminate|].
  intros H. apply Hpush in H; lia.
Qed.

Lemma scanstring_length (s : string) (k r : string) :
  scanstring s = inr (k, r) -> String.length r < String.length s.
Proof.
  unfold scanstring.
  destruct (scan_chunks s) as [e|[cs r']] eqn:E; [discriminate|].
  intros [= _ <-]. now apply (scan_chunks_length s cs).
Qed.

Lemma digits_length (s ds r : string) :
  digits s = (ds, r) -> String.length r <= String.length s.
Proof.
  revert ds r; induction s as [|c s IH]; intros ds r; simpl.
  - intros [= _ <-]; simpl; lia.
  - destruct (is_digit c).
    + destruct (digits s) as [ds' r'] eqn:E. intros [= _ <-].
      specialize (IH ds' r' eq_refl). lia.
    + intros [= _ <-]; simpl; lia.
Qed.

Lemma unsigned_part_length (s ds r : string) :
  unsigned_part s = Some (ds, r) -> String.length r < String.length s.
Proof.
  destruct s as [|d t]; [discriminate|]. simpl.
  destruct (Ascii.eqb d "0"); [intros [= _ <-]; lia|].
  destruct (is_digit d); [|discriminate].
  destruct (digits t) as [ds' r'] eqn:E. intros [= _ <-].
  apply digits_length in E. lia.
Qed.

Lemma integer_part_length (s ds r : string) :
  integer_part s = Some (ds, r) -> String.length r < String.length s.
Proof.
  unfold integer_part. destruct s as [|c s]; [discriminate|].
  destruct (Ascii.eqb c "-").
  - destruct (unsigned_part s) as [[ds' r']|] eqn:E; [|discriminate].
    intros [= _ <-]. apply unsigned_part_length in E. simpl. lia.
  - apply unsigned_part_length.
Qed.

Lemma frac_part_length (s f r : string) :
  frac_part s = (f, r) -> String.length r <= String.length s.
Proof.
  unfold frac_part. destruct s as [|c s]; [intros [= _ <-]; lia|].
  destruct (Ascii.eqb c "."); [|intros [= _ <-]; lia].
  destruct (digits s) as [ds r'] eqn:E. apply digits_length in E.
  destruct ds; intros [= _ <-]; simpl; lia.
Qed.

Lemma exp_part_length (s x r : string) :
  exp_part s = (x, r) -> String.length r <= String.length s.
Proof.
  unfold exp_part. destruct s as [|c s]; [intros [= _ <-]; lia|].
  destruct (Ascii.eqb c "e" || Ascii.eqb c "E"); [|intros [= _ <-]; lia].
  match goal with
  | |- context [let (_, _) := ?u in _] => destruct u as [sign r'] eqn:Es
  end.
  assert (Hr' : String.length r' <= String.length s).
  { destruct s as [|g s']; [injection Es as _ <-; lia|].
    destruct (Ascii.eqb g "-" || Ascii.eqb g "+");
      injection Es as _ <-; simpl; lia. }
  destruct (digits r') as [ds r''] eqn:E. apply digits_length in E.
  destruct ds; intros [= _ <-]; simpl; lia.
Qed.

Lemma match_number_length (s : string) (v : json) (r : string) :
  match_number s = Some (v, r) -> String.length r < String.length s.
Proof.
  unfold match_number.
  destruct (integer_part s) as [[i r1]|] eqn:Ei; [|discriminate].
  apply integer_part_length in Ei.
  destruct (frac_part r1) as [f r2] eqn:Ef. apply frac_part_length in Ef.
  destruct (exp_part r2) as [x r3] eqn:Ex. apply exp_part_length in Ex.
  destruct f, x; intros [= _ <-]; lia.
Qed.

Ltac case_char :=
  match goal with
  | |- context [if Ascii.eqb ?a ?b then _ else _] => destruct (Ascii.eqb a b) eqn:?
  end.

Ltac case_prefix :=
  match goal with
  | |- context [if prefix ?a ?b then _ else _] => destruct (prefix a b) eqn:?
  end.

Ltac done_eq :=
  let H := fresh in
  intros H;
  match type of H with
  | Done _ ?t = Done _ ?r =>
      assert (r = t) by congruence; subst r; clear H
  end.

(** Each scanner that succeeds has consumed at least one character. *)
Lemma scanners_progress (fuel : nat) :
  (forall s v r, scan_once fuel s = Done v r ->
                 String.length r < String.length s) /\
  (forall pairs s v r, object_loop fuel pairs s = Done v r ->
                 String.length r < String.length s) /\
  (forall values s v r, array_loop fuel values s = Done v r ->
                 String.length r < String.length s).
Proof.
  induction fuel as [|f (IHs & IHo & IHa)];
    [repeat split; intros; discriminate|].
  repeat split.
  - (* scan_once *)
    intros s v r.
    destruct s as [|c s']; [discriminate|].
    cbn -[prefix drop skip_ws scanstring match_number].
    case_char.
    { destruct (scanstring s') as [e|[str rest]] eqn:E; [discriminate|].
      intros [= _ <-]. apply scanstring_length in E. simpl; lia. }
    case_char.
    { pose proof (skip_ws_length s') as Hw.
      destruct (skip_ws s') as [|k t]; [discriminate|]. simpl in Hw.
      case_char.
      - intros H. apply IHo in H. simpl; lia.
      - case_char; [|discriminate]. intros [= _ <-]. simpl; lia. }
    case_char.
    { pose proof (skip_ws_length s') as Hw.
      destruct (skip_ws s') as [|k t].
      - intros H. apply IHa in H. simpl in *; lia.
      - simpl in Hw. case_char.
        + intros [= _ <-]. simpl; lia.
        + intros H. apply IHa in H. simpl in *; lia. }
    case_prefix. { done_eq. apply drop_S_length. }
    case_prefix. { done_eq. apply drop_S_length. }
    case_prefix. { done_eq. apply drop_S_length. }
    destruct (match_number (String c s')) as [[v' rest]|] eqn:E.
    { intros [= _ <-]. now apply match_number_length in E. }
    case_prefix. { done_eq. apply drop_S_length. }
    case_prefix. { done_eq. apply drop_S_length. }
    case_prefix. { done_eq. apply drop_S_length. }
    discriminate.
  - (* object_loop *)
    intros pairs s v r.
    cbn -[skip_ws scanstring dict_of_pairs].
    destruct (scanstring s) as [e|[key r0]] eqn:E; [discriminate|].
    apply scanstring_length in E.
    pose proof (skip_ws_length r0) as Hw.
    destruct (skip_ws r0) as [|colon r1]; [discriminate|]. simpl in Hw.
    case_char; [|discriminate].
    pose proof (skip_ws_length r1) as Hw1.
    destruct (scan_once f (skip_ws r1)) as [value r2| |] eqn:Ev;
      try discriminate.
    apply IHs in Ev.
    pose proof (skip_ws_length r2) as Hw2.
    destruct (skip_ws r2) as [|nextchar r3]; [discriminate|]. simpl in Hw2.
    case_char. { intros [= _ <-]. lia. }
    case_char; [|discriminate].
    pose proof (skip_ws_length r3) as Hw3.
    destruct (skip_ws r3) as [|k r4]; [discriminate|]. simpl in Hw3.
    case_char; [|discriminate].
    intros H. apply IHo in H. lia.
  - (* array_loop *)
    intros values s v r.
    cbn -[skip_ws].
    destruct (scan_once f s) as [value r0| |] eqn:Ev; try discriminate.
    apply IHs in Ev.
    pose proof (skip_ws_length r0) as Hw.
    destruct (skip_ws r0) as [|nextchar r']; [discriminate|]. simpl in Hw.
    case_char. { intros [= _ <-]. lia. }
    case_char; [|discriminate].
    pose proof (skip_ws_length r') as Hw'.
    intros H. apply IHa in H. lia.
Qed.

(** With enough fuel for the length of the text, no scanner stops for
    lack of it. *)
Lemma scanners_fuel (fuel : nat) :
  (forall s, 2 * String.length s < fuel -> scan_once fuel s <> NoFuel) /\
  (forall pairs s, 2 * String.length s < fuel ->
                   object_loop fuel pairs s <> NoFuel) /\
  (forall values s, 2 * String.length s + 1 < fuel ->
                   array_loop fuel values s <> NoFuel).
Proof.
  induction fuel as [|f (IHs & IHo & IHa)];
    [repeat split; intros; lia|].
  destruct (scanners_progress f) as (Ps & Po & Pa).
  repeat split.
  - (* scan_once *)
    intros s Hf.
    destruct s as [|c s']; [discriminate|]. simpl in Hf.
    cbn -[prefix drop skip_ws scanstring match_number].
    case_char.
    { destruct (scanstring s') as [e|[str rest]]; discriminate. }
    case_char.
    { pose proof (skip_ws_length s') as Hw.
      destruct (skip_ws s') as [|k t]; [discriminate|]. simpl in Hw.
      case_char; [apply IHo; lia|]. case_char; discriminate. }
    case_char.
    { pose proof (skip_ws_length s') as Hw.
      destruct (skip_ws s') as [|k t].
      - apply IHa. simpl in *; lia.
      - simpl in Hw. case_char; [discriminate|].
        apply IHa. simpl; lia. }
    repeat (case_prefix; [discriminate|]).
    destruct (match_number (String c s')) as [[v' rest]|]; [discriminate|].
    repeat (case_prefix; [discriminate|]).
    discriminate.
  - (* object_loop *)
    intros pairs s Hf.
    cbn -[skip_ws scanstring dict_of_pairs].
    destruct (scanstring s) as [e|[key r0]] eqn:E; [discriminate|].
    apply scanstring_length in E.
    pose proof (skip_ws_length r0) as Hw.
    destruct (skip_ws r0) as [|colon r1]; [discriminate|]. simpl in Hw.
    case_char; [|discriminate].
    pose proof (skip_ws_length r1) as Hw1.
    destruct (scan_once f (skip_ws r1)) as [value r2| |] eqn:Ev;
      [| discriminate | exfalso; revert Ev; apply IHs; lia].
    apply Ps in Ev.
    pose proof (skip_ws_length r2) as Hw2.
    destruct (skip_ws r2) as [|nextchar r3]; [discriminate|]. simpl in Hw2.
    case_char; [discriminate|].
    case_char; [|discriminate].
    pose proof (skip_ws_length r3) as Hw3.
    destruct (skip_ws r3) as [|k r4]; [discriminate|]. simpl in Hw3.
    case_char; [|discriminate].
    apply IHo. lia.
  - (* array_loop *)
    intros values s Hf.
    cbn -[skip_ws].
    destruct (scan_once f s) as [value r0| |] eqn:Ev;
      [| discriminate | exfalso; revert Ev; apply IHs; lia].
    apply Ps in Ev.
    pose proof (skip_ws_length r0) as Hw.
    destruct (skip_ws r0) as [|nextchar r']; [discriminate|]. simpl in Hw.
    case_char; [discriminate|].
    case_char; [|discriminate].
    pose proof (skip_ws_length r') as Hw'.
    apply IHa. lia.
Qed.

Lemma scan_chunks_raise (s : string) :
  scan_chunks s <> inl FuelExhausted.
Proof.
  remember (String.length s) as n eqn:Hn.
  revert s Hn.
  induction n as [n IH] using lt_wf_ind.
  intros s Hn. destruct s as [|c s]; simpl; [discriminate|].
  assert (Hpush : forall x t, String.length t < n ->
            push x (scan_chunks t) <> inl FuelExhausted).
  { intros x t Ht. unfold push.
    pose proof (IH (String.length t) Ht t eq_refl) as H.
    destruct (scan_chunks t) as [e|[cs' r']]; congruence. }
  simpl in Hn.
  destruct (Ascii.eqb c dquote); [discriminate|].
  destruct (Ascii.eqb c backslash).
  { destruct s as [|e s]; [discriminate|]. simpl in Hn.
    destruct (Ascii.eqb e "u").
    - destruct s as [|h1 [|h2 [|h3 [|h4 t]]]]; try discriminate.
      simpl in Hn. destruct (hex4 h1 h2 h3 h4); [|discriminate].
      apply Hpush; lia.
    - destruct (BACKSLASH e); [|discriminate]. apply Hpush; lia. }
  destruct (N_of_ascii c <? 32)%N; [discriminate|].
  apply Hpush; lia.
Qed.

Lemma scanstring_raise (s : string) : scanstring s <> inl FuelExhausted.
Proof.
  unfold scanstring. pose proof (scan_chunks_raise s) as H.
  destruct (scan_chunks s) as [e|[cs r]]; congruence.
Qed.

(** [FuelExhausted] is not among the reasons a scanner gives. *)
Lemma scanners_raise (fuel : nat) :
  (forall s, scan_once fuel s <> Raise FuelExhausted) /\
  (forall pairs s, object_loop fuel pairs s <> Raise FuelExhausted) /\
  (forall values s, array_loop fuel values s <> Raise FuelExhausted).
Proof.
  induction fuel as [|f (IHs & IHo & IHa)];
    [repeat split; intros; discriminate|].
  repeat split.
  - intros s. destruct s as [|c s']; [discriminate|].
    cbn -[prefix drop skip_ws scanstring match_number].
    case_char.
    { pose proof (scanstring_raise s') as H.
      destruct (scanstring s') as [e|[str rest]]; congruence. }
    case_char.
    { destruct (skip_ws s') as [|k t]; [discriminate|].
      case_char; [apply IHo|]. case_char; discriminate. }
    case_char.
    { destruct (skip_ws s') as [|k t]; [apply IHa|].
      case_char; [discriminate|apply IHa]. }
    repeat (case_prefix; [discriminate|]).
    destruct (match_number (String c s')) as [[v' rest]|]; [discriminate|].
    repeat (case_prefix; [discriminate|]).
    discriminate.
  - intros pairs s.
    cbn -[skip_ws scanstring dict_of_pairs].
    pose proof (scanstring_raise s) as H.
    destruct (scanstring s) as [e|[key r0]]; [congruence|].
    destruct (skip_ws r0) as [|colon r1]; [discriminate|].
    case_char; [|discriminate].
    pose proof (IHs (skip_ws r1)) as Hv.
    destruct (scan_once f (skip_ws r1)) as [value r2| |];
      [| congruence | discriminate].
    destruct (skip_ws r2) as [|nextchar r3]; [discriminate|].
    case_char; [discriminate|].
    case_char; [|discriminate].
    destruct (skip_ws r3) as [|k r4]; [discriminate|].
    case_char; [apply IHo|discriminate].
  - intros values s.
    cbn -[skip_ws].
    pose proof (IHs s) as Hv.
    destruct (scan_once f s) as [value r0| |];
      [| congruence | discriminate].
    destruct (skip_ws r0) as [|nextchar r']; [discriminate|].
    case_char; [discriminate|].
    case_char; [apply IHa|discriminate].
Qed.

(** [json.loads] returns a value or raises a [JSONDecodeError]: the
    bound on the recursion is not what stops it. *)
Lemma loads_fuel (s : string) : loads s <> inl FuelExhausted.
Proof.
  unfold loads. destruct (prefix BOM s); [discriminate|].
  pose proof (skip_ws_length s) as Hw.
  destruct (scan_once (S (2 * String.length s)) (skip_ws s))
    as [obj rest| |] eqn:E.
  - destruct (skip_ws rest); discriminate.
  - intros [= ->]. revert E. apply (proj1 (scanners_raise _)).
  - exfalso. revert E. apply (proj1 (scanners_fuel _)). lia.
Qed.

End JsonFacts.

(** ** What the span parses to *)

Module SpanFacts.
Import Json JsonFacts.

(** A match of [\{.*\}] starts with an opening brace. *)
Lemma span_starts_with_brace (raw span : string) :
  re_search JSON_SPAN raw = Some span ->
  exists rest, span = String "{" rest.
Proof.
  induction raw as [|x s IH]; [discriminate|].
  change (re_search JSON_SPAN (String x s))
    with (match match_here JSON_SPAN (String x s) with
          | Some m => Some m
          | None => re_search JSON_SPAN s
          end).
  rewrite match_json_span.
  destruct (Ascii.eqb_spec x "{") as [->|Hne]; [|exact IH].
  destruct (rfind "}" s) as [j|]; [|exact IH].
  intros [= <-]. eexists; reflexivity.
Qed.

(** [JSONObject] builds a [dict]. *)
Lemma object_loop_dict (fuel : nat) :
  forall pairs s v r,
    object_loop fuel pairs s = Done v r -> exists fields, v = JObj fields.
Proof.
  induction fuel as [|f IH]; intros pairs s v r; [discriminate|].
  cbn -[skip_ws scanstring dict_of_pairs].
  destruct (scanstring s) as [e|[key r0]]; [discriminate|].
  destruct (skip_ws r0) as [|colon r1]; [discriminate|].
  case_char; [|discriminate].
  destruct (scan_once f (skip_ws r1)) as [value r2| |]; try discriminate.
  destruct (skip_ws r2) as [|nextchar r3]; [discriminate|].
  case_char. { intros [= <- _]. eexists; reflexivity. }
  case_char; [|discriminate].
  destruct (skip_ws r3) as [|k r4]; [discriminate|].
  case_char; [apply IH|discriminate].
Qed.

(** A text that starts with an opening brace is decoded to a [dict],
    when it is decoded at all. *)
Lemma loads_brace_dict (rest : string) (data : json) :
  loads (String "{" rest) = inr data -> exists fields, data = JObj fields.
Proof.
  unfold loads.
  change (prefix BOM (String "{" rest)) with false.
  change (skip_ws (String "{" rest)) with (String "{" rest).
  cbn -[skip_ws scanstring dict_of_pairs String.length Nat.mul].
  destruct (skip_ws rest) as [|k t]; [discriminate|].
  case_char.
  - destruct (object_loop _ [] t) as [obj r| |] eqn:E; try discriminate.
    apply object_loop_dict in E as [fields ->].
    destruct (skip_ws r); [|discriminate]. intros [= <-].
    eexists; reflexivity.
  - case_char; [|discriminate].
    destruct (skip_ws t); [|discriminate]. intros [= <-].
    eexists; reflexivity.
Qed.

(** The value line 70 binds to [data] is a [dict]. *)
Lemma span_loads_dict (raw span : string) (data : json) :
  re_search JSON_SPAN raw = Some span ->
  loads span = inr data ->
  exists fields, data = JObj fields.
Proof.
  intros Hs Hl. apply span_starts_with_brace in Hs as [rest ->].
  now apply loads_brace_dict in Hl.
Qed.

End SpanFacts.

(** ** Dictionaries *)

Lemma dict_set_keys (k k' : string) (v : json) (d : list (string * json)) :
  In k' (dict_keys (dict_set k v d)) <-> k' = k \/ In k' (dict_keys d).
Proof.
  induction d as [|[k0 v0] d IH]; simpl.
  - intuition congruence.
  - destruct (String.eqb_spec k0 k) as [->|Hne]; simpl.
    + intuition congruence.
    + rewrite IH. intuition congruence.
Qed.

(** Writing a key leaves every key of the [dict] in it once. *)
Lemma dict_set_nodup (k : string) (v : json) (d : list (string * json)) :
  NoDup (dict_keys d) -> NoDup (dict_keys (dict_set k v d)).
Proof.
  induction d as [|[k0 v0] d IH]; simpl; intros Hd.
  - constructor; [intros []|constructor].
  - inversion Hd as [|? ? Hnot Hd']; subst.
    destruct (String.eqb_spec k0 k) as [->|Hne]; simpl.
    + now constructor.
    + constructor; [|now apply IH].
      intros Hin. apply dict_set_keys in Hin as [->|Hin]; auto.
Qed.

Lemma dict_get_set (k : string) (v : json) (d : list (string * json)) :
  dict_get k (dict_set k v d) = Some v.
Proof.
  induction d as [|[k0 v0] d IH]; simpl.
  - now rewrite String.eqb_refl.
  - destruct (String.eqb_spec k0 k) as [->|Hne]; simpl.
    + now rewrite String.eqb_refl.
    + destruct (String.eqb_spec k0 k); [contradiction|exact IH].
Qed.

(** [dict(pairs)] has no key twice, whatever the pairs. *)
Lemma dict_of_pairs_nodup (pairs : list (string * json)) :
  NoDup (dict_keys (dict_of_pairs pairs)).
Proof.
  unfold dict_of_pairs.
  assert (G : forall acc, NoDup (dict_keys acc) ->
            NoDup (dict_keys
                     (fold_left (fun d kv => dict_set (fst kv) (snd kv) d)
                        pairs acc))).
  { induction pairs as [|[k v] pairs IH]; intros acc Hacc; simpl; [exact Hacc|].
    apply IH. now apply dict_set_nodup. }
  apply G. constructor.
Qed.

(** ** The validation of a [dict] *)

Lemma mem_In (x : string) (l : list string) : mem x l = true <-> In x l.
Proof.
  unfold mem. rewrite existsb_exists. split.
  - intros (y & Hy & E). apply String.eqb_eq in E. now subst.
  - intros H. exists x. split; [exact H|apply String.eqb_refl].
Qed.

(** [set(a) == set(b)] compares the elements, whatever their order and
    their repetitions. *)
Lemma set_eqb_spec (a b : list string) :
  set_eqb a b = true <-> (forall k, In k a <-> In k b).
Proof.
  unfold set_eqb. rewrite andb_true_iff, !forallb_forall. split.
  - intros [Hab Hba] k. split; intros H.
    + apply mem_In. now apply Hab.
    + apply mem_In. now apply Hba.
  - intros H. split; intros k Hk; apply mem_In; now apply H.
Qed.

Lemma dict_has_get (k : string) (d : list (string * json)) :
  dict_has k d = true <-> exists v, dict_get k d = Some v.
Proof.
  unfold dict_has. destruct (dict_get k d) as [v|].
  - split; [intros _; now exists v|reflexivity].
  - split; [discriminate|intros [v [=]]].
Qed.

(** Lines 73 to 77 on a [dict], case by case. *)
Lemma validate_dict (fields : list (string * json)) :
  validate (JObj fields) =
  if dict_has "criteria_scores" fields && dict_has "overall_score" fields then
    match dict_get "criteria_scores" fields with
    | Some (JObj scores) =>
        if set_eqb (dict_keys scores) QA_CRITERIA
        then Returns (JObj fields) else Raises CriteriaMismatch
    | Some _ => Raises AttributeError
    | None => Raises KeyError
    end
  else Raises (MissingKeys (JObj fields)).
Proof.
  unfold validate, py_in, py_getitem.
  destruct (dict_has "criteria_scores" fields); [|reflexivity].
  destruct (dict_has "overall_score" fields); [|reflexivity].
  simpl andb. cbv iota.
  destruct (dict_get "criteria_scores" fields) as [[]|]; reflexivity.
Qed.

(** What [validate] returns is what it was given. *)
Lemma validate_returns (data data' : json) :
  validate data = Returns data' -> data' = data.
Proof.
  unfold validate.
  destruct (py_in "criteria_scores" data) as [[]|]; try discriminate.
  destruct (py_in "overall_score" data) as [[]|]; try discriminate.
  destruct (py_getitem "criteria_scores" data) as [e|scores]; [discriminate|].
  destruct (py_keys scores) as [e|keys]; [discriminate|].
  destruct (set_eqb keys QA_CRITERIA); [|discriminate].
  now intros [= <-].
Qed.

(** ** From the model call to the raw text *)

Lemma evaluate_ticket_answers
    (generate_content : string -> option response) (ticket_text raw : string) :
  answers generate_content ticket_text raw ->
  evaluate_ticket generate_content ticket_text = evaluate_raw raw.
Proof.
  intros (resp & Hcall & <-). unfold evaluate_ticket. now rewrite Hcall.
Qed.

Lemma canned_answers (ticket_text raw : string) :
  answers (canned (Some raw)) ticket_text raw.
Proof. exists {| text := Some raw |}. split; reflexivity. Qed.

Lemma evaluate_raw_no_span (raw : string) :
  re_search JSON_SPAN raw = None ->
  evaluate_raw raw = Raises (NoJsonFound (no_json_message raw)).
Proof. intros H. unfold evaluate_raw. now rewrite H. Qed.

Lemma evaluate_raw_span (raw span : string) :
  re_search JSON_SPAN raw = Some span ->
  evaluate_raw raw = parse_and_validate span.
Proof. intros H. unfold evaluate_raw. now rewrite H. Qed.

(** ** The extraction of the span *)

Lemma greedy_span_some (raw span : string) :
  greedy_span raw = Some span ->
  exists i j,
    find "{" raw = Some i /\ rfind "}" raw = Some j /\ i < j /\
    span = substring i (j - i + 1) raw.
Proof.
  unfold greedy_span.
  destruct (find "{" raw) as [i|]; [|discriminate].
  destruct (rfind "}" raw) as [j|]; [|discriminate].
  destruct (Nat.ltb i j) eqn:E; [|discriminate].
  apply Nat.ltb_lt in E. intros [= <-]. now exists i, j.
Qed.

(** A span exists exactly when some opening brace stands before some
    closing brace. *)
Lemma greedy_span_order (raw : string) :
  (exists span, greedy_span raw = Some span) <->
  (exists i j, i < j /\ get i raw = Some "{"%char /\ get j raw = Some "}"%char).
Proof.
  split.
  - intros [span H]. apply greedy_span_some in H as (i & j & Hi & Hj & Hlt & _).
    exists i, j. repeat split; [exact Hlt|now apply find_get|now apply rfind_get].
  - intros (i & j & Hlt & Hi & Hj).
    apply get_find in Hi as (i' & Hi' & Hle).
    apply get_rfind in Hj as (j' & Hj' & Hge).
    unfold greedy_span. rewrite Hi', Hj'.
    assert (E : Nat.ltb i' j' = true) by (apply Nat.ltb_lt; lia).
    rewrite E. eexists; reflexivity.
Qed.

Lemma greedy_span_none (raw : string) :
  greedy_span raw = None <->
  ~ (exists i j, i < j /\ get i raw = Some "{"%char /\ get j raw = Some "}"%char).
Proof.
  rewrite <- greedy_span_order. destruct (greedy_span raw) as [span|].
  - split; [discriminate|]. intros H. exfalso. apply H. now exists span.
  - split; [|reflexivity]. intros _ [span [=]].
Qed.

(** C1. For every raw model response, the span [evaluate_ticket] extracts
    is the substring that starts at the leftmost opening brace and ends
    at the rightmost closing brace, one greedy span, and this span, and
    nothing else of the response, is what goes to the JSON parser. *)
Theorem extracted_span_leftmost_to_rightmost
    (generate_content : string -> option response)
    (ticket_text raw span : string) :
  answers generate_content ticket_text raw ->
  re_search JSON_SPAN raw = Some span ->
  exists i j,
    (get i raw = Some "{"%char /\
     forall k, get k raw = Some "{"%char -> i <= k) /\
    (get j raw = Some "}"%char /\
     forall k, get k raw = Some "}"%char -> k <= j) /\
    find "{" raw = Some i /\ rfind "}" raw = Some j /\
    i < j /\
    span = substring i (j - i + 1) raw /\
    evaluate_ticket generate_content ticket_text = parse_and_validate span.
Proof.
  intros Hans Hspan.
  rewrite (evaluate_ticket_answers _ _ _ Hans), (evaluate_raw_span _ _ Hspan).
  rewrite re_search_greedy in Hspan.
  apply greedy_span_some in Hspan as (i & j & Hi & Hj & Hlt & ->).
  exists i, j. repeat split; auto.
  - now apply find_get.
  - intros k. now apply find_least.
  - now apply rfind_get.
  - intros k. now apply rfind_greatest.
Qed.

Lemma extracted_span_leftmost_to_rightmost_witness :
  answers (canned (Some Scenario.round_trip_raw)) "Customer: hello"
    Scenario.round_trip_raw /\
  re_search JSON_SPAN Scenario.round_trip_raw = Some Scenario.round_trip_span /\
  exists i j,
    (get i Scenario.round_trip_raw = Some "{"%char /\
     forall k, get k Scenario.round_trip_raw = Some "{"%char -> i <= k) /\
    (get j Scenario.round_trip_raw = Some "}"%char /\
     forall k, get k Scenario.round_trip_raw = Some "}"%char -> k <= j) /\
    find "{" Scenario.round_trip_raw = Some i /\
    rfind "}" Scenario.round_trip_raw = Some j /\
    i < j /\
    Scenario.round_trip_span = substring i (j - i + 1) Scenario.round_trip_raw /\
    evaluate_ticket (canned (Some Scenario.round_trip_raw)) "Customer: hello"
    = parse_and_validate Scenario.round_trip_span.
Proof.
  assert (Ha : answers (canned (Some Scenario.round_trip_raw)) "Customer: hello"
                 Scenario.round_trip_raw).
  { exists {| text := Some Scenario.round_trip_raw |}. split; reflexivity. }
  assert (Hs : re_search JSON_SPAN Scenario.round_trip_raw
               = Some Scenario.round_trip_span).
  { vm_compute. reflexivity. }
  split; [exact Ha|]. split; [exact Hs|].
  exact (extracted_span_leftmost_to_rightmost _ _ _ _ Ha Hs).
Defined.

(** Once a span is found, the error of line 69 is out of reach: what
    [json.loads] and the validation raise is never that error. *)
Lemma parse_and_validate_not_no_json (span message : string) :
  parse_and_validate span <> Raises (NoJsonFound message).
Proof.
  unfold parse_and_validate.
  destruct (Json.loads span) as [why|data]; [discriminate|].
  unfold validate.
  destruct (py_in "criteria_scores" data) as [[|]|]; try discriminate.
  destruct (py_in "overall_score" data) as [[|]|]; try discriminate.
  destruct data as [| | | | | |fields]; simpl; try discriminate.
  destruct (dict_get "criteria_scores" fields) as [v|]; try discriminate.
  destruct v as [| | | | | |scores]; simpl; try discriminate.
  destruct (set_eqb (dict_keys scores) QA_CRITERIA); discriminate.
Qed.

(** C10. A span is extracted if and only if the raw response has an
    opening brace at a position strictly before a closing brace.  With
    such a pair [evaluate_ticket] gets past line 69: its outcome is the
    outcome of parsing and validating the span, and never the error of
    line 69; without such a pair it raises that error.  A response whose
    closing braces all come before its first opening brace, ["} text {"]
    for one, raises the error of line 69 although it holds both
    characters. *)
Theorem extraction_iff_brace_order
    (generate_content : string -> option response)
    (ticket_text raw : string) :
  answers generate_content ticket_text raw ->
  ((exists span, re_search JSON_SPAN raw = Some span) <->
   (exists i j,
      i < j /\ get i raw = Some "{"%char /\ get j raw = Some "}"%char)) /\
  ((exists i j,
      i < j /\ get i raw = Some "{"%char /\ get j raw = Some "}"%char) ->
   exists span,
     re_search JSON_SPAN raw = Some span /\
     evaluate_ticket generate_content ticket_text = parse_and_validate span /\
     forall message,
       evaluate_ticket generate_content ticket_text
       <> Raises (NoJsonFound message)) /\
  ((exists message,
      evaluate_ticket generate_content ticket_text
      = Raises (NoJsonFound message)) <->
   ~ (exists i j,
        i < j /\ get i raw = Some "{"%char /\ get j raw = Some "}"%char)) /\
  ((forall i j, get i raw = Some "{"%char -> get j raw = Some "}"%char -> j < i) ->
   evaluate_ticket generate_content ticket_text
   = Raises (NoJsonFound (no_json_message raw))) /\
  (occurs "{" Scenario.reversed_raw = true /\
   occurs "}" Scenario.reversed_raw = true /\
   evaluate_ticket (canned (Some Scenario.reversed_raw)) ticket_text
   = Raises (NoJsonFound (no_json_message Scenario.reversed_raw))).
Proof.
  intros Hans.
  assert (Hfound :
            (exists i j,
               i < j /\ get i raw = Some "{"%char /\ get j raw = Some "}"%char) ->
            exists span,
              re_search JSON_SPAN raw = Some span /\
              evaluate_ticket generate_content ticket_text
              = parse_and_validate span /\
              forall message,
                evaluate_ticket generate_content ticket_text
                <> Raises (NoJsonFound message)).
  { intros Hpair. apply greedy_span_order in Hpair as [span Hspan].
    rewrite <- re_search_greedy in Hspan.
    exists span. rewrite (evaluate_ticket_answers _ _ _ Hans).
    rewrite (evaluate_raw_span _ _ Hspan).
    repeat split; [exact Hspan|].
    intros message. apply parse_and_validate_not_no_json. }
  assert (Hnone :
            ~ (exists i j,
                 i < j /\ get i raw = Some "{"%char /\ get j raw = Some "}"%char) ->
            evaluate_ticket generate_content ticket_text
            = Raises (NoJsonFound (no_json_message raw))).
  { intros Hno. rewrite (evaluate_ticket_answers _ _ _ Hans).
    apply evaluate_raw_no_span. rewrite re_search_greedy.
    now apply greedy_span_none. }
  split; [|split; [|split; [|split]]].
  - rewrite re_search_greedy. apply greedy_span_order.
  - exact Hfound.
  - split.
    + intros [message Hraise] Hpair.
      destruct (Hfound Hpair) as (span & _ & _ & Hnot).
      exact (Hnot message Hraise).
    + intros Hno. exists (no_json_message raw). now apply Hnone.
  - intros Horder. apply Hnone. intros (i & j & Hlt & Hi & Hj).
    specialize (Horder i j Hi Hj). lia.
  - repeat split.
Qed.

Lemma extraction_iff_brace_order_witness :
  (answers (canned (Some Scenario.round_trip_raw)) "Customer: hello"
     Scenario.round_trip_raw /\
   (exists i j,
      i < j /\ get i Scenario.round_trip_raw = Some "{"%char /\
      get j Scenario.round_trip_raw = Some "}"%char) /\
   exists span,
     re_search JSON_SPAN Scenario.round_trip_raw = Some span /\
     evaluate_ticket (canned (Some Scenario.round_trip_raw)) "Customer: hello"
     = parse_and_validate span /\
     forall message,
       evaluate_ticket (canned (Some Scenario.round_trip_raw)) "Customer: hello"
       <> Raises (NoJsonFound message)) /\
  (answers (canned (Some Scenario.reversed_raw)) "Customer: hello"
     Scenario.reversed_raw /\
   (forall i j,
      get i Scenario.reversed_raw = Some "{"%char ->
      get j Scenario.reversed_raw = Some "}"%char -> j < i) /\
   evaluate_ticket (canned (Some Scenario.reversed_raw)) "Customer: hello"
   = Raises (NoJsonFound (no_json_message Scenario.reversed_raw))).
Proof.
  split.
  - assert (Ha : answers (canned (Some Scenario.round_trip_raw)) "Customer: hello"
                   Scenario.round_trip_raw).
    { exists {| text := Some Scenario.round_trip_raw |}. split; reflexivity. }
    assert (Hp : exists i j,
               i < j /\ get i Scenario.round_trip_raw = Some "{"%char /\
               get j Scenario.round_trip_raw = Some "}"%char).
    { exists 6, 114. split; [lia|]. split; vm_compute; reflexivity. }
    split; [exact Ha|]. split; [exact Hp|].
    exact (proj1 (proj2
             (extraction_iff_brace_order _ "Customer: hello" _ Ha)) Hp).
  - assert (Ha : answers (canned (Some Scenario.reversed_raw)) "Customer: hello"
                   Scenario.reversed_raw).
    { exists {| text := Some Scenario.reversed_raw |}. split; reflexivity. }
    assert (Ho : forall i j,
               get i Scenario.reversed_raw = Some "{"%char ->
               get j Scenario.reversed_raw = Some "}"%char -> j < i).
    { intros i j Hi Hj.
      repeat (destruct j as [|j]; simpl in Hj; try discriminate).
      repeat (destruct i as [|i]; simpl in Hi; try discriminate).
      lia. }
    split; [exact Ha|]. split; [exact Ho|].
    exact (proj1 (proj2 (proj2 (proj2
             (extraction_iff_brace_order _ "Customer: hello" _ Ha)))) Ho).
Defined.

(** ** Responses without a span *)

Lemma append_assoc (a b c : string) : (a ++ b) ++ c = a ++ (b ++ c).
Proof. induction a as [|x a IH]; simpl; congruence. Qed.

Lemma append_nil_r (a : string) : a ++ "" = a.
Proof. induction a as [|x a IH]; simpl; congruence. Qed.

Lemma prefix_refl (s : string) : prefix s s = true.
Proof.
  induction s as [|c s IH]; [reflexivity|]. simpl.
  destruct (ascii_dec c c) as [_|Hne]; [exact IH|contradiction].
Qed.

Lemma prefix_app (s t : string) : prefix s (s ++ t) = true.
Proof.
  induction s as [|c s IH]; simpl; [now destruct t|].
  destruct (ascii_dec c c) as [_|Hne]; [exact IH|contradiction].
Qed.

Lemma contains_unfold (needle hay : string) :
  contains needle hay =
  prefix needle hay ||
  match hay with
  | "" => false
  | String _ hay' => contains needle hay'
  end.
Proof. destruct hay; reflexivity. Qed.

Lemma contains_app (needle before after : string) :
  contains needle (before ++ needle ++ after) = true.
Proof.
  induction before as [|c before IH].
  - simpl append. rewrite contains_unfold, prefix_app. reflexivity.
  - simpl append. rewrite contains_unfold, IH. apply orb_true_r.
Qed.

Lemma no_closing_brace_no_span (raw : string) :
  occurs "}" raw = false -> re_search JSON_SPAN raw = None.
Proof.
  intros H. apply rfind_none in H.
  rewrite re_search_greedy. unfold greedy_span. rewrite H.
  now destruct (find "{" raw).
Qed.

Lemma no_opening_brace_no_span (raw : string) :
  occurs "{" raw = false -> re_search JSON_SPAN raw = None.
Proof.
  intros H. apply find_none in H.
  rewrite re_search_greedy. unfold greedy_span. now rewrite H.
Qed.

(** C3. A raw response with no opening and no closing brace, the empty
    response included, makes [evaluate_ticket] raise the error of line 69,
    and the message of that error holds the raw text as it is. *)
Theorem no_brace_raises_no_json
    (generate_content : string -> option response)
    (ticket_text raw : string) :
  answers generate_content ticket_text raw ->
  occurs "{" raw = false ->
  occurs "}" raw = false ->
  exists message,
    evaluate_ticket generate_content ticket_text = Raises (NoJsonFound message) /\
    (exists before, message = before ++ raw) /\
    contains raw message = true.
Proof.
  intros Hans Hopen _. exists (no_json_message raw). split; [|split].
  - rewrite (evaluate_ticket_answers _ _ _ Hans).
    apply evaluate_raw_no_span. now apply no_opening_brace_no_span.
  - unfold no_json_message.
    exists ("Model did not return JSON." ++ nl ++ "Raw output:" ++ nl).
    now rewrite !append_assoc.
  - unfold no_json_message.
    replace ("Model did not return JSON." ++ nl ++ "Raw output:" ++ nl ++ raw)
      with (("Model did not return JSON." ++ nl ++ "Raw output:" ++ nl)
            ++ raw ++ "").
    + apply contains_app.
    + now rewrite append_nil_r, !append_assoc.
Qed.

Lemma no_brace_raises_no_json_witness :
  (answers (canned (Some "I cannot score this ticket.")) "Customer: hello"
     "I cannot score this ticket." /\
   occurs "{" "I cannot score this ticket." = false /\
   occurs "}" "I cannot score this ticket." = false /\
   exists message,
     evaluate_ticket (canned (Some "I cannot score this ticket."))
       "Customer: hello"
     = Raises (NoJsonFound message) /\
     (exists before, message = before ++ "I cannot score this ticket.") /\
     contains "I cannot score this ticket." message = true) /\
  (answers (canned None) "Customer: hello" "" /\
   occurs "{" "" = false /\
   occurs "}" "" = false /\
   exists message,
     evaluate_ticket (canned None) "Customer: hello"
     = Raises (NoJsonFound message) /\
     (exists before, message = before ++ "") /\
     contains "" message = true).
Proof.
  split.
  - assert (Ha : answers (canned (Some "I cannot score this ticket."))
                   "Customer: hello" "I cannot score this ticket.").
    { exists {| text := Some "I cannot score this ticket." |}.
      split; reflexivity. }
    split; [exact Ha|]. split; [reflexivity|]. split; [reflexivity|].
    exact (no_brace_raises_no_json _ _ _ Ha eq_refl eq_refl).
  - assert (Ha : answers (canned None) "Customer: hello" "").
    { exists {| text := None |}. split; reflexivity. }
    split; [exact Ha|]. split; [reflexivity|]. split; [reflexivity|].
    exact (no_brace_raises_no_json _ _ _ Ha eq_refl eq_refl).
Defined.

(** ** The round trip *)

(** C2. On the raw response of the round trip scenario, an object between
    ["Sure! "] and [" Hope this helps!"], [evaluate_ticket] returns; the
    result has the five criterion scores 4, 3, 5, 4 and 2, the overall
    score 18 and the one suggested question, and the prose around the
    object leaves no trace. *)
Theorem round_trip_scenario
    (generate_content : string -> option response) (ticket_text : string) :
  answers generate_content ticket_text Scenario.round_trip_raw ->
  exists fields,
    evaluate_ticket generate_content ticket_text = Returns (JObj fields) /\
    dict_get "criteria_scores" fields
    = Some (JObj [ ("accuracy", JInt 4);
                   ("empathy_and_tone", JInt 3);
                   ("clarity", JInt 5);
                   ("actionability", JInt 4);
                   ("escalation_awareness", JInt 2) ]) /\
    dict_get "overall_score" fields = Some (JInt 18) /\
    dict_get "suggested_1on1_questions" fields
    = Some (JArr [JStr "What blocked escalation?"]) /\
    dict_get "coaching_summary" fields
    = Some (JStr "Be more proactive about escalation.") /\
    dict_keys fields
    = [ "criteria_scores"; "overall_score"; "coaching_summary";
        "suggested_1on1_questions" ] /\
    JObj fields = Scenario.round_trip_result.
Proof.
  intros Hans. rewrite (evaluate_ticket_answers _ _ _ Hans).
  eexists. split; [vm_compute; reflexivity|].
  repeat split.
Qed.

Lemma round_trip_scenario_witness :
  answers (canned (Some Scenario.round_trip_raw)) "Customer: hello"
    Scenario.round_trip_raw /\
  exists fields,
    evaluate_ticket (canned (Some Scenario.round_trip_raw)) "Customer: hello"
    = Returns (JObj fields) /\
    dict_get "criteria_scores" fields
    = Some (JObj [ ("accuracy", JInt 4);
                   ("empathy_and_tone", JInt 3);
                   ("clarity", JInt 5);
                   ("actionability", JInt 4);
                   ("escalation_awareness", JInt 2) ]) /\
    dict_get "overall_score" fields = Some (JInt 18) /\
    dict_get "suggested_1on1_questions" fields
    = Some (JArr [JStr "What blocked escalation?"]) /\
    dict_get "coaching_summary" fields
    = Some (JStr "Be more proactive about escalation.") /\
    dict_keys fields
    = [ "criteria_scores"; "overall_score"; "coaching_summary";
        "suggested_1on1_questions" ] /\
    JObj fields = Scenario.round_trip_result.
Proof.
  assert (Ha : answers (canned (Some Scenario.round_trip_raw)) "Customer: hello"
                 Scenario.round_trip_raw).
  { exists {| text := Some Scenario.round_trip_raw |}. split; reflexivity. }
  split; [exact Ha|].
  exact (round_trip_scenario _ _ Ha).
Defined.

(** ** The validation of the parsed object *)

(** C5, as the specification states it, fails on an object whose
    [criteria_scores] is not itself an object, [{"criteria_scores": 5,
    "overall_score": 1}] for one: both keys are there, and
    [evaluate_ticket] neither returns nor raises the error of line 76;
    [.keys()] raises an [AttributeError] on line 75. *)
Lemma scalar_criteria_scores_counterexample :
  Json.loads Scenario.scalar_scores_raw = inr Scenario.scalar_scores_data /\
  py_in "criteria_scores" Scenario.scalar_scores_data = Some true /\
  py_in "overall_score" Scenario.scalar_scores_data = Some true /\
  evaluate_ticket (canned (Some Scenario.scalar_scores_raw)) "Customer: hello"
  = Raises AttributeError /\
  ~ (exists data,
       evaluate_ticket (canned (Some Scenario.scalar_scores_raw)) "Customer: hello"
       = Returns data) /\
  evaluate_ticket (canned (Some Scenario.scalar_scores_raw)) "Customer: hello"
  <> Raises CriteriaMismatch.
Proof.
  assert (E : evaluate_ticket (canned (Some Scenario.scalar_scores_raw))
                "Customer: hello" = Raises AttributeError)
    by (vm_compute; reflexivity).
  repeat split; try (vm_compute; reflexivity).
  - intros [data H]. rewrite E in H. discriminate.
  - rewrite E. discriminate.
Qed.

(** C5, amended. For every parsed JSON object that holds the keys
    [criteria_scores] and [overall_score] and whose [criteria_scores] is
    itself an object, [evaluate_ticket] returns if and only if the key set
    of [criteria_scores] is the set of the five criteria of the rubric,
    in any order, none missing and none added; when the sets differ, as
    with four of the five keys, it raises the error of line 76; and the
    [criteria_scores] of a returned result has the rubric as its key
    set. *)
Theorem criteria_key_set_decides
    (generate_content : string -> option response)
    (ticket_text raw span : string)
    (fields scores : list (string * json)) :
  answers generate_content ticket_text raw ->
  re_search JSON_SPAN raw = Some span ->
  Json.loads span = inr (JObj fields) ->
  dict_has "overall_score" fields = true ->
  dict_get "criteria_scores" fields = Some (JObj scores) ->
  ((exists data, evaluate_ticket generate_content ticket_text = Returns data) <->
   (forall k, In k (dict_keys scores) <-> In k QA_CRITERIA)) /\
  (~ (forall k, In k (dict_keys scores) <-> In k QA_CRITERIA) ->
   evaluate_ticket generate_content ticket_text = Raises CriteriaMismatch) /\
  (forall data,
     evaluate_ticket generate_content ticket_text = Returns data ->
     data = JObj fields /\
     forall k, In k (dict_keys scores) <-> In k QA_CRITERIA) /\
  evaluate_ticket (canned (Some Scenario.four_keys_raw)) ticket_text
  = Raises CriteriaMismatch.
Proof.
  intros Hans Hspan Hloads Hos Hcs.
  rewrite (evaluate_ticket_answers _ _ _ Hans), (evaluate_raw_span _ _ Hspan).
  unfold parse_and_validate. rewrite Hloads, validate_dict.
  assert (Hhas : dict_has "criteria_scores" fields = true)
    by (apply dict_has_get; eauto).
  rewrite Hhas, Hos, Hcs. simpl andb. cbv iota.
  destruct (set_eqb (dict_keys scores) QA_CRITERIA) eqn:E.
  - pose proof (proj1 (set_eqb_spec _ _) E) as Hset.
    split; [|split; [|split]].
    + split; [intros _; exact Hset|intros _; eexists; reflexivity].
    + intros H. contradiction.
    + intros data [= <-]. split; [reflexivity|exact Hset].
    + vm_compute. reflexivity.
  - assert (Hne : ~ (forall k, In k (dict_keys scores) <-> In k QA_CRITERIA)).
    { intros H. apply (proj2 (set_eqb_spec _ _)) in H. congruence. }
    split; [|split; [|split]].
    + split; [intros [data [=]]|intros H; contradiction].
    + intros _. reflexivity.
    + intros data [=].
    + vm_compute. reflexivity.
Qed.

Lemma criteria_key_set_decides_witness :
  answers (canned (Some Scenario.four_keys_raw)) "Customer: hello"
    Scenario.four_keys_raw /\
  re_search JSON_SPAN Scenario.four_keys_raw = Some Scenario.four_keys_raw /\
  Json.loads Scenario.four_keys_raw = inr (JObj Scenario.four_keys_fields) /\
  dict_has "overall_score" Scenario.four_keys_fields = true /\
  dict_get "criteria_scores" Scenario.four_keys_fields
  = Some (JObj Scenario.four_scores) /\
  ~ (forall k, In k (dict_keys Scenario.four_scores) <-> In k QA_CRITERIA) /\
  evaluate_ticket (canned (Some Scenario.four_keys_raw)) "Customer: hello"
  = Raises CriteriaMismatch.
Proof.
  assert (Ha : answers (canned (Some Scenario.four_keys_raw)) "Customer: hello"
                 Scenario.four_keys_raw).
  { exists {| text := Some Scenario.four_keys_raw |}. split; reflexivity. }
  assert (Hs : re_search JSON_SPAN Scenario.four_keys_raw
               = Some Scenario.four_keys_raw)
    by (vm_compute; reflexivity).
  assert (Hl : Json.loads Scenario.four_keys_raw
               = inr (JObj Scenario.four_keys_fields))
    by (vm_compute; reflexivity).
  assert (Hne : ~ (forall k, In k (dict_keys Scenario.four_scores)
                             <-> In k QA_CRITERIA)).
  { intros H. assert (Hin : In "escalation_awareness" QA_CRITERIA)
      by (simpl; tauto).
    apply H in Hin. simpl in Hin.
    repeat (destruct Hin as [Hin|Hin]; [discriminate|]). exact Hin. }
  repeat (split; [first [exact Ha | exact Hs | exact Hl | exact Hne
                        | reflexivity]|]).
  exact (proj1 (proj2
    (criteria_key_set_decides _ "Customer: hello" _ _ _ _
       Ha Hs Hl eq_refl eq_refl)) Hne).
Defined.

(** C6. For every parsed JSON object that holds [criteria_scores] but not
    [overall_score], or [overall_score] but not [criteria_scores],
    [evaluate_ticket] raises the error of line 74, whatever
    [criteria_scores] is: the criteria are not looked at before. *)
Theorem missing_key_raises
    (generate_content : string -> option response)
    (ticket_text raw span : string)
    (fields : list (string * json)) :
  answers generate_content ticket_text raw ->
  re_search JSON_SPAN raw = Some span ->
  Json.loads span = inr (JObj fields) ->
  (dict_has "criteria_scores" fields = true /\
   dict_has "overall_score" fields = false) \/
  (dict_has "criteria_scores" fields = false /\
   dict_has "overall_score" fields = true) ->
  evaluate_ticket generate_content ticket_text
  = Raises (MissingKeys (JObj fields)) /\
  evaluate_ticket (canned (Some Scenario.no_overall_raw)) ticket_text
  = Raises (MissingKeys Scenario.no_overall_data) /\
  evaluate_ticket (canned (Some Scenario.scalar_no_overall_raw)) ticket_text
  = Raises (MissingKeys (JObj [("criteria_scores", JInt 5)])) /\
  evaluate_ticket (canned (Some Scenario.no_scores_raw)) ticket_text
  = Raises (MissingKeys (JObj [("overall_score", JInt 18)])).
Proof.
  intros Hans Hspan Hloads Hkeys.
  rewrite (evaluate_ticket_answers _ _ _ Hans), (evaluate_raw_span _ _ Hspan).
  unfold parse_and_validate. rewrite Hloads, validate_dict.
  split; [|repeat split; vm_compute; reflexivity].
  destruct Hkeys as [[-> ->]|[-> ->]]; reflexivity.
Qed.

Lemma missing_key_raises_witness :
  answers (canned (Some Scenario.no_overall_raw)) "Customer: hello"
    Scenario.no_overall_raw /\
  re_search JSON_SPAN Scenario.no_overall_raw = Some Scenario.no_overall_raw /\
  Json.loads Scenario.no_overall_raw
  = inr (JObj [("criteria_scores", JObj Scenario.round_trip_scores)]) /\
  ((dict_has "criteria_scores"
      [("criteria_scores", JObj Scenario.round_trip_scores)] = true /\
    dict_has "overall_score"
      [("criteria_scores", JObj Scenario.round_trip_scores)] = false) \/
   (dict_has "criteria_scores"
      [("criteria_scores", JObj Scenario.round_trip_scores)] = false /\
    dict_has "overall_score"
      [("criteria_scores", JObj Scenario.round_trip_scores)] = true)) /\
  evaluate_ticket (canned (Some Scenario.no_overall_raw)) "Customer: hello"
  = Raises (MissingKeys
              (JObj [("criteria_scores", JObj Scenario.round_trip_scores)])).
Proof.
  assert (Ha : answers (canned (Some Scenario.no_overall_raw)) "Customer: hello"
                 Scenario.no_overall_raw).
  { exists {| text := Some Scenario.no_overall_raw |}. split; reflexivity. }
  assert (Hs : re_search JSON_SPAN Scenario.no_overall_raw
               = Some Scenario.no_overall_raw)
    by (vm_compute; reflexivity).
  assert (Hl : Json.loads Scenario.no_overall_raw
               = inr (JObj [("criteria_scores", JObj Scenario.round_trip_scores)]))
    by (vm_compute; reflexivity).
  assert (Hk : (dict_has "criteria_scores"
                  [("criteria_scores", JObj Scenario.round_trip_scores)] = true /\
                dict_has "overall_score"
                  [("criteria_scores", JObj Scenario.round_trip_scores)] = false) \/
               (dict_has "criteria_scores"
                  [("criteria_scores", JObj Scenario.round_trip_scores)] = false /\
                dict_has "overall_score"
                  [("criteria_scores", JObj Scenario.round_trip_scores)] = true)).
  { left. split; reflexivity. }
  split; [exact Ha|]. split; [exact Hs|]. split; [exact Hl|].
  split; [exact Hk|].
  exact (proj1 (missing_key_raises _ "Customer: hello" _ _ _ Ha Hs Hl Hk)).
Defined.

(** C7. When the validation passes, [evaluate_ticket] returns the parsed
    object as it is.  Nothing but the presence of [criteria_scores] and
    [overall_score] and the key set of [criteria_scores] decides: an
    [overall_score] that is not the sum of the scores is not corrected,
    and the types of the nested values, the range of the scores and the
    shape of [suggested_1on1_questions] are accepted as they come. *)
Theorem validated_result_unchanged
    (generate_content : string -> option response)
    (ticket_text raw span : string) (data : json) :
  answers generate_content ticket_text raw ->
  re_search JSON_SPAN raw = Some span ->
  Json.loads span = inr data ->
  (forall data',
     evaluate_ticket generate_content ticket_text = Returns data' ->
     data' = data) /\
  (forall fields scores,
     data = JObj fields ->
     dict_has "overall_score" fields = true ->
     dict_get "criteria_scores" fields = Some (JObj scores) ->
     (forall k, In k (dict_keys scores) <-> In k QA_CRITERIA) ->
     evaluate_ticket generate_content ticket_text = Returns data) /\
  (evaluate_ticket (canned (Some Scenario.unchecked_raw)) ticket_text
   = Returns Scenario.unchecked_result /\
   Json.loads Scenario.unchecked_raw = inr Scenario.unchecked_result /\
   dict_get "overall_score" Scenario.unchecked_fields = Some (JInt 99) /\
   dict_get "criteria_scores" Scenario.unchecked_fields
   = Some (JObj [ ("clarity", JInt 9);
                  ("escalation_awareness", JInt (-3));
                  ("accuracy", JStr "high");
                  ("actionability", JNull);
                  ("empathy_and_tone", JFloat "2.5") ]) /\
   dict_get "suggested_1on1_questions" Scenario.unchecked_fields
   = Some (JStr "none") /\
   dict_get "coaching_summary" Scenario.unchecked_fields = None).
Proof.
  intros Hans Hspan Hloads.
  rewrite (evaluate_ticket_answers _ _ _ Hans), (evaluate_raw_span _ _ Hspan).
  unfold parse_and_validate. rewrite Hloads.
  split; [|split].
  - intros data'. apply validate_returns.
  - intros fields scores -> Hos Hcs Hset.
    rewrite validate_dict.
    assert (Hhas : dict_has "criteria_scores" fields = true)
      by (apply dict_has_get; eauto).
    apply (proj2 (set_eqb_spec _ _)) in Hset.
    now rewrite Hhas, Hos, Hcs, Hset.
  - repeat split; vm_compute; reflexivity.
Qed.

Lemma validated_result_unchanged_witness :
  answers (canned (Some Scenario.unchecked_raw)) "Customer: hello"
    Scenario.unchecked_raw /\
  re_search JSON_SPAN Scenario.unchecked_raw = Some Scenario.unchecked_raw /\
  Json.loads Scenario.unchecked_raw = inr Scenario.unchecked_result /\
  (forall data',
     evaluate_ticket (canned (Some Scenario.unchecked_raw)) "Customer: hello"
     = Returns data' ->
     data' = Scenario.unchecked_result).
Proof.
  assert (Ha : answers (canned (Some Scenario.unchecked_raw)) "Customer: hello"
                 Scenario.unchecked_raw).
  { exists {| text := Some Scenario.unchecked_raw |}. split; reflexivity. }
  assert (Hs : re_search JSON_SPAN Scenario.unchecked_raw
               = Some Scenario.unchecked_raw)
    by (vm_compute; reflexivity).
  assert (Hl : Json.loads Scenario.unchecked_raw = inr Scenario.unchecked_result)
    by (vm_compute; reflexivity).
  split; [exact Ha|]. split; [exact Hs|]. split; [exact Hl|].
  exact (proj1 (validated_result_unchanged _ "Customer: hello" _ _ _ Ha Hs Hl)).
Defined.

(** ** The prompt *)

Lemma substring_skip (a s : string) (m : nat) :
  substring (String.length a) m (a ++ s) = substring 0 m s.
Proof. induction a as [|x a IH]; simpl; auto. Qed.

Lemma substring_take (t b : string) :
  substring 0 (String.length t) (t ++ b) = t.
Proof.
  induction t as [|x t IH]; simpl.
  - apply substring_zero.
  - now rewrite IH.
Qed.

Lemma length_append (a b : string) :
  String.length (a ++ b) = String.length a + String.length b.
Proof. induction a as [|x a IH]; simpl; auto. Qed.

(** Two texts that are equal end with the same character. *)
Lemma append_last_inj (x y : string) (a b : ascii) :
  x ++ String a "" = y ++ String b "" -> a = b.
Proof.
  revert y; induction x as [|c x IH]; intros [|d y]; simpl.
  - now intros [= ->].
  - intros [= _ H]. destruct y; discriminate.
  - intros [= _ H]. destruct x; discriminate.
  - intros [= _ H]. now apply (IH y).
Qed.

(** C8, as the specification states it, fails on every transcript that
    does not end with a newline, ["Customer: hello"] for one: the
    f-string of lines 58 to 62 closes the request with a newline after
    the transcript, so the prompt is not the instruction block, a
    delimiter and the transcript, whatever the delimiter is. *)
Lemma prompt_composition_counterexample :
  ~ (exists delimiter,
       prompt "Customer: hello"
       = SYSTEM_GUIDE ++ delimiter ++ "Customer: hello") /\
  prompt "Customer: hello"
  <> SYSTEM_GUIDE ++ TRANSCRIPT_HEADER ++ "Customer: hello".
Proof.
  assert (H : forall delimiter,
            prompt "Customer: hello"
            <> SYSTEM_GUIDE ++ delimiter ++ "Customer: hello").
  { intros delimiter E. unfold prompt in E.
    change "Customer: hello" with ("Customer: hell" ++ "o") in E at 2.
    rewrite <- !append_assoc in E.
    apply append_last_inj in E. discriminate. }
  split; [|apply H]. intros [delimiter E]. exact (H delimiter E).
Qed.

(** C8, amended. For every transcript, of any length and content, the
    prompt is one string: the constant instruction block, then the
    delimiter, then the transcript as it is, which so stands unmodified
    and in one piece right after the delimiter, then one closing newline
    and nothing more.  The composition is a total function of the
    transcript: it has no failure, and the outcome of [evaluate_ticket]
    is the outcome of the text the model answers to this prompt. *)
Theorem prompt_composition (ticket_text : string) :
  prompt ticket_text = SYSTEM_GUIDE ++ TRANSCRIPT_HEADER ++ ticket_text ++ nl /\
  TRANSCRIPT_HEADER = nl ++ nl ++ "TICKET TRANSCRIPT:" ++ nl /\
  prefix (SYSTEM_GUIDE ++ TRANSCRIPT_HEADER) (prompt ticket_text) = true /\
  substring
    (String.length (SYSTEM_GUIDE ++ TRANSCRIPT_HEADER))
    (String.length ticket_text)
    (prompt ticket_text) = ticket_text /\
  substring
    (String.length (SYSTEM_GUIDE ++ TRANSCRIPT_HEADER) + String.length ticket_text)
    (String.length (prompt ticket_text))
    (prompt ticket_text) = nl /\
  String.length (prompt ticket_text)
  = String.length SYSTEM_GUIDE + String.length TRANSCRIPT_HEADER
    + String.length ticket_text + 1 /\
  prompt ticket_text <> SYSTEM_GUIDE ++ TRANSCRIPT_HEADER ++ ticket_text /\
  forallb (fun k => contains k SYSTEM_GUIDE) QA_CRITERIA = true /\
  contains "- overall_score = sum(criteria)" SYSTEM_GUIDE = true /\
  (forall generate_content resp,
     generate_content (prompt ticket_text) = Some resp ->
     evaluate_ticket generate_content ticket_text = evaluate_raw (raw_text resp)).
Proof.
  assert (E : prompt ticket_text
              = (SYSTEM_GUIDE ++ TRANSCRIPT_HEADER) ++ ticket_text ++ nl).
  { unfold prompt. now rewrite append_assoc. }
  assert (L : String.length (prompt ticket_text)
              = String.length SYSTEM_GUIDE + String.length TRANSCRIPT_HEADER
                + String.length ticket_text + 1).
  { unfold prompt. rewrite !length_append. simpl. lia. }
  split; [reflexivity|]. split; [reflexivity|].
  split; [rewrite E; apply prefix_app|].
  split; [rewrite E, substring_skip; apply substring_take|].
  split.
  { rewrite L. rewrite E at 1. rewrite <- append_assoc.
    rewrite <- length_append, substring_skip. reflexivity. }
  split; [exact L|].
  split.
  { intros H. apply (f_equal String.length) in H. rewrite L in H.
    rewrite !length_append in H. lia. }
  split; [vm_compute; reflexivity|].
  split; [vm_compute; reflexivity|].
  intros generate_content resp H. unfold evaluate_ticket. now rewrite H.
Qed.

(** ** The ROI estimator *)

(** C9. For all integers [managers] in 1..500, [hrs_saved_per_mgr] in
    1..20 and [hourly_cost] in 20..300, the weekly hours saved are
    [managers * hrs_saved_per_mgr] and the weekly savings are these hours
    times [hourly_cost]; 10 managers saving 4 hours each at 70 an hour
    give 40 hours and 2800. *)
Theorem roi_estimate (managers hrs_saved_per_mgr hourly_cost : Z) :
  ROI.managers_ok managers ->
  ROI.hrs_saved_ok hrs_saved_per_mgr ->
  ROI.hourly_cost_ok hourly_cost ->
  (ROI.weekly_hours managers hrs_saved_per_mgr
   = managers * hrs_saved_per_mgr /\
   ROI.weekly_savings managers hrs_saved_per_mgr hourly_cost
   = ROI.weekly_hours managers hrs_saved_per_mgr * hourly_cost /\
   ROI.weekly_savings managers hrs_saved_per_mgr hourly_cost
   = managers * hrs_saved_per_mgr * hourly_cost /\
   1 <= ROI.weekly_hours managers hrs_saved_per_mgr <= 10000 /\
   20 <= ROI.weekly_savings managers hrs_saved_per_mgr hourly_cost <= 3000000 /\
   ROI.weekly_hours 10 4 = 40 /\
   ROI.weekly_savings 10 4 70 = 2800)%Z.
Proof.
  unfold ROI.managers_ok, ROI.hrs_saved_ok, ROI.hourly_cost_ok, ROI.in_range,
    ROI.weekly_savings, ROI.weekly_hours.
  intros Hm Hh Hc.
  assert (Hhours : (1 <= managers * hrs_saved_per_mgr <= 10000)%Z) by nia.
  assert (Hsavings :
            (20 <= managers * hrs_saved_per_mgr * hourly_cost <= 3000000)%Z).
  { remember (managers * hrs_saved_per_mgr)%Z as hours. nia. }
  repeat split; try reflexivity; lia.
Qed.

Lemma roi_estimate_witness :
  ROI.managers_ok 10 /\ ROI.hrs_saved_ok 4 /\ ROI.hourly_cost_ok 70 /\
  ROI.weekly_hours 10 4 = 40%Z /\
  ROI.weekly_savings 10 4 70 = 2800%Z.
Proof.
  assert (Hm : ROI.managers_ok 10) by (unfold ROI.managers_ok, ROI.in_range; lia).
  assert (Hh : ROI.hrs_saved_ok 4) by (unfold ROI.hrs_saved_ok, ROI.in_range; lia).
  assert (Hc : ROI.hourly_cost_ok 70)
    by (unfold ROI.hourly_cost_ok, ROI.in_range; lia).
  split; [exact Hm|]. split; [exact Hh|]. split; [exact Hc|].
  pose proof (roi_estimate 10 4 70 Hm Hh Hc) as (_ & _ & _ & _ & _ & H1 & H2).
  split; [exact H1|exact H2].
Defined.

(** * Further properties *)

(** ** The span and the prose around it *)

Lemma occurs_app (c : ascii) (a b : string) :
  occurs c (a ++ b) = occurs c a || occurs c b.
Proof.
  induction a as [|x a IH]; simpl; [reflexivity|].
  now rewrite IH, orb_assoc.
Qed.

(** The last [c] of a text that ends with [c] and a tail without [c]. *)
Lemma rfind_app_last (c : ascii) (a post : string) :
  occurs c post = false ->
  rfind c (a ++ String c post) = Some (String.length a).
Proof.
  intros Hpost. induction a as [|x a IH]; simpl.
  - apply rfind_none in Hpost. rewrite Hpost.
    now rewrite Ascii.eqb_refl.
  - now rewrite IH.
Qed.

(** Where the last [c] is, the text splits in two around it. *)
Lemma rfind_split (c : ascii) (s : string) (j : nat) :
  rfind c s = Some j ->
  exists mid post,
    s = mid ++ String c post /\ occurs c post = false /\
    substring 0 (S j) s = mid ++ String c "".
Proof.
  revert j; induction s as [|x s IH]; intros j; simpl; [discriminate|].
  destruct (rfind c s) as [k|] eqn:E.
  - intros [= <-]. destruct (IH k eq_refl) as (mid & post & -> & Hpost & Hsub).
    exists (String x mid), post. repeat split; auto.
    simpl. f_equal. exact Hsub.
  - destruct (Ascii.eqb_spec x c) as [->|Hne]; [|discriminate].
    intros [= <-]. exists "", s. repeat split.
    + now apply rfind_none.
    + simpl. now rewrite substring_zero.
Qed.

Lemma re_search_skip (pre s : string) :
  occurs "{" pre = false ->
  re_search JSON_SPAN (pre ++ s) = re_search JSON_SPAN s.
Proof.
  induction pre as [|x pre IH]; [reflexivity|]. simpl occurs.
  intros H. apply orb_false_iff in H as [Hx Hpre].
  simpl append.
  change (re_search JSON_SPAN (String x (pre ++ s)))
    with (match match_here JSON_SPAN (String x (pre ++ s)) with
          | Some m => Some m
          | None => re_search JSON_SPAN (pre ++ s)
          end).
  rewrite match_json_span, Hx. now apply IH.
Qed.

(** Prose without an opening brace before an object and prose without a
    closing brace after it do not reach the parser. *)
Lemma re_search_between (pre mid post : string) :
  occurs "{" pre = false ->
  occurs "}" post = false ->
  re_search JSON_SPAN (pre ++ "{" ++ mid ++ "}" ++ post)
  = Some ("{" ++ mid ++ "}").
Proof.
  intros Hpre Hpost. rewrite (re_search_skip _ _ Hpre).
  simpl append.
  change (re_search JSON_SPAN (String "{" (mid ++ String "}" post)))
    with (match match_here JSON_SPAN (String "{" (mid ++ String "}" post)) with
          | Some m => Some m
          | None => re_search JSON_SPAN (mid ++ String "}" post)
          end).
  rewrite match_json_span. simpl Ascii.eqb. cbv iota.
  rewrite (rfind_app_last _ _ _ Hpost).
  do 2 f_equal.
  replace (mid ++ String "}" post) with ((mid ++ "}") ++ post)
    by (now rewrite append_assoc).
  replace (S (String.length mid)) with (String.length (mid ++ "}"))
    by (rewrite length_append; simpl; lia).
  apply substring_take.
Qed.

(** Every span was found between such prose. *)
Lemma re_search_decompose (raw span : string) :
  re_search JSON_SPAN raw = Some span ->
  exists pre mid post,
    raw = pre ++ "{" ++ mid ++ "}" ++ post /\
    occurs "{" pre = false /\
    occurs "}" post = false /\
    span = "{" ++ mid ++ "}".
Proof.
  induction raw as [|x s IH]; [discriminate|].
  change (re_search JSON_SPAN (String x s))
    with (match match_here JSON_SPAN (String x s) with
          | Some m => Some m
          | None => re_search JSON_SPAN s
          end).
  rewrite match_json_span.
  assert (Hrec : re_search JSON_SPAN s = Some span ->
                 Ascii.eqb x "{" = false ->
                 exists pre mid post,
                   String x s = pre ++ "{" ++ mid ++ "}" ++ post /\
                   occurs "{" pre = false /\ occurs "}" post = false /\
                   span = "{" ++ mid ++ "}").
  { intros H Hx. destruct (IH H) as (pre & mid & post & -> & Hpre & Hpost & ->).
    exists (String x pre), mid, post. repeat split; auto.
    simpl. now rewrite Hx. }
  destruct (Ascii.eqb x "{") eqn:Hx.
  - apply Ascii.eqb_eq in Hx. subst x.
    destruct (rfind "}" s) as [j|] eqn:Ej.
    + intros [= <-].
      destruct (rfind_split _ _ _ Ej) as (mid & post & -> & Hpost & Hsub).
      exists "", mid, post. repeat split; auto.
      rewrite Hsub. reflexivity.
    + intros H. exfalso.
      rewrite re_search_greedy in H. unfold greedy_span in H.
      rewrite Ej in H. destruct (find "{" s); discriminate.
  - intros H. now apply Hrec.
Qed.

(** X2. Whatever stands around the object, code fences, brackets or
    sentences, does not count: with no opening brace before the object
    and no closing brace after it, [evaluate_ticket] gives what the
    object alone gives. *)
Theorem prose_around_object_ignored
    (generate_content : string -> option response)
    (ticket_text pre mid post : string) :
  answers generate_content ticket_text (pre ++ "{" ++ mid ++ "}" ++ post) ->
  occurs "{" pre = false ->
  occurs "}" post = false ->
  evaluate_ticket generate_content ticket_text
  = parse_and_validate ("{" ++ mid ++ "}") /\
  evaluate_ticket generate_content ticket_text
  = evaluate_raw ("{" ++ mid ++ "}").
Proof.
  intros Hans Hpre Hpost.
  rewrite (evaluate_ticket_answers _ _ _ Hans).
  rewrite (evaluate_raw_span _ _ (re_search_between _ _ _ Hpre Hpost)).
  split; [reflexivity|].
  symmetry. apply evaluate_raw_span.
  apply (re_search_between "" mid ""); reflexivity.
Qed.

Lemma prose_around_object_ignored_witness :
  answers (canned (Some ("Scores: [" ++ "{" ++ qs "overall_score" ++ ":18"
                         ++ "}" ++ "] as asked.")))
    "Customer: hello"
    ("Scores: [" ++ "{" ++ qs "overall_score" ++ ":18" ++ "}" ++ "] as asked.") /\
  occurs "{" "Scores: [" = false /\
  occurs "}" "] as asked." = false /\
  evaluate_ticket
    (canned (Some ("Scores: [" ++ "{" ++ qs "overall_score" ++ ":18"
                   ++ "}" ++ "] as asked.")))
    "Customer: hello"
  = parse_and_validate ("{" ++ qs "overall_score" ++ ":18" ++ "}").
Proof.
  assert (Ha : answers
                 (canned (Some ("Scores: [" ++ "{" ++ qs "overall_score" ++ ":18"
                                ++ "}" ++ "] as asked.")))
                 "Customer: hello"
                 ("Scores: [" ++ "{" ++ qs "overall_score" ++ ":18"
                  ++ "}" ++ "] as asked.")).
  { eexists. split; reflexivity. }
  split; [exact Ha|]. split; [reflexivity|]. split; [reflexivity|].
  exact (proj1 (prose_around_object_ignored _ "Customer: hello"
                  "Scores: [" (qs "overall_score" ++ ":18") "] as asked."
                  Ha eq_refl eq_refl)).
Defined.

(** X3. The outcome depends on the raw response through its span only: the
    span, given as the whole response, is its own span and has the same
    outcome. *)
Theorem outcome_is_outcome_of_span
    (generate_content : string -> option response)
    (ticket_text raw span : string) :
  answers generate_content ticket_text raw ->
  re_search JSON_SPAN raw = Some span ->
  re_search JSON_SPAN span = Some span /\
  evaluate_ticket (canned (Some span)) ticket_text
  = evaluate_ticket generate_content ticket_text.
Proof.
  intros Hans Hspan.
  destruct (re_search_decompose _ _ Hspan) as (pre & mid & post & _ & _ & _ & ->).
  assert (Hself : re_search JSON_SPAN ("{" ++ mid ++ "}") = Some ("{" ++ mid ++ "}")).
  { apply (re_search_between "" mid ""); reflexivity. }
  split; [exact Hself|].
  rewrite (evaluate_ticket_answers _ _ _ Hans), (evaluate_raw_span _ _ Hspan).
  rewrite (evaluate_ticket_answers _ _ _ (canned_answers ticket_text _)).
  now apply evaluate_raw_span.
Qed.

Lemma outcome_is_outcome_of_span_witness :
  answers (canned (Some Scenario.round_trip_raw)) "Customer: hello"
    Scenario.round_trip_raw /\
  re_search JSON_SPAN Scenario.round_trip_raw = Some Scenario.round_trip_span /\
  re_search JSON_SPAN Scenario.round_trip_span = Some Scenario.round_trip_span /\
  evaluate_ticket (canned (Some Scenario.round_trip_span)) "Customer: hello"
  = evaluate_ticket (canned (Some Scenario.round_trip_raw)) "Customer: hello".
Proof.
  assert (Ha : answers (canned (Some Scenario.round_trip_raw)) "Customer: hello"
                 Scenario.round_trip_raw).
  { eexists. split; reflexivity. }
  assert (Hs : re_search JSON_SPAN Scenario.round_trip_raw
               = Some Scenario.round_trip_span)
    by (vm_compute; reflexivity).
  split; [exact Ha|]. split; [exact Hs|].
  exact (outcome_is_outcome_of_span _ "Customer: hello" _ _ Ha Hs).
Defined.

(** ** What a returned result looks like *)

Module ShapeFacts.
Import Json JsonFacts.

Lemma dict_set_forall (P : string * json -> Prop) (k : string) (v : json)
    (d : list (string * json)) :
  P (k, v) -> Forall P d -> Forall P (dict_set k v d).
Proof.
  intros Hkv. induction d as [|[k0 v0] d IH]; simpl; intros Hd.
  - now constructor.
  - inversion Hd as [|? ? H0 Hd']; subst.
    destruct (String.eqb k0 k); constructor; auto.
Qed.

Lemma dict_of_pairs_forall (P : string * json -> Prop)
    (pairs : list (string * json)) :
  Forall P pairs -> Forall P (dict_of_pairs pairs).
Proof.
  unfold dict_of_pairs.
  assert (G : forall acc, Forall P acc -> Forall P pairs ->
            Forall P (fold_left (fun d kv => dict_set (fst kv) (snd kv) d)
                        pairs acc)).
  { induction pairs as [|[k v] pairs IH]; intros acc Hacc Hp; simpl;
      [exact Hacc|].
    inversion Hp as [|? ? Hkv Hp']; subst.
    apply IH; [|exact Hp']. now apply dict_set_forall. }
  intros Hp. apply G; [constructor|exact Hp].
Qed.

Lemma match_number_distinct (s : string) (v : json) (r : string) :
  match_number s = Some (v, r) -> distinct_keys v.
Proof.
  unfold match_number.
  destruct (integer_part s) as [[i r1]|]; [|discriminate].
  destruct (frac_part r1) as [f r2]. destruct (exp_part r2) as [x r3].
  destruct f, x; intros [= <- _]; constructor.
Qed.

(** The scanners build values without a repeated key. *)
Lemma scanners_distinct (fuel : nat) :
  (forall s v r, scan_once fuel s = Done v r -> distinct_keys v) /\
  (forall pairs s v r,
      Forall (fun kv => distinct_keys (snd kv)) pairs ->
      object_loop fuel pairs s = Done v r -> distinct_keys v) /\
  (forall values s v r,
      Forall distinct_keys values ->
      array_loop fuel values s = Done v r -> distinct_keys v).
Proof.
  induction fuel as [|f (IHs & IHo & IHa)];
    [repeat split; intros; discriminate|].
  repeat split.
  - intros s v r. destruct s as [|c s']; [discriminate|].
    cbn -[prefix drop skip_ws scanstring match_number].
    case_char.
    { destruct (scanstring s') as [e|[str rest]]; [discriminate|].
      intros [= <- _]. constructor. }
    case_char.
    { destruct (skip_ws s') as [|k t]; [discriminate|].
      case_char; [apply IHo; constructor|].
      case_char; [|discriminate]. intros [= <- _].
      constructor; constructor. }
    case_char.
    { destruct (skip_ws s') as [|k t]; [apply IHa; constructor|].
      case_char; [|apply IHa; constructor].
      intros [= <- _]. constructor. constructor. }
    case_prefix. { intros [= <- _]. constructor. }
    case_prefix. { intros [= <- _]. constructor. }
    case_prefix. { intros [= <- _]. constructor. }
    destruct (match_number (String c s')) as [[v' rest]|] eqn:E.
    { intros [= <- _]. now apply match_number_distinct in E. }
    case_prefix. { intros [= <- _]. constructor. }
    case_prefix. { intros [= <- _]. constructor. }
    case_prefix. { intros [= <- _]. constructor. }
    discriminate.
  - intros pairs s v r Hpairs.
    cbn -[skip_ws scanstring dict_of_pairs].
    destruct (scanstring s) as [e|[key r0]]; [discriminate|].
    destruct (skip_ws r0) as [|colon r1]; [discriminate|].
    case_char; [|discriminate].
    destruct (scan_once f (skip_ws r1)) as [value r2| |] eqn:Ev;
      try discriminate.
    apply IHs in Ev.
    assert (Hpairs' : Forall (fun kv => distinct_keys (snd kv))
                        (pairs ++ [(key, value)])%list).
    { apply Forall_app. split; [exact Hpairs|]. constructor; [exact Ev|constructor]. }
    destruct (skip_ws r2) as [|nextchar r3]; [discriminate|].
    case_char.
    { intros [= <- _]. constructor.
      - apply dict_of_pairs_nodup.
      - now apply dict_of_pairs_forall. }
    case_char; [|discriminate].
    destruct (skip_ws r3) as [|k r4]; [discriminate|].
    case_char; [|discriminate].
    now apply IHo.
  - intros values s v r Hvalues.
    cbn -[skip_ws].
    destruct (scan_once f s) as [value r0| |] eqn:Ev; try discriminate.
    apply IHs in Ev.
    assert (Hvalues' : Forall distinct_keys (values ++ [value])%list).
    { apply Forall_app. split; [exact Hvalues|]. constructor; [exact Ev|constructor]. }
    destruct (skip_ws r0) as [|nextchar r']; [discriminate|].
    case_char. { intros [= <- _]. now constructor. }
    case_char; [|discriminate].
    now apply IHa.
Qed.

Lemma loads_distinct (s : string) (v : json) :
  loads s = inr v -> distinct_keys v.
Proof.
  unfold loads. destruct (prefix BOM s); [discriminate|].
  destruct (scan_once (S (2 * String.length s)) (skip_ws s))
    as [obj rest| |] eqn:E; try discriminate.
  destruct (skip_ws rest); [|discriminate].
  intros [= <-]. now apply (proj1 (scanners_distinct _)) in E.
Qed.

End ShapeFacts.

Lemma dict_get_in (k : string) (v : json) (d : list (string * json)) :
  dict_get k d = Some v -> In (k, v) d.
Proof.
  induction d as [|[k0 v0] d IH]; simpl; [discriminate|].
  destruct (String.eqb_spec k0 k) as [->|Hne].
  - intros [= ->]. now left.
  - intros H. right. now apply IH.
Qed.

Lemma dict_keys_get (k : string) (d : list (string * json)) :
  In k (dict_keys d) -> exists v, dict_get k d = Some v.
Proof.
  induction d as [|[k0 v0] d IH]; simpl; [intros []|].
  destruct (String.eqb_spec k0 k) as [->|Hne].
  - intros _. now exists v0.
  - intros [H|H]; [contradiction|]. now apply IH.
Qed.

Lemma QA_CRITERIA_nodup : NoDup QA_CRITERIA.
Proof.
  unfold QA_CRITERIA.
  repeat (constructor; [simpl; intuition discriminate|]). constructor.
Qed.

(** What [evaluate_raw] went through when it returns. *)
Lemma evaluate_raw_returns (raw : string) (data : json) :
  evaluate_raw raw = Returns data ->
  exists span fields scores,
    re_search JSON_SPAN raw = Some span /\
    Json.loads span = inr data /\
    data = JObj fields /\
    dict_has "overall_score" fields = true /\
    dict_get "criteria_scores" fields = Some (JObj scores) /\
    set_eqb (dict_keys scores) QA_CRITERIA = true.
Proof.
  unfold evaluate_raw.
  destruct (re_search JSON_SPAN raw) as [span|] eqn:Hs; [|discriminate].
  unfold parse_and_validate.
  destruct (Json.loads span) as [why|parsed] eqn:Hl; [discriminate|].
  intros Hv. pose proof (validate_returns _ _ Hv) as ->.
  destruct (SpanFacts.span_loads_dict _ _ _ Hs Hl) as [fields ->].
  rewrite validate_dict in Hv.
  destruct (dict_has "criteria_scores" fields); [|discriminate].
  destruct (dict_has "overall_score" fields) eqn:Hos; [|discriminate].
  simpl andb in Hv. cbv iota in Hv.
  destruct (dict_get "criteria_scores" fields) as [[| | | | | |scores]|] eqn:Hcs;
    try discriminate.
  destruct (set_eqb (dict_keys scores) QA_CRITERIA) eqn:Hset; [|discriminate].
  exists span, fields, scores. repeat split; auto.
Qed.

Lemma evaluate_ticket_returns
    (generate_content : string -> option response)
    (ticket_text : string) (data : json) :
  evaluate_ticket generate_content ticket_text = Returns data ->
  exists raw,
    answers generate_content ticket_text raw /\
    evaluate_raw raw = Returns data.
Proof.
  unfold evaluate_ticket.
  destruct (generate_content (prompt ticket_text)) as [resp|] eqn:E;
    [|discriminate].
  intros H. exists (raw_text resp). split; [|exact H].
  now exists resp.
Qed.

(** X5. A result [evaluate_ticket] returns is a [dict] with an
    [overall_score] and a [criteria_scores] that is a [dict] of exactly
    five entries, one for each criterion of the rubric and no other. *)
Theorem returned_result_shape
    (generate_content : string -> option response)
    (ticket_text : string) (data : json) :
  evaluate_ticket generate_content ticket_text = Returns data ->
  exists fields scores,
    data = JObj fields /\
    dict_has "overall_score" fields = true /\
    dict_get "criteria_scores" fields = Some (JObj scores) /\
    Permutation (dict_keys scores) QA_CRITERIA /\
    List.length scores = 5 /\
    (forall k, In k QA_CRITERIA -> exists v, dict_get k scores = Some v).
Proof.
  intros H. apply evaluate_ticket_returns in H as (raw & _ & H).
  apply evaluate_raw_returns in H
    as (span & fields & scores & _ & Hl & -> & Hos & Hcs & Hset).
  pose proof (proj1 (set_eqb_spec _ _) Hset) as Hsame.
  apply ShapeFacts.loads_distinct in Hl.
  inversion Hl as [| | | | | |? _ Hall]; subst.
  apply dict_get_in in Hcs as Hin.
  rewrite Forall_forall in Hall. specialize (Hall _ Hin). simpl in Hall.
  inversion Hall as [| | | | | |? Hnodup _]; subst.
  assert (Hperm : Permutation (dict_keys scores) QA_CRITERIA).
  { apply NoDup_Permutation; [exact Hnodup|apply QA_CRITERIA_nodup|exact Hsame]. }
  exists fields, scores. repeat split; auto.
  - apply Permutation_length in Hperm. unfold dict_keys in Hperm.
    now rewrite length_map in Hperm.
  - intros k Hk. apply dict_keys_get. now apply Hsame.
Qed.

Lemma returned_result_shape_witness :
  evaluate_ticket (canned (Some Scenario.round_trip_raw)) "Customer: hello"
  = Returns Scenario.round_trip_result /\
  exists fields scores,
    Scenario.round_trip_result = JObj fields /\
    dict_has "overall_score" fields = true /\
    dict_get "criteria_scores" fields = Some (JObj scores) /\
    Permutation (dict_keys scores) QA_CRITERIA /\
    List.length scores = 5 /\
    (forall k, In k QA_CRITERIA -> exists v, dict_get k scores = Some v).
Proof.
  assert (He : evaluate_ticket (canned (Some Scenario.round_trip_raw))
                 "Customer: hello" = Returns Scenario.round_trip_result)
    by (vm_compute; reflexivity).
  split; [exact He|].
  exact (returned_result_shape _ _ _ He).
Defined.

(** X1. When [json.loads] returns on the extracted span, what it
    returns is a [dict], because a span starts with an opening brace.  So
    the [in] tests of line 73 and the subscript of line 75 are defined
    and cannot raise [TypeError] or [KeyError], and [evaluate_ticket]
    ends in one of four ways, each decided by the fields of that [dict]:
    it returns the [dict]; a required key is missing (line 74); the keys
    of [criteria_scores] are not the rubric (line 76); or
    [criteria_scores] is not a [dict] and [.keys()] raises
    [AttributeError] (line 75). *)
Theorem parsed_span_outcomes
    (generate_content : string -> option response)
    (ticket_text raw span : string) (data : json) :
  answers generate_content ticket_text raw ->
  re_search JSON_SPAN raw = Some span ->
  Json.loads span = inr data ->
  exists fields,
    data = JObj fields /\
    evaluate_ticket generate_content ticket_text <> Raises TypeError /\
    evaluate_ticket generate_content ticket_text <> Raises KeyError /\
    ((evaluate_ticket generate_content ticket_text = Returns data /\
      dict_has "overall_score" fields = true /\
      exists scores,
        dict_get "criteria_scores" fields = Some (JObj scores) /\
        set_eqb (dict_keys scores) QA_CRITERIA = true) \/
     (evaluate_ticket generate_content ticket_text = Raises (MissingKeys data) /\
      (dict_has "criteria_scores" fields = false \/
       dict_has "overall_score" fields = false)) \/
     (evaluate_ticket generate_content ticket_text = Raises CriteriaMismatch /\
      dict_has "overall_score" fields = true /\
      exists scores,
        dict_get "criteria_scores" fields = Some (JObj scores) /\
        set_eqb (dict_keys scores) QA_CRITERIA = false) \/
     (evaluate_ticket generate_content ticket_text = Raises AttributeError /\
      dict_has "overall_score" fields = true /\
      exists v,
        dict_get "criteria_scores" fields = Some v /\
        forall scores, v <> JObj scores)).
Proof.
  intros Hans Hs Hl.
  rewrite (evaluate_ticket_answers _ _ _ Hans), (evaluate_raw_span _ _ Hs).
  unfold parse_and_validate. rewrite Hl.
  destruct (SpanFacts.span_loads_dict _ _ _ Hs Hl) as [fields ->].
  exists fields. split; [reflexivity|].
  rewrite validate_dict.
  destruct (dict_has "criteria_scores" fields) eqn:Hcs; simpl andb.
  2:{ repeat split; try discriminate. right; left. split; auto. }
  destruct (dict_has "overall_score" fields) eqn:Hos; cbv iota.
  2:{ repeat split; try discriminate. right; left. split; auto. }
  apply dict_has_get in Hcs as [v Hv]. rewrite Hv.
  destruct v as [| | | | | |scores];
    try (repeat split; try discriminate;
         right; right; right; split; [reflexivity|]; split; [reflexivity|];
         eexists; split; [reflexivity|]; intros scores; discriminate).
  destruct (set_eqb (dict_keys scores) QA_CRITERIA) eqn:Hset.
  - repeat split; try discriminate. left. split; [reflexivity|].
    split; [reflexivity|]. now exists scores.
  - repeat split; try discriminate. right; right; left.
    split; [reflexivity|]. split; [reflexivity|]. now exists scores.
Qed.

Lemma parsed_span_outcomes_witness :
  answers (canned (Some ("Result: " ++ Scenario.scalar_scores_raw)))
    "Customer: hello" ("Result: " ++ Scenario.scalar_scores_raw) /\
  re_search JSON_SPAN ("Result: " ++ Scenario.scalar_scores_raw)
  = Some Scenario.scalar_scores_raw /\
  Json.loads Scenario.scalar_scores_raw = inr Scenario.scalar_scores_data /\
  evaluate_ticket (canned (Some ("Result: " ++ Scenario.scalar_scores_raw)))
    "Customer: hello"
  = Raises AttributeError /\
  exists fields,
    Scenario.scalar_scores_data = JObj fields /\
    evaluate_ticket (canned (Some ("Result: " ++ Scenario.scalar_scores_raw)))
      "Customer: hello" <> Raises TypeError /\
    evaluate_ticket (canned (Some ("Result: " ++ Scenario.scalar_scores_raw)))
      "Customer: hello" <> Raises KeyError.
Proof.
  assert (Ha : answers (canned (Some ("Result: " ++ Scenario.scalar_scores_raw)))
                 "Customer: hello" ("Result: " ++ Scenario.scalar_scores_raw)).
  { eexists. split; reflexivity. }
  assert (Hs : re_search JSON_SPAN ("Result: " ++ Scenario.scalar_scores_raw)
               = Some Scenario.scalar_scores_raw)
    by (vm_compute; reflexivity).
  assert (Hl : Json.loads Scenario.scalar_scores_raw
               = inr Scenario.scalar_scores_data)
    by (vm_compute; reflexivity).
  split; [exact Ha|]. split; [exact Hs|]. split; [exact Hl|].
  split; [vm_compute; reflexivity|].
  destruct (parsed_span_outcomes _ "Customer: hello" _ _ _ Ha Hs Hl)
    as (fields & E & Ht & Hk & _).
  exists fields. split; [exact E|]. split; [exact Ht|exact Hk].
Defined.

(** ** The prompt *)

Lemma append_inj_l (a x y : string) : a ++ x = a ++ y -> x = y.
Proof. induction a as [|c a IH]; simpl; [auto|]. intros [= H]. auto. Qed.

Lemma append_inj_r (x y c : string) : x ++ c = y ++ c -> x = y.
Proof.
  revert y; induction x as [|a x IH]; intros [|b y] H.
  - reflexivity.
  - exfalso. apply (f_equal String.length) in H.
    simpl in H. rewrite length_append in H. lia.
  - exfalso. apply (f_equal String.length) in H.
    simpl in H. rewrite length_append in H. lia.
  - simpl in H. injection H as -> H. f_equal. now apply IH.
Qed.

(** X6. Two transcripts with the same prompt are the same transcript:
    nothing of a transcript is lost or merged when the prompt is built. *)
Theorem prompt_injective (ticket_text ticket_text' : string) :
  prompt ticket_text = prompt ticket_text' -> ticket_text = ticket_text'.
Proof.
  unfold prompt. intros H.
  apply append_inj_l in H. apply append_inj_l in H.
  now apply append_inj_r in H.
Qed.

Lemma prompt_injective_witness :
  prompt "Customer: hello" = prompt "Customer: hello" /\
  "Customer: hello" = "Customer: hello".
Proof.
  split; [reflexivity|].
  exact (prompt_injective "Customer: hello" "Customer: hello" eq_refl).
Defined.

(** ** The page *)

Module PageFacts.

Lemma seq_emit (c : call) (q : page) :
  Page.emit c ;; q = (c :: fst q, snd q).
Proof. destruct q as [ds r]. reflexivity. Qed.

Lemma seq_calls (cs : list call) (q : page) :
  (cs, None) ;; q = ((cs ++ fst q)%list, snd q).
Proof. destruct q as [ds r]. reflexivity. Qed.

Lemma seq_fail (cs : list call) (e : render_error) (q : page) :
  (cs, Some e) ;; q = (cs, Some e).
Proof. reflexivity. Qed.

Lemma seq_error (p q : page) :
  snd (p ;; q) = match snd p with Some e => Some e | None => snd q end.
Proof. destruct p as [cs [e|]], q as [ds r]; reflexivity. Qed.

Lemma seq_calls_prefix (p q : page) :
  exists rest, fst (p ;; q) = (fst p ++ rest)%list.
Proof.
  destruct p as [cs [e|]], q as [ds r]; simpl.
  - exists []. now rewrite app_nil_r.
  - now exists ds.
Qed.

End PageFacts.

Section RenderFacts.

Variable float_is_zero : string -> bool.
Variable float_in_bar : string -> bool.

(** The bar of an [int] is drawn exactly for 0 to 5. *)
Lemma bar_refusal_int (z : Z) :
  bar_refusal float_in_bar (JInt z) = None <-> (0 <= z <= 5)%Z.
Proof.
  unfold bar_refusal, div_by_float, progress_takes.
  assert (Hbig : (5 < FLOAT_OVERFLOW)%Z) by (vm_compute; reflexivity).
  destruct (Z.leb_spec FLOAT_OVERFLOW (Z.abs z)) as [Hover|Hin].
  - split; [discriminate|]. lia.
  - destruct (Z.leb_spec 0 z), (Z.leb_spec z 5); simpl; split;
      try discriminate; try reflexivity; lia.
Qed.

Lemma bar_refusal_error (v : json) (e : render_error) :
  bar_refusal float_in_bar v = Some e ->
  e = RTypeError \/ e = ROverflowError \/ e = RStreamlitAPIException.
Proof.
  unfold bar_refusal, div_by_float.
  destruct v as [|b|z|literal| | |]; cbv beta iota;
    try (intros [= <-]; now left).
  - destruct (FLOAT_OVERFLOW <=? Z.abs z)%Z; cbv iota.
    + intros [= <-]. now right; left.
    + destruct (progress_takes float_in_bar (JInt z)); cbv iota;
        [discriminate|].
      intros [= <-]. now right; right.
  - destruct (progress_takes float_in_bar (JFloat literal)); cbv iota;
      [discriminate|].
    intros [= <-]. now right; right.
Qed.

Lemma score_bar_value (fields scores : list (string * json))
    (k : string) (v : json) :
  dict_get "criteria_scores" fields = Some (JObj scores) ->
  dict_get k scores = Some v ->
  score_bar float_in_bar (JObj fields) k
  = match bar_refusal float_in_bar (score_of scores k) with
    | Some e => Page.fail e
    | None => Page.emit (StProgress (score_of scores k) (criterion_label k))
    end.
Proof.
  intros Hcs Hv. unfold score_bar, subscript, Page.eval, score_of.
  rewrite Hcs. cbv iota beta. now rewrite Hv.
Qed.

(** The bars of criteria that all have a score whose bar is drawn. *)
Lemma score_bars_numeric (fields scores : list (string * json))
    (ks : list string) :
  dict_get "criteria_scores" fields = Some (JObj scores) ->
  (forall k, In k ks ->
     (exists v, dict_get k scores = Some v) /\
     bar_refusal float_in_bar (score_of scores k) = None) ->
  score_bars float_in_bar (JObj fields) ks
  = (map (fun k => StProgress (score_of scores k) (criterion_label k)) ks, None).
Proof.
  intros Hcs. induction ks as [|k ks IH]; intros Hks; [reflexivity|].
  simpl score_bars.
  destruct (Hks k (or_introl eq_refl)) as [[v Hv] Hbar].
  rewrite (score_bar_value _ _ _ _ Hcs Hv), Hbar.
  rewrite PageFacts.seq_emit, IH; [reflexivity|].
  intros k' Hk'. apply Hks. now right.
Qed.

(** The bars stop at the first score that is refused: the bars of the
    criteria before it were drawn, and the page ends with what refused
    it. *)
Lemma score_bars_refused (fields scores : list (string * json))
    (ks : list string) (k : string) :
  dict_get "criteria_scores" fields = Some (JObj scores) ->
  (forall k', In k' ks -> exists v, dict_get k' scores = Some v) ->
  In k ks ->
  bar_refusal float_in_bar (score_of scores k) <> None ->
  exists before first after e,
    ks = (before ++ first :: after)%list /\
    (forall k', In k' before ->
       bar_refusal float_in_bar (score_of scores k') = None) /\
    bar_refusal float_in_bar (score_of scores first) = Some e /\
    score_bars float_in_bar (JObj fields) ks
    = (map (fun k' => StProgress (score_of scores k') (criterion_label k'))
         before, Some e).
Proof.
  intros Hcs. induction ks as [|k0 ks IH]; intros Hks Hin Hbad; [destruct Hin|].
  simpl score_bars.
  destruct (Hks k0 (or_introl eq_refl)) as [v0 Hv0].
  rewrite (score_bar_value _ _ _ _ Hcs Hv0).
  destruct (bar_refusal float_in_bar (score_of scores k0)) as [e|] eqn:Hbar.
  - exists [], k0, ks, e. repeat split; auto. intros k' [].
  - destruct Hin as [<-|Hin]; [congruence|].
    destruct IH as (before & first & after & e & -> & Hbefore & Hfirst & Hrun);
      auto.
    { intros k' Hk'. apply Hks. now right. }
    rewrite PageFacts.seq_emit, Hrun. simpl.
    exists (k0 :: before), first, after, e. repeat split; auto.
    intros k' [<-|Hk']; [exact Hbar|now apply Hbefore].
Qed.

Lemma bullets_strings (qs : list string) :
  bullets (map JStr qs) = (map (fun q => StWrite ("• " ++ q)) qs, None).
Proof.
  induction qs as [|q qs IH]; [reflexivity|].
  change (bullets (map JStr (q :: qs)))
    with (Page.emit (StWrite ("• " ++ q)) ;; bullets (map JStr qs)).
  now rewrite PageFacts.seq_emit, IH.
Qed.

Lemma bullets_error (qs : list json) :
  snd (bullets qs) = None \/ snd (bullets qs) = Some RTypeError.
Proof.
  induction qs as [|q qs IH]; [now left|].
  change (bullets (q :: qs)) with (bullet q ;; bullets qs).
  rewrite PageFacts.seq_error.
  destruct q; simpl; auto.
Qed.

End RenderFacts.

(** What the caller can rely on once [evaluate_ticket] has returned. *)
Lemma returned_fields
    (generate_content : string -> option response)
    (ticket_text : string) (data : json) :
  evaluate_ticket generate_content ticket_text = Returns data ->
  exists fields scores overall,
    data = JObj fields /\
    dict_get "overall_score" fields = Some overall /\
    dict_get "criteria_scores" fields = Some (JObj scores) /\
    (forall k, In k QA_CRITERIA -> exists v, dict_get k scores = Some v).
Proof.
  intros H. apply evaluate_ticket_returns in H as (raw & _ & H).
  apply evaluate_raw_returns in H
    as (span & fields & scores & _ & _ & -> & Hos & Hcs & Hset).
  apply dict_has_get in Hos as [overall Hos].
  exists fields, scores, overall. repeat split; auto.
  intros k Hk. apply dict_keys_get.
  now apply (proj1 (set_eqb_spec _ _) Hset).
Qed.

Section PageTheorems.

Variable float_is_zero : string -> bool.
Variable float_in_bar : string -> bool.

Lemma show_result_steps (fields : list (string * json)) (overall : json) :
  dict_get "overall_score" fields = Some overall ->
  show_result float_is_zero float_in_bar (JObj fields)
  = Page.emit (StSubheader overall) ;;
    Page.emit (StWrite "### Criteria Scores") ;;
    score_bars float_in_bar (JObj fields) QA_CRITERIA ;;
    Page.emit (StWrite "### Coaching Summary") ;;
    match dict_get "coaching_summary" fields with
    | Some summary => Page.emit (StWriteValue summary)
    | None => Page.fail (RKeyError "coaching_summary")
    end ;;
    questions_section float_is_zero (JObj fields) ;;
    Page.emit (StJson (JObj fields)).
Proof.
  intros Hos. unfold show_result, subscript, Page.eval. rewrite Hos.
  destruct (dict_get "coaching_summary" fields); reflexivity.
Qed.

Lemma questions_section_value (fields : list (string * json)) :
  questions_section float_is_zero (JObj fields)
  = let questions := match dict_get "suggested_1on1_questions" fields with
                     | Some v => v
                     | None => JNull
                     end in
    if truthy float_is_zero questions then
      Page.emit (StWrite "### Suggested 1:1 Questions") ;;
      Page.eval (iterate questions) bullets
    else Page.done.
Proof.
  unfold questions_section, py_get, Page.eval.
  destruct (dict_get "suggested_1on1_questions" fields); reflexivity.
Qed.

(** The calls of lines 121 to 123 for a list of strings. *)
Lemma questions_section_strings (fields : list (string * json))
    (qs : list string) :
  (dict_get "suggested_1on1_questions" fields = None /\ qs = []) \/
  dict_get "suggested_1on1_questions" fields = Some (JArr (map JStr qs)) ->
  questions_section float_is_zero (JObj fields)
  = (match qs with
     | [] => []
     | _ => StWrite "### Suggested 1:1 Questions"
            :: map (fun q => StWrite ("• " ++ q)) qs
     end, None).
Proof.
  rewrite questions_section_value.
  intros [[-> ->]| ->]; [reflexivity|].
  destruct qs as [|q qs]; [reflexivity|].
  cbv zeta. change (truthy float_is_zero (JArr (map JStr (q :: qs)))) with true.
  cbv iota. unfold iterate, Page.eval.
  now rewrite PageFacts.seq_emit, bullets_strings.
Qed.

Lemma score_bars_error (fields scores : list (string * json))
    (ks : list string) :
  dict_get "criteria_scores" fields = Some (JObj scores) ->
  (forall k, In k ks -> exists v, dict_get k scores = Some v) ->
  snd (score_bars float_in_bar (JObj fields) ks) = None \/
  snd (score_bars float_in_bar (JObj fields) ks) = Some RTypeError \/
  snd (score_bars float_in_bar (JObj fields) ks) = Some ROverflowError \/
  snd (score_bars float_in_bar (JObj fields) ks) = Some RStreamlitAPIException.
Proof.
  intros Hcs. induction ks as [|k ks IH]; intros Hks; [now left|].
  change (score_bars float_in_bar (JObj fields) (k :: ks))
    with (score_bar float_in_bar (JObj fields) k ;;
          score_bars float_in_bar (JObj fields) ks).
  rewrite PageFacts.seq_error.
  destruct (Hks k (or_introl eq_refl)) as [v Hv].
  rewrite (score_bar_value _ _ _ _ _ Hcs Hv).
  destruct (bar_refusal float_in_bar (score_of scores k)) as [e|] eqn:Hbar;
    simpl snd at 1; cbv iota.
  - apply bar_refusal_error in Hbar as [-> |[-> | ->]]; auto.
  - apply IH. intros k' Hk'. apply Hks. now right.
Qed.

Lemma questions_section_error (fields : list (string * json)) :
  snd (questions_section float_is_zero (JObj fields)) = None \/
  snd (questions_section float_is_zero (JObj fields)) = Some RTypeError.
Proof.
  rewrite questions_section_value. cbv zeta.
  destruct (truthy float_is_zero _); [|now left].
  rewrite PageFacts.seq_error. simpl snd.
  destruct (iterate _) as [e|items] eqn:E.
  - right. unfold iterate in E.
    destruct (match dict_get "suggested_1on1_questions" fields with
              | Some v => v | None => JNull end);
      try discriminate; now injection E as <-.
  - apply bullets_error.
Qed.

(** X7. Once [evaluate_ticket] has returned, drawing the result ends
    without an exception, or with the [KeyError] of a missing
    [coaching_summary], or with a [TypeError], an [OverflowError] or the
    [StreamlitAPIException] of [st.progress]: no other key can be
    missing, [overall_score], [criteria_scores] and the five criteria
    being there, and [.get] has a [dict] to work on. *)
Theorem page_errors_after_validation
    (generate_content : string -> option response)
    (ticket : string) (result : json) :
  evaluate_ticket generate_content ticket = Returns result ->
  on_evaluate float_is_zero float_in_bar generate_content ticket
  = show_result float_is_zero float_in_bar result /\
  (snd (show_result float_is_zero float_in_bar result) = None \/
   snd (show_result float_is_zero float_in_bar result)
   = Some (RKeyError "coaching_summary") \/
   snd (show_result float_is_zero float_in_bar result) = Some RTypeError \/
   snd (show_result float_is_zero float_in_bar result) = Some ROverflowError \/
   snd (show_result float_is_zero float_in_bar result)
   = Some RStreamlitAPIException).
Proof.
  intros H. split; [unfold on_evaluate; now rewrite H|].
  apply returned_fields in H
    as (fields & scores & overall & -> & Hos & Hcs & Hks).
  rewrite (show_result_steps _ _ Hos).
  rewrite !PageFacts.seq_error. simpl snd at 1 2.
  destruct (score_bars_error _ _ _ Hcs Hks) as [->|[->|[->| ->]]]; auto 6.
  simpl snd at 1.
  destruct (dict_get "coaching_summary" fields); simpl snd at 1; auto.
  destruct (questions_section_error fields) as [->| ->]; auto.
Qed.

(** X8. For a returned result whose five scores are values whose bar is
    drawn (an [int] from 0 to 5 is one, any other [int] is not), that
    has a [coaching_summary] and whose questions are a list of strings
    or are absent, the page is drawn to the end: the overall score, the
    five bars in the order of the rubric, the summary, the questions one
    per line under their heading (no heading when there is none), and
    the raw value. *)
Theorem page_of_well_typed_result
    (generate_content : string -> option response)
    (ticket : string)
    (fields scores : list (string * json))
    (overall summary : json) (qs : list string) :
  evaluate_ticket generate_content ticket = Returns (JObj fields) ->
  dict_get "overall_score" fields = Some overall ->
  dict_get "criteria_scores" fields = Some (JObj scores) ->
  (forall k, In k QA_CRITERIA ->
     bar_refusal float_in_bar (score_of scores k) = None) ->
  dict_get "coaching_summary" fields = Some summary ->
  (dict_get "suggested_1on1_questions" fields = None /\ qs = []) \/
  dict_get "suggested_1on1_questions" fields = Some (JArr (map JStr qs)) ->
  on_evaluate float_is_zero float_in_bar generate_content ticket
  = ((StSubheader overall
      :: StWrite "### Criteria Scores"
      :: map (fun k => StProgress (score_of scores k) (criterion_label k))
           QA_CRITERIA
      ++ StWrite "### Coaching Summary"
      :: StWriteValue summary
      :: match qs with
         | [] => []
         | _ => StWrite "### Suggested 1:1 Questions"
                :: map (fun q => StWrite ("• " ++ q)) qs
         end
      ++ [StJson (JObj fields)])%list, None) /\
  (forall k z, In k QA_CRITERIA -> score_of scores k = JInt z -> (0 <= z <= 5)%Z).
Proof.
  intros Hret Hos Hcs Hnum Hsum Hq. split.
  - unfold on_evaluate. rewrite Hret.
    destruct (returned_fields _ _ _ Hret)
      as (fields' & scores' & _ & [= <-] & _ & Hcs' & Hks).
    rewrite Hcs in Hcs'. injection Hcs' as <-.
    rewrite (show_result_steps _ _ Hos), Hsum.
    rewrite (score_bars_numeric float_in_bar fields scores QA_CRITERIA Hcs)
      by (intros k Hk; split; [now apply Hks|now apply Hnum]).
    rewrite (questions_section_strings fields qs Hq).
    reflexivity.
  - intros k z Hk Hz. apply (bar_refusal_int float_in_bar).
    rewrite <- Hz. now apply Hnum.
Qed.

(** X9. A returned result without [coaching_summary] passes the
    validation and then stops the page: with scores whose bars are all
    drawn, the overall score, the five bars and the heading of the
    summary are drawn, then line 118 raises [KeyError] and nothing
    catches it. *)
Theorem page_without_summary
    (generate_content : string -> option response)
    (ticket : string)
    (fields scores : list (string * json)) (overall : json) :
  evaluate_ticket generate_content ticket = Returns (JObj fields) ->
  dict_get "overall_score" fields = Some overall ->
  dict_get "criteria_scores" fields = Some (JObj scores) ->
  (forall k, In k QA_CRITERIA ->
     bar_refusal float_in_bar (score_of scores k) = None) ->
  dict_get "coaching_summary" fields = None ->
  on_evaluate float_is_zero float_in_bar generate_content ticket
  = ((StSubheader overall
      :: StWrite "### Criteria Scores"
      :: map (fun k => StProgress (score_of scores k) (criterion_label k))
           QA_CRITERIA
      ++ [StWrite "### Coaching Summary"])%list,
     Some (RKeyError "coaching_summary")).
Proof.
  intros Hret Hos Hcs Hnum Hsum.
  unfold on_evaluate. rewrite Hret.
  destruct (returned_fields _ _ _ Hret)
    as (fields' & scores' & _ & [= <-] & _ & Hcs' & Hks).
  rewrite Hcs in Hcs'. injection Hcs' as <-.
  rewrite (show_result_steps _ _ Hos), Hsum.
  rewrite (score_bars_numeric float_in_bar fields scores QA_CRITERIA Hcs)
    by (intros k Hk; split; [now apply Hks|now apply Hnum]).
  reflexivity.
Qed.

(** X10. A returned result in which the bar of some criterion is
    refused, the score being no number, an integer too large for a
    [float], or a number whose fifth is not between 0.0 and 1.0 (9 or
    -3 for instance), stops the page inside the bars, at the first such
    criterion of the rubric: after the overall score and the heading
    come the bars of the criteria before it, fewer than five, then the
    [TypeError], [OverflowError] or [StreamlitAPIException] of that
    criterion; neither the summary nor the raw value is drawn. *)
Theorem page_with_refused_score
    (generate_content : string -> option response)
    (ticket : string)
    (fields scores : list (string * json)) (overall : json) (k : string) :
  evaluate_ticket generate_content ticket = Returns (JObj fields) ->
  dict_get "overall_score" fields = Some overall ->
  dict_get "criteria_scores" fields = Some (JObj scores) ->
  In k QA_CRITERIA ->
  bar_refusal float_in_bar (score_of scores k) <> None ->
  exists before first after e,
    QA_CRITERIA = (before ++ first :: after)%list /\
    (forall k', In k' before ->
       bar_refusal float_in_bar (score_of scores k') = None) /\
    bar_refusal float_in_bar (score_of scores first) = Some e /\
    on_evaluate float_is_zero float_in_bar generate_content ticket
    = (StSubheader overall
       :: StWrite "### Criteria Scores"
       :: map (fun k' => StProgress (score_of scores k') (criterion_label k'))
            before,
       Some e) /\
    (e = RTypeError \/ e = ROverflowError \/ e = RStreamlitAPIException) /\
    List.length before < 5.
Proof.
  intros Hret Hos Hcs Hk Hbad.
  unfold on_evaluate. rewrite Hret.
  destruct (returned_fields _ _ _ Hret)
    as (fields' & scores' & _ & [= <-] & _ & Hcs' & Hks).
  rewrite Hcs in Hcs'. injection Hcs' as <-.
  destruct (score_bars_refused float_in_bar fields scores QA_CRITERIA k
              Hcs Hks Hk Hbad)
    as (before & first & after & e & Hsplit & Hbefore & Hfirst & Hrun).
  exists before, first, after, e. repeat split; auto.
  - rewrite (show_result_steps _ _ Hos), Hrun. reflexivity.
  - now apply (bar_refusal_error float_in_bar) in Hfirst.
  - apply (f_equal (@List.length string)) in Hsplit.
    rewrite length_app in Hsplit. simpl in Hsplit. lia.
Qed.

End PageTheorems.

Lemma page_errors_after_validation_witness :
  evaluate_ticket (canned (Some PageScenario.out_of_range_raw)) "Customer: hello"
  = Returns (JObj PageScenario.out_of_range_fields) /\
  on_evaluate PageScenario.no_float PageScenario.no_float
    (canned (Some PageScenario.out_of_range_raw)) "Customer: hello"
  = show_result PageScenario.no_float PageScenario.no_float
      (JObj PageScenario.out_of_range_fields) /\
  snd (show_result PageScenario.no_float PageScenario.no_float
         (JObj PageScenario.out_of_range_fields))
  = Some RStreamlitAPIException.
Proof.
  assert (He : evaluate_ticket (canned (Some PageScenario.out_of_range_raw))
                 "Customer: hello"
               = Returns (JObj PageScenario.out_of_range_fields))
    by (vm_compute; reflexivity).
  split; [exact He|].
  split; [|vm_compute; reflexivity].
  exact (proj1 (page_errors_after_validation PageScenario.no_float
                  PageScenario.no_float _ _ _ He)).
Defined.

Lemma page_of_well_typed_result_witness :
  evaluate_ticket (canned (Some Scenario.round_trip_raw)) "Customer: hello"
  = Returns (JObj PageScenario.round_trip_fields) /\
  (forall k, In k QA_CRITERIA ->
     bar_refusal PageScenario.no_float
       (score_of Scenario.round_trip_scores k) = None) /\
  on_evaluate PageScenario.no_float PageScenario.no_float
    (canned (Some Scenario.round_trip_raw)) "Customer: hello"
  = ([ StSubheader (JInt 18);
       StWrite "### Criteria Scores";
       StProgress (JInt 4) "Accuracy";
       StProgress (JInt 3) "Empathy And Tone";
       StProgress (JInt 5) "Clarity";
       StProgress (JInt 4) "Actionability";
       StProgress (JInt 2) "Escalation Awareness";
       StWrite "### Coaching Summary";
       StWriteValue (JStr "Be more proactive about escalation.");
       StWrite "### Suggested 1:1 Questions";
       StWrite "• What blocked escalation?";
       StJson (JObj PageScenario.round_trip_fields) ], None).
Proof.
  assert (He : evaluate_ticket (canned (Some Scenario.round_trip_raw))
                 "Customer: hello" = Returns (JObj PageScenario.round_trip_fields))
    by (vm_compute; reflexivity).
  split; [exact He|].
  assert (Hnum : forall k, In k QA_CRITERIA ->
            bar_refusal PageScenario.no_float
              (score_of Scenario.round_trip_scores k) = None).
  { intros k Hk. simpl in Hk.
    repeat (destruct Hk as [<-|Hk]; [vm_compute; reflexivity|]).
    destruct Hk. }
  split; [exact Hnum|].
  exact (proj1 (page_of_well_typed_result PageScenario.no_float
           PageScenario.no_float _ "Customer: hello"
           PageScenario.round_trip_fields Scenario.round_trip_scores
           (JInt 18) (JStr "Be more proactive about escalation.")
           ["What blocked escalation?"]
           He eq_refl eq_refl Hnum eq_refl (or_intror eq_refl))).
Defined.

Lemma page_without_summary_witness :
  evaluate_ticket (canned (Some PageScenario.no_summary_raw)) "Customer: hello"
  = Returns (JObj PageScenario.no_summary_fields) /\
  dict_get "coaching_summary" PageScenario.no_summary_fields = None /\
  (forall k, In k QA_CRITERIA ->
     bar_refusal PageScenario.no_float
       (score_of Scenario.round_trip_scores k) = None) /\
  on_evaluate PageScenario.no_float PageScenario.no_float
    (canned (Some PageScenario.no_summary_raw)) "Customer: hello"
  = ([ StSubheader (JInt 18);
       StWrite "### Criteria Scores";
       StProgress (JInt 4) "Accuracy";
       StProgress (JInt 3) "Empathy And Tone";
       StProgress (JInt 5) "Clarity";
       StProgress (JInt 4) "Actionability";
       StProgress (JInt 2) "Escalation Awareness";
       StWrite "### Coaching Summary" ],
     Some (RKeyError "coaching_summary")).
Proof.
  assert (He : evaluate_ticket (canned (Some PageScenario.no_summary_raw))
                 "Customer: hello" = Returns (JObj PageScenario.no_summary_fields))
    by (vm_compute; reflexivity).
  split; [exact He|]. split; [reflexivity|].
  assert (Hnum : forall k, In k QA_CRITERIA ->
            bar_refusal PageScenario.no_float
              (score_of Scenario.round_trip_scores k) = None).
  { intros k Hk. simpl in Hk.
    repeat (destruct Hk as [<-|Hk]; [vm_compute; reflexivity|]).
    destruct Hk. }
  split; [exact Hnum|].
  exact (page_without_summary PageScenario.no_float PageScenario.no_float
           _ "Customer: hello"
           PageScenario.no_summary_fields Scenario.round_trip_scores
           (JInt 18) He eq_refl eq_refl Hnum eq_refl).
Defined.

Lemma page_with_refused_score_witness :
  evaluate_ticket (canned (Some PageScenario.out_of_range_raw)) "Customer: hello"
  = Returns (JObj PageScenario.out_of_range_fields) /\
  In "clarity" QA_CRITERIA /\
  bar_refusal PageScenario.no_float
    (score_of PageScenario.out_of_range_scores "clarity") <> None /\
  on_evaluate PageScenario.no_float PageScenario.no_float
    (canned (Some PageScenario.out_of_range_raw)) "Customer: hello"
  = ([ StSubheader (JInt 19);
       StWrite "### Criteria Scores";
       StProgress (JInt 4) "Accuracy" ],
     Some RStreamlitAPIException) /\
  exists before first after e,
    QA_CRITERIA = (before ++ first :: after)%list /\
    bar_refusal PageScenario.no_float
      (score_of PageScenario.out_of_range_scores first) = Some e /\
    on_evaluate PageScenario.no_float PageScenario.no_float
      (canned (Some PageScenario.out_of_range_raw)) "Customer: hello"
    = (StSubheader (JInt 19)
       :: StWrite "### Criteria Scores"
       :: map (fun k' =>
                 StProgress (score_of PageScenario.out_of_range_scores k')
                   (criterion_label k'))
            before,
       Some e).
Proof.
  assert (He : evaluate_ticket (canned (Some PageScenario.out_of_range_raw))
                 "Customer: hello"
               = Returns (JObj PageScenario.out_of_range_fields))
    by (vm_compute; reflexivity).
  assert (Hin : In "clarity" QA_CRITERIA) by (simpl; tauto).
  assert (Hbad : bar_refusal PageScenario.no_float
                   (score_of PageScenario.out_of_range_scores "clarity")
                 <> None) by (vm_compute; discriminate).
  split; [exact He|]. split; [exact Hin|]. split; [exact Hbad|].
  split; [vm_compute; reflexivity|].
  destruct (page_with_refused_score PageScenario.no_float PageScenario.no_float
              _ "Customer: hello"
              PageScenario.out_of_range_fields PageScenario.out_of_range_scores
              (JInt 19) "clarity" He eq_refl eq_refl Hin Hbad)
    as (before & first & after & e & Hsplit & _ & Hfirst & Hrun & _).
  exists before, first, after, e. repeat split; assumption.
Defined.

(** ** The questions *)


Section QuestionTheorems.

Variable float_is_zero : string -> bool.



End QuestionTheorems.




(** ** The two metrics *)

Module MetricFacts.
Import Metric.

Lemma int_of_digits_app (a : Z) (s t : string) :
  Json.int_of_digits a (s ++ t) = Json.int_of_digits (Json.int_of_digits a s) t.
Proof. revert a; induction s as [|c s IH]; intros a; simpl; auto. Qed.

Lemma int_of_digits_one (a : Z) (c : ascii) :
  Json.int_of_digits a (String c "")
  = (10 * a + (Z.of_N (N_of_ascii c) - 48))%Z.
Proof. reflexivity. Qed.

Lemma digit_char_code (n : N) :
  (n < 10)%N -> N_of_ascii (digit_char n) = (48 + n)%N.
Proof.
  intros H. unfold digit_char. apply N_ascii_embedding. lia.
Qed.

Lemma digit_char_not_comma (n : N) :
  (n < 10)%N -> Ascii.eqb (digit_char n) "," = false.
Proof.
  intros H. destruct (Ascii.eqb_spec (digit_char n) ",") as [E|]; [|reflexivity].
  apply (f_equal N_of_ascii) in E. rewrite digit_char_code in E by exact H.
  change (N_of_ascii ",") with 44%N in E. lia.
Qed.

Lemma digit_char_digit (n : N) :
  (n < 10)%N -> Json.is_digit (digit_char n) = true.
Proof.
  intros H. unfold Json.is_digit. rewrite digit_char_code by exact H.
  apply andb_true_iff. split; apply N.leb_le; lia.
Qed.

Lemma digit_char_not_zero (n : N) :
  (0 < n < 10)%N -> Ascii.eqb (digit_char n) "0" = false.
Proof.
  intros H. destruct (Ascii.eqb_spec (digit_char n) "0") as [E|]; [|reflexivity].
  apply (f_equal N_of_ascii) in E. rewrite digit_char_code in E by lia.
  change (N_of_ascii "0") with 48%N in E. lia.
Qed.

Lemma all_digits_app (s t : string) :
  all_digits (s ++ t) = all_digits s && all_digits t.
Proof.
  induction s as [|c s IH]; [reflexivity|].
  simpl. now rewrite IH, andb_assoc.
Qed.

(** The digits written are those of [n]: digits only, no comma among
    them, and for a positive [n] the first is not a zero. *)
Lemma decimal_from_spec (fuel : nat) :
  forall (n : N) (acc : string),
    (n < 2 ^ N.of_nat fuel)%N ->
    exists ds,
      decimal_from fuel n acc = ds ++ acc /\
      (forall a, Json.int_of_digits a ds
                 = (a * 10 ^ Z.of_nat (String.length ds) + Z.of_N n)%Z) /\
      occurs "," ds = false /\
      all_digits ds = true /\
      ((0 < n)%N ->
       exists c ds', ds = String c ds' /\ Ascii.eqb c "0" = false).
Proof.
  induction fuel as [|f IH]; intros n acc Hn.
  - change (2 ^ N.of_nat 0)%N with 1%N in Hn.
    assert (n = 0%N) by lia. subst n.
    exists "". repeat split; [|lia].
    intros a. simpl. lia.
  - cbn [decimal_from]. cbv zeta.
    assert (Hmod : (n mod 10 < 10)%N) by (apply N.mod_lt; lia).
    destruct (n <? 10)%N eqn:Hlt.
    + apply N.ltb_lt in Hlt.
      exists (String (digit_char (n mod 10)) ""). repeat split.
      * intros a. rewrite int_of_digits_one, digit_char_code by exact Hmod.
        rewrite N.mod_small by exact Hlt.
        change (Z.of_nat (String.length (String (digit_char n) ""))) with 1%Z.
        lia.
      * simpl. now rewrite digit_char_not_comma.
      * simpl. now rewrite digit_char_digit.
      * intros Hpos. eexists; eexists. split; [reflexivity|].
        rewrite N.mod_small by exact Hlt. apply digit_char_not_zero. lia.
    + apply N.ltb_ge in Hlt.
      assert (Hdiv : (n / 10 < 2 ^ N.of_nat f)%N).
      { apply N.Div0.div_lt_upper_bound.
        rewrite Nat2N.inj_succ, N.pow_succ_r' in Hn. lia. }
      destruct (IH (n / 10)%N (String (digit_char (n mod 10)) acc) Hdiv)
        as (ds & Hrun & Hval & Hcomma & Hdigits & Hhead).
      exists (ds ++ String (digit_char (n mod 10)) ""). repeat split.
      * rewrite Hrun, append_assoc. reflexivity.
      * intros a. rewrite int_of_digits_app, Hval, int_of_digits_one.
        rewrite digit_char_code by exact Hmod.
        rewrite length_append. simpl String.length.
        replace (Z.of_nat (String.length ds + 1))
          with (Z.succ (Z.of_nat (String.length ds))) by lia.
        rewrite Z.pow_succ_r by lia.
        pose proof (N.div_mod n 10 ltac:(lia)) as Hdm.
        rewrite N2Z.inj_add in *.
        assert (Z.of_N n = (10 * Z.of_N (n / 10) + Z.of_N (n mod 10))%Z)
          by (rewrite <- N2Z.inj_mul with (n := 10%N), <- N2Z.inj_add; now f_equal).
        lia.
      * rewrite occurs_app, Hcomma. simpl.
        now rewrite digit_char_not_comma.
      * rewrite all_digits_app, Hdigits. simpl.
        now rewrite digit_char_digit.
      * intros _.
        assert (Hq : (0 < n / 10)%N).
        { apply N.div_str_pos. lia. }
        destruct (Hhead Hq) as (c & ds' & -> & Hc).
        exists c, (ds' ++ String (digit_char (n mod 10)) "").
        split; [reflexivity|exact Hc].
Qed.

(** [int(str(n)) == n], and [str(n)] is the numeral of [n]. *)
Lemma decimal_spec (n : N) :
  Json.int_of_digits 0 (decimal n) = Z.of_N n /\
  occurs "," (decimal n) = false /\
  ((0 < n)%N -> canonical (decimal n) = true).
Proof.
  unfold decimal.
  assert (Hn : (n < 2 ^ N.of_nat (S (N.to_nat (N.log2 n))))%N).
  { rewrite Nat2N.inj_succ, N2Nat.id.
    destruct n as [|p]; [reflexivity|].
    apply N.log2_spec. lia. }
  destruct (decimal_from_spec _ n "" Hn)
    as (ds & Hrun & Hval & Hcomma & Hdigits & Hhead).
  rewrite Hrun, append_nil_r. split; [|split; [exact Hcomma|]].
  - rewrite Hval. lia.
  - intros Hpos. destruct (Hhead Hpos) as (c & ds' & -> & Hc).
    unfold canonical. now rewrite Hc, Hdigits.
Qed.

(** Taking the commas out of a grouped numeral gives the numeral. *)
Lemma remove_commas (lead : nat) (ds : string) :
  occurs "," ds = false -> remove_char "," (commas lead ds) = ds.
Proof.
  revert lead; induction ds as [|c ds IH]; intros lead; [reflexivity|].
  simpl occurs. intros H. apply orb_false_iff in H as [Hc Hds].
  destruct lead as [|l]; simpl; rewrite Hc, IH; auto.
Qed.

(** Split at its commas, a numeral written with [lead] digits before the
    first comma has a first group of [lead] characters and then groups
    of three. *)
Lemma split_commas (ds : string) :
  forall lead k,
    occurs "," ds = false ->
    String.length ds = lead + 3 * k ->
    exists g gs,
      split_char "," (commas lead ds) = g :: gs /\
      String.length g = lead /\
      forallb (fun h => Nat.eqb (String.length h) 3) gs = true.
Proof.
  induction ds as [|c ds IH]; intros lead k Hcomma Hlen.
  - simpl in Hlen. exists "", []. repeat split. simpl. lia.
  - simpl occurs in Hcomma. apply orb_false_iff in Hcomma as [Hc Hds].
    simpl String.length in Hlen.
    destruct lead as [|l].
    + destruct k as [|k]; [simpl in Hlen; lia|].
      destruct (IH 2 k Hds ltac:(lia)) as (g & gs & Hsplit & Hg & Hgs).
      exists "", (String c g :: gs).
      cbn [commas split_char]. change (Ascii.eqb "," ",") with true. cbv iota.
      rewrite Hc, Hsplit. repeat split.
      cbn [forallb String.length]. rewrite Hg, Hgs. reflexivity.
    + destruct (IH l k Hds ltac:(lia)) as (g & gs & Hsplit & Hg & Hgs).
      exists (String c g), gs.
      cbn [commas split_char]. rewrite Hc, Hsplit. repeat split; [|exact Hgs].
      simpl. now rewrite Hg.
Qed.

Lemma group_thousands_grouped (ds : string) :
  occurs "," ds = false ->
  ds <> "" ->
  grouped (split_char "," (group_thousands ds)) = true.
Proof.
  intros Hcomma Hne. unfold group_thousands.
  assert (Hlen : 1 <= String.length ds) by (destruct ds; [congruence|simpl; lia]).
  pose proof (Nat.div_mod_eq (String.length ds - 1) 3) as Hdm.
  pose proof (Nat.mod_upper_bound (String.length ds - 1) 3 ltac:(lia)) as Hlt.
  destruct (split_commas ds (S ((String.length ds - 1) mod 3))
              ((String.length ds - 1) / 3) Hcomma ltac:(lia))
    as (g & gs & -> & Hg & Hgs).
  unfold grouped. rewrite Hg, Hgs.
  apply andb_true_iff. split; [|reflexivity].
  apply andb_true_iff. split; apply Nat.leb_le; lia.
Qed.

End MetricFacts.

(** X13. The two metrics show the numbers computed, each in one way of
    writing only.  For inputs in their ranges the hours are written as
    the decimal numeral of [weekly_hours]: digits only, no leading
    zero, reading back as that number.  The savings are written as a
    dollar sign and the same kind of numeral of [weekly_savings] with
    thousands separators: split at its commas the text has a first group
    of one to three digits and then groups of three, and without the
    commas it is the numeral. *)
Theorem metric_texts_read_back (managers hrs_saved_per_mgr hourly_cost : Z) :
  ROI.managers_ok managers ->
  ROI.hrs_saved_ok hrs_saved_per_mgr ->
  ROI.hourly_cost_ok hourly_cost ->
  (Metric.canonical (Metric.hours_text managers hrs_saved_per_mgr) = true /\
   Json.int_of_digits 0 (Metric.hours_text managers hrs_saved_per_mgr)
   = ROI.weekly_hours managers hrs_saved_per_mgr) /\
  exists body,
    Metric.savings_text managers hrs_saved_per_mgr hourly_cost = "$" ++ body /\
    Metric.grouped (Metric.split_char "," body) = true /\
    Metric.canonical (Metric.remove_char "," body) = true /\
    Metric.remove_char "," body
    = Metric.str_int (ROI.weekly_savings managers hrs_saved_per_mgr hourly_cost) /\
    Json.int_of_digits 0 (Metric.remove_char "," body)
    = ROI.weekly_savings managers hrs_saved_per_mgr hourly_cost.
Proof.
  unfold ROI.managers_ok, ROI.hrs_saved_ok, ROI.hourly_cost_ok, ROI.in_range.
  intros Hm Hh Hc.
  assert (Hhours : (0 < ROI.weekly_hours managers hrs_saved_per_mgr)%Z)
    by (unfold ROI.weekly_hours; nia).
  assert (Hsav : (0 < ROI.weekly_savings managers hrs_saved_per_mgr hourly_cost)%Z)
    by (unfold ROI.weekly_savings; nia).
  unfold Metric.hours_text, Metric.savings_text, Metric.format_comma_0f,
    Metric.str_int.
  set (hours := ROI.weekly_hours managers hrs_saved_per_mgr) in *.
  set (savings := ROI.weekly_savings managers hrs_saved_per_mgr hourly_cost) in *.
  replace (hours <? 0)%Z with false by (symmetry; apply Z.ltb_ge; lia).
  replace (savings <? 0)%Z with false by (symmetry; apply Z.ltb_ge; lia).
  simpl append.
  destruct (MetricFacts.decimal_spec (Z.abs_N hours)) as (Hh1 & _ & Hh3).
  destruct (MetricFacts.decimal_spec (Z.abs_N savings)) as (Hs1 & Hs2 & Hs3).
  specialize (Hh3 ltac:(lia)). specialize (Hs3 ltac:(lia)).
  split.
  - split; [exact Hh3|]. rewrite Hh1, N2Z.inj_abs_N. lia.
  - eexists. split; [reflexivity|].
    split.
    { apply MetricFacts.group_thousands_grouped; [exact Hs2|].
      intros E. rewrite E in Hs3. discriminate. }
    unfold Metric.group_thousands.
    rewrite (MetricFacts.remove_commas _ _ Hs2).
    split; [exact Hs3|]. split; [reflexivity|].
    rewrite Hs1, N2Z.inj_abs_N. lia.
Qed.

Lemma metric_texts_read_back_witness :
  ROI.managers_ok 500 /\ ROI.hrs_saved_ok 20 /\ ROI.hourly_cost_ok 300 /\
  Metric.hours_text 500 20 = "10000" /\
  Metric.savings_text 500 20 300 = "$3,000,000" /\
  (Metric.canonical (Metric.hours_text 500 20) = true /\
   Json.int_of_digits 0 (Metric.hours_text 500 20) = ROI.weekly_hours 500 20) /\
  exists body,
    Metric.savings_text 500 20 300 = "$" ++ body /\
    Metric.grouped (Metric.split_char "," body) = true /\
    Metric.canonical (Metric.remove_char "," body) = true /\
    Metric.remove_char "," body
    = Metric.str_int (ROI.weekly_savings 500 20 300) /\
    Json.int_of_digits 0 (Metric.remove_char "," body)
    = ROI.weekly_savings 500 20 300.
Proof.
  assert (Hm : ROI.managers_ok 500)
    by (unfold ROI.managers_ok, ROI.in_range; lia).
  assert (Hh : ROI.hrs_saved_ok 20)
    by (unfold ROI.hrs_saved_ok, ROI.in_range; lia).
  assert (Hc : ROI.hourly_cost_ok 300)
    by (unfold ROI.hourly_cost_ok, ROI.in_range; lia).
  split; [exact Hm|]. split; [exact Hh|]. split; [exact Hc|].
  split; [vm_compute; reflexivity|]. split; [vm_compute; reflexivity|].
  exact (metric_texts_read_back 500 20 300 Hm Hh Hc).
Defined.

(** X14. The estimate never goes down when an input goes up: with no input
    below zero, more managers, more hours saved or a higher hourly cost
    give at least the same weekly savings. *)
Theorem weekly_savings_monotone
    (managers hrs_saved_per_mgr hourly_cost
     managers' hrs_saved_per_mgr' hourly_cost' : Z) :
  (0 <= managers <= managers')%Z ->
  (0 <= hrs_saved_per_mgr <= hrs_saved_per_mgr')%Z ->
  (0 <= hourly_cost <= hourly_cost')%Z ->
  (ROI.weekly_hours managers hrs_saved_per_mgr
   <= ROI.weekly_hours managers' hrs_saved_per_mgr')%Z /\
  (ROI.weekly_savings managers hrs_saved_per_mgr hourly_cost
   <= ROI.weekly_savings managers' hrs_saved_per_mgr' hourly_cost')%Z.
Proof.
  unfold ROI.weekly_savings, ROI.weekly_hours. intros Hm Hh Hc.
  assert (H1 : (managers * hrs_saved_per_mgr
                <= managers' * hrs_saved_per_mgr')%Z)
    by (apply Z.mul_le_mono_nonneg; lia).
  assert (H0 : (0 <= managers * hrs_saved_per_mgr)%Z)
    by (apply Z.mul_nonneg_nonneg; lia).
  split; [exact H1|].
  apply Z.mul_le_mono_nonneg; lia.
Qed.

Lemma weekly_savings_monotone_witness :
  (0 <= 10 <= 11)%Z /\ (0 <= 4 <= 4)%Z /\ (0 <= 70 <= 80)%Z /\
  (ROI.weekly_hours 10 4 <= ROI.weekly_hours 11 4)%Z /\
  (ROI.weekly_savings 10 4 70 <= ROI.weekly_savings 11 4 80)%Z.
Proof.
  assert (Hm : (0 <= 10 <= 11)%Z) by lia.
  assert (Hh : (0 <= 4 <= 4)%Z) by lia.
  assert (Hc : (0 <= 70 <= 80)%Z) by lia.
  split; [exact Hm|]. split; [exact Hh|]. split; [exact Hc|].
  exact (weekly_savings_monotone 10 4 70 11 4 80 Hm Hh Hc).
Defined.

(** ** Text added after a value *)

Module TailFacts.
Import Json JsonFacts Tail.

Lemma skip_ws_app (s t : string) :
  skip_ws s <> "" -> skip_ws (s ++ t) = skip_ws s ++ t.
Proof.
  induction s as [|c s IH]; simpl; [congruence|].
  destruct (is_ws c); [exact IH|reflexivity].
Qed.

Lemma skip_ws_app_blank (s t : string) :
  skip_ws s = "" -> skip_ws (s ++ t) = skip_ws t.
Proof.
  induction s as [|c s IH]; simpl; [reflexivity|].
  destruct (is_ws c); [exact IH|discriminate].
Qed.

Lemma skip_ws_delimited (r r' : string) (c : ascii) :
  skip_ws r = String c r' -> is_delimiter c = true -> delimited r = true.
Proof.
  destruct r as [|x r0]; simpl; [discriminate|].
  destruct (is_ws x) eqn:Hx.
  - intros _ _. unfold is_delimiter. now rewrite Hx.
  - intros [= -> _]. auto.
Qed.

Lemma scan_chunks_app (s t : string) (cs : list chunk) (r : string) :
  scan_chunks s = inr (cs, r) -> scan_chunks (s ++ t) = inr (cs, r ++ t).
Proof.
  remember (String.length s) as n eqn:Hn.
  revert s cs r Hn.
  induction n as [n IH] using lt_wf_ind.
  intros s cs r Hn. destruct s as [|c s]; simpl; [discriminate|].
  assert (Hpush : forall x u,
            String.length u < n ->
            push x (scan_chunks u) = inr (cs, r) ->
            push x (scan_chunks (u ++ t)) = inr (cs, r ++ t)).
  { intros x u Hu. unfold push.
    destruct (scan_chunks u) as [e|[cs' r']] eqn:E; [discriminate|].
    intros [= <- <-].
    now rewrite (IH (String.length u) Hu u cs' r' eq_refl E). }
  simpl in Hn.
  destruct (Ascii.eqb c dquote).
  { now intros [= <- <-]. }
  destruct (Ascii.eqb c backslash).
  { destruct s as [|e s]; [discriminate|]. simpl in Hn. simpl.
    destruct (Ascii.eqb e "u").
    - destruct s as [|h1 [|h2 [|h3 [|h4 u]]]]; try discriminate.
      simpl in Hn. simpl.
      destruct (hex4 h1 h2 h3 h4); [|discriminate].
      apply Hpush; lia.
    - destruct (BACKSLASH e); [|discriminate]. apply Hpush; lia. }
  destruct (N_of_ascii c <? 32)%N; [discriminate|].
  apply Hpush; lia.
Qed.

Lemma scanstring_app (s t k r : string) :
  scanstring s = inr (k, r) -> scanstring (s ++ t) = inr (k, r ++ t).
Proof.
  unfold scanstring.
  destruct (scan_chunks s) as [e|[cs r']] eqn:E; [discriminate|].
  intros [= <- <-]. now rewrite (scan_chunks_app _ t _ _ E).
Qed.

Lemma digits_app (s t ds r : string) :
  digits s = (ds, r) -> r <> "" -> digits (s ++ t) = (ds, r ++ t).
Proof.
  revert ds r; induction s as [|c s IH]; intros ds r; simpl.
  - intros [= <- <-]. congruence.
  - destruct (is_digit c).
    + destruct (digits s) as [ds' r'] eqn:E. intros [= <- <-] Hr.
      now rewrite (IH ds' r' eq_refl Hr).
    + now intros [= <- <-] _.
Qed.

Lemma delimited_nonempty (r : string) : delimited r = true -> r <> "".
Proof. destruct r; [discriminate|congruence]. Qed.

(** A delimiter is no digit, no dot, no exponent letter and no sign. *)
Lemma delimiter_chars (c : ascii) :
  is_delimiter c = true ->
  is_digit c = false /\ Ascii.eqb c "." = false /\
  Ascii.eqb c "e" = false /\ Ascii.eqb c "E" = false.
Proof.
  unfold is_delimiter, is_ws. intros H.
  repeat (apply orb_true_iff in H as [H|H]);
    apply Ascii.eqb_eq in H; subst c; repeat split; reflexivity.
Qed.

Lemma unsigned_part_app (s t ds r : string) :
  unsigned_part s = Some (ds, r) -> r <> "" ->
  unsigned_part (s ++ t) = Some (ds, r ++ t).
Proof.
  destruct s as [|d s]; [discriminate|]. simpl.
  destruct (Ascii.eqb d "0"); [now intros [= <- <-]|].
  destruct (is_digit d); [|discriminate].
  destruct (digits s) as [ds' r'] eqn:E. intros [= <- <-] Hr.
  now rewrite (digits_app _ t _ _ E Hr).
Qed.

Lemma integer_part_app (s t ds r : string) :
  integer_part s = Some (ds, r) -> r <> "" ->
  integer_part (s ++ t) = Some (ds, r ++ t).
Proof.
  destruct s as [|c s]; [discriminate|].
  unfold integer_part. simpl append. cbv iota beta.
  destruct (Ascii.eqb c "-").
  - destruct (unsigned_part s) as [[ds' r']|] eqn:E; [|discriminate].
    intros [= <- <-] Hr. now rewrite (unsigned_part_app _ t _ _ E Hr).
  - intros H Hr.
    change (String c (s ++ t)) with (String c s ++ t).
    now apply unsigned_part_app.
Qed.

Lemma frac_part_app (s t f r : string) :
  frac_part s = (f, r) -> r <> "" -> head_is "." r = false ->
  frac_part (s ++ t) = (f, r ++ t).
Proof.
  destruct s as [|c s]; [intros [= <- <-]; congruence|].
  unfold frac_part. simpl append. cbv iota beta.
  destruct (Ascii.eqb c ".") eqn:Hc.
  - destruct (digits s) as [ds r'] eqn:E.
    destruct ds as [|d ds].
    + intros [= <- <-] _ Hd. simpl in Hd. congruence.
    + intros [= <- <-] Hr _. now rewrite (digits_app _ t _ _ E Hr).
  - now intros [= <- <-] _ _.
Qed.

Lemma exp_part_empty (s r : string) : exp_part s = ("", r) -> r = s.
Proof.
  unfold exp_part. destruct s as [|e s]; [now intros [= <-]|].
  destruct (Ascii.eqb e "e" || Ascii.eqb e "E"); [|now intros [= <-]].
  destruct (match s with
            | "" => ("", s)
            | String g r'' =>
                if Ascii.eqb g "-" || Ascii.eqb g "+"
                then (String g "", r'') else ("", s)
            end) as [sign r'].
  destruct (digits r') as [[|d ds] rest]; [now intros [= <-]|discriminate].
Qed.

Lemma exp_part_letter (s r x : string) (a : ascii) :
  exp_part s = (String a x, r) ->
  s <> "" /\ head_is "." s = false.
Proof.
  unfold exp_part. destruct s as [|e s]; [discriminate|].
  destruct (Ascii.eqb e "e" || Ascii.eqb e "E") eqn:He; [|discriminate].
  intros _. split; [congruence|]. simpl.
  apply orb_true_iff in He as [He|He]; apply Ascii.eqb_eq in He; now subst e.
Qed.

Lemma exp_part_app (s t x r : string) :
  exp_part s = (x, r) -> delimited r = true ->
  exp_part (s ++ t) = (x, r ++ t).
Proof.
  destruct s as [|e s]; [intros [= <- <-]; discriminate|].
  unfold exp_part. simpl append. cbv iota beta.
  destruct (Ascii.eqb e "e" || Ascii.eqb e "E") eqn:He.
  2:{ now intros [= <- <-] _. }
  assert (Hstay : forall P : Prop,
            ("", String e s) = (x, r) -> delimited r = true -> P).
  { intros P [= <- <-] Hd. simpl in Hd.
    apply delimiter_chars in Hd as (_ & _ & H1 & H2).
    rewrite H1, H2 in He. discriminate. }
  destruct s as [|g s'].
  - simpl. intros H Hd. now apply (Hstay _ H Hd).
  - simpl append. cbv iota beta.
    destruct (Ascii.eqb g "-" || Ascii.eqb g "+"); cbv iota beta.
    + destruct (digits s') as [ds r'] eqn:E.
      destruct ds as [|d ds]; [intros H Hd; now apply (Hstay _ H Hd)|].
      intros [= <- <-] Hd.
      now rewrite (digits_app _ t _ _ E (delimited_nonempty _ Hd)).
    + destruct (digits (String g s')) as [ds r'] eqn:E.
      destruct ds as [|d ds]; [intros H Hd; now apply (Hstay _ H Hd)|].
      intros [= <- <-] Hd.
      change (String g (s' ++ t)) with (String g s' ++ t).
      now rewrite (digits_app _ t _ _ E (delimited_nonempty _ Hd)).
Qed.

Lemma delimited_no_dot (r : string) :
  delimited r = true -> head_is "." r = false.
Proof.
  destruct r as [|c r]; [discriminate|]. simpl. intros H.
  now apply delimiter_chars in H as (_ & H & _).
Qed.

(** A number followed by a delimiter is read the same whatever comes
    after. *)
Lemma match_number_app (s t : string) (v : json) (r : string) :
  match_number s = Some (v, r) -> delimited r = true ->
  match_number (s ++ t) = Some (v, r ++ t).
Proof.
  unfold match_number.
  destruct (integer_part s) as [[i r1]|] eqn:Ei; [|discriminate].
  destruct (frac_part r1) as [f r2] eqn:Ef.
  destruct (exp_part r2) as [x r3] eqn:Ex.
  intros H Hd.
  assert (Hr3 : r3 = r) by (destruct f, x; now injection H).
  subst r3.
  assert (Hr2 : r2 <> "" /\ head_is "." r2 = false).
  { destruct x as [|a x].
    - apply exp_part_empty in Ex. subst r2.
      split; [now apply delimited_nonempty|now apply delimited_no_dot].
    - now apply exp_part_letter in Ex. }
  destruct Hr2 as [Hne2 Hdot2].
  assert (Hne1 : r1 <> "").
  { pose proof (frac_part_length _ _ _ Ef). destruct r1; [|congruence].
    destruct r2; [congruence|simpl in *; lia]. }
  rewrite (integer_part_app _ t _ _ Ei Hne1).
  rewrite (frac_part_app _ t _ _ Ef Hne2 Hdot2).
  rewrite (exp_part_app _ t _ _ Ex Hd).
  destruct f, x; now injection H as <- .
Qed.

Lemma prefix_app_true (p s t : string) :
  prefix p s = true ->
  prefix p (s ++ t) = true /\
  drop (String.length p) (s ++ t) = drop (String.length p) s ++ t.
Proof.
  revert s; induction p as [|a p IH]; intros s.
  { intros _. split; destruct s, t; reflexivity. }
  destruct s as [|c s]; [discriminate|]. simpl.
  destruct (ascii_dec a c); [apply IH|discriminate].
Qed.

Lemma prefix_head_ne (a c : ascii) (p s : string) :
  a <> c -> prefix (String a p) (String c s) = false.
Proof. intros H. simpl. now destruct (ascii_dec a c). Qed.

Lemma prefix_head (a c : ascii) (p s : string) :
  prefix (String a p) (String c s) = true -> a = c.
Proof. simpl. now destruct (ascii_dec a c). Qed.

Lemma prefix_tail (a c : ascii) (p s : string) :
  prefix (String a p) (String c s) = true -> prefix p s = true.
Proof. simpl. now destruct (ascii_dec a c). Qed.

Lemma match_number_no_digit (c : ascii) (s : string) :
  is_digit c = false -> Ascii.eqb c "-" = false ->
  match_number (String c s) = None.
Proof.
  intros Hd Hm. unfold match_number, integer_part, unsigned_part.
  rewrite Hm, Hd.
  destruct (Ascii.eqb_spec c "0") as [->|_]; [discriminate Hd|reflexivity].
Qed.

Lemma match_number_minus_letter (c : ascii) (s : string) :
  is_digit c = false ->
  match_number (String "-" (String c s)) = None.
Proof.
  intros Hd. unfold match_number, integer_part, unsigned_part.
  change (Ascii.eqb "-" "-") with true. cbv iota. rewrite Hd.
  destruct (Ascii.eqb_spec c "0") as [->|_]; [discriminate Hd|reflexivity].
Qed.

Lemma scan_once_atom (f : nat) (c : ascii) (s : string) :
  Ascii.eqb c dquote = false ->
  Ascii.eqb c "{" = false ->
  Ascii.eqb c "[" = false ->
  scan_once (S f) (String c s) = scan_atom (String c s).
Proof.
  intros H1 H2 H3.
  cbn -[prefix drop skip_ws scanstring match_number].
  now rewrite H1, H2, H3.
Qed.

(** A constant found at the start of [s] is found at the start of
    [s ++ t]. *)
Ltac constant_found P t :=
  let P' := fresh "P'" in
  let D := fresh "D" in
  let H := fresh "H" in
  destruct (prefix_app_true _ _ t P) as [P' D];
  simpl String.length in D; simpl append in P', D;
  intros H; rewrite ?P, ?P' in *;
  injection H as <- <-; now rewrite D.

Ltac other_heads H :=
  rewrite ?prefix_head_ne in H by (discriminate || congruence).

Ltac other_heads_goal :=
  rewrite ?prefix_head_ne by (discriminate || congruence).

(** The constants and the numbers are read the same when text is added
    after the delimiter that follows them. *)
Lemma scan_atom_app (s t : string) (v : json) (r : string) :
  scan_atom s = Done v r -> delimited r = true ->
  scan_atom (s ++ t) = Done v (r ++ t).
Proof.
  destruct s as [|c s]; [discriminate|].
  intros H Hd. simpl append. revert H. unfold scan_atom.
  destruct (Ascii.eqb_spec c "n") as [->|Hn].
  { destruct (prefix "null" (String "n" s)) eqn:P; [constant_found P t|].
    intros H. other_heads H.
    rewrite match_number_no_digit in H by reflexivity.
    other_heads H. discriminate. }
  destruct (Ascii.eqb_spec c "t") as [->|Ht].
  { other_heads_goal.
    destruct (prefix "true" (String "t" s)) eqn:P; [constant_found P t|].
    intros H. other_heads H.
    rewrite match_number_no_digit in H by reflexivity.
    other_heads H. discriminate. }
  destruct (Ascii.eqb_spec c "f") as [->|Hf].
  { other_heads_goal.
    destruct (prefix "false" (String "f" s)) eqn:P; [constant_found P t|].
    intros H. other_heads H.
    rewrite match_number_no_digit in H by reflexivity.
    other_heads H. discriminate. }
  destruct (Ascii.eqb_spec c "N") as [->|HN].
  { other_heads_goal. rewrite !match_number_no_digit by reflexivity.
    destruct (prefix "NaN" (String "N" s)) eqn:P; [constant_found P t|].
    intros H. other_heads H. discriminate. }
  destruct (Ascii.eqb_spec c "I") as [->|HI].
  { other_heads_goal. rewrite !match_number_no_digit by reflexivity.
    destruct (prefix "Infinity" (String "I" s)) eqn:P; [constant_found P t|].
    intros H. other_heads H. discriminate. }
  destruct (Ascii.eqb_spec c "-") as [->|Hm].
  { other_heads_goal.
    destruct (match_number (String "-" s)) as [[v' rest]|] eqn:E.
    - intros [= <- <-].
      change (String "-" (s ++ t)) with (String "-" s ++ t).
      now rewrite (match_number_app _ t _ _ E Hd).
    - destruct (prefix "-Infinity" (String "-" s)) eqn:P; [|discriminate].
      assert (Hnum : match_number (String "-" (s ++ t)) = None).
      { destruct s as [|i s]; [discriminate P|].
        apply prefix_tail, prefix_head in P. subst i.
        now apply match_number_minus_letter. }
      rewrite Hnum. constant_found P t. }
  other_heads_goal.
  destruct (match_number (String c s)) as [[v' rest]|] eqn:E.
  - intros [= <- <-].
    change (String c (s ++ t)) with (String c s ++ t).
    now rewrite (match_number_app _ t _ _ E Hd).
  - discriminate.
Qed.

(** Text added after a value leaves the value as it was read, and so
    does more fuel: a string, an object and an array end by themselves,
    a constant or a number ends at the delimiter that follows it. *)
Lemma scanners_app (f : nat) :
  (forall s v r t f',
      f <= f' -> scan_once f s = Done v r ->
      delimited r = true \/ starts_struct s = true ->
      scan_once f' (s ++ t) = Done v (r ++ t)) /\
  (forall pairs s v r t f',
      f <= f' -> object_loop f pairs s = Done v r ->
      object_loop f' pairs (s ++ t) = Done v (r ++ t)) /\
  (forall values s v r t f',
      f <= f' -> array_loop f values s = Done v r ->
      array_loop f' values (s ++ t) = Done v (r ++ t)).
Proof.
  induction f as [|f (IHs & IHo & IHa)];
    [repeat split; intros; discriminate|].
  destruct (scanners_progress f) as (Ps & Po & Pa).
  repeat split.
  - (* scan_once *)
    intros s v r t f' Hf H Hshape.
    destruct f' as [|f']; [lia|]. assert (Hf' : f <= f') by lia.
    destruct s as [|c s]; [discriminate|].
    destruct (Ascii.eqb c dquote) eqn:Hq.
    { revert H. simpl append.
      cbn -[prefix drop skip_ws scanstring match_number]. rewrite Hq.
      destruct (scanstring s) as [e|[str rest]] eqn:E; [discriminate|].
      intros [= <- <-]. now rewrite (scanstring_app _ t _ _ E). }
    destruct (Ascii.eqb c "{") eqn:Hb.
    { revert H. simpl append.
      cbn -[prefix drop skip_ws scanstring match_number]. rewrite Hq, Hb.
      destruct (skip_ws s) as [|k r0] eqn:Ew; [discriminate|].
      rewrite skip_ws_app by (rewrite Ew; discriminate). rewrite Ew.
      simpl append. cbv iota.
      destruct (Ascii.eqb k dquote); [now apply IHo|].
      destruct (Ascii.eqb k "}"); [|discriminate].
      now intros [= <- <-]. }
    destruct (Ascii.eqb c "[") eqn:Ha.
    { revert H. simpl append.
      cbn -[prefix drop skip_ws scanstring match_number]. rewrite Hq, Hb, Ha.
      destruct (skip_ws s) as [|k r0] eqn:Ew.
      { intros H. apply Pa in H. simpl in H. lia. }
      rewrite skip_ws_app by (rewrite Ew; discriminate). rewrite Ew.
      simpl append. cbv iota.
      destruct (Ascii.eqb k "]"); [now intros [= <- <-]|].
      intros H.
      change (String k (r0 ++ t)) with (String k r0 ++ t).
      now apply IHa. }
    assert (Hd : delimited r = true).
    { destruct Hshape as [Hd|Hs]; [exact Hd|].
      simpl in Hs. rewrite Hq, Hb, Ha in Hs. discriminate. }
    simpl append. rewrite scan_once_atom in * by assumption.
    change (String c (s ++ t)) with (String c s ++ t).
    now apply scan_atom_app.
  - (* object_loop *)
    intros pairs s v r t f' Hf H.
    destruct f' as [|f']; [lia|]. assert (Hf' : f <= f') by lia.
    revert H. cbn -[skip_ws scanstring dict_of_pairs].
    destruct (scanstring s) as [e|[key r0]] eqn:E; [discriminate|].
    rewrite (scanstring_app _ t _ _ E).
    destruct (skip_ws r0) as [|colon r1] eqn:Ew0; [discriminate|].
    rewrite skip_ws_app by (rewrite Ew0; discriminate). rewrite Ew0.
    simpl append. cbv iota.
    destruct (Ascii.eqb colon ":"); [|discriminate].
    destruct (scan_once f (skip_ws r1)) as [value r2| |] eqn:Ev;
      try discriminate.
    assert (Hw1 : skip_ws r1 <> "").
    { apply Ps in Ev. destruct (skip_ws r1); [simpl in Ev; lia|discriminate]. }
    destruct (skip_ws r2) as [|nextchar r3] eqn:Ew2; [discriminate|].
    assert (Hnext : Ascii.eqb nextchar "}" || Ascii.eqb nextchar "," = true ->
                    scan_once f' (skip_ws (r1 ++ t)) = Done value (r2 ++ t)).
    { intros Hn. rewrite skip_ws_app by exact Hw1.
      apply IHs; [exact Hf'|exact Ev|]. left.
      apply (skip_ws_delimited _ _ _ Ew2). unfold is_delimiter.
      apply orb_true_iff in Hn as [Hn|Hn]; rewrite Hn;
        now rewrite ?orb_true_r. }
    destruct (Ascii.eqb nextchar "}") eqn:Hclose.
    { intros [= <- <-]. rewrite Hnext by reflexivity.
      rewrite skip_ws_app by (rewrite Ew2; discriminate). rewrite Ew2.
      simpl append. cbv iota. now rewrite Hclose. }
    destruct (Ascii.eqb nextchar ",") eqn:Hcomma; [|discriminate].
    rewrite Hnext by reflexivity.
    rewrite (skip_ws_app r2) by (rewrite Ew2; discriminate). rewrite Ew2.
    simpl append. cbv iota. rewrite Hclose, Hcomma.
    destruct (skip_ws r3) as [|k r4] eqn:Ew3; [discriminate|].
    rewrite skip_ws_app by (rewrite Ew3; discriminate). rewrite Ew3.
    simpl append. cbv iota.
    destruct (Ascii.eqb k dquote); [|discriminate].
    now apply IHo.
  - (* array_loop *)
    intros values s v r t f' Hf H.
    destruct f' as [|f']; [lia|]. assert (Hf' : f <= f') by lia.
    revert H. cbn -[skip_ws].
    destruct (scan_once f s) as [value r0| |] eqn:Ev; try discriminate.
    destruct (skip_ws r0) as [|nextchar r'] eqn:Ew; [discriminate|].
    assert (Hnext : Ascii.eqb nextchar "]" || Ascii.eqb nextchar "," = true ->
                    scan_once f' (s ++ t) = Done value (r0 ++ t)).
    { intros Hn. apply IHs; [exact Hf'|exact Ev|]. left.
      apply (skip_ws_delimited _ _ _ Ew). unfold is_delimiter.
      apply orb_true_iff in Hn as [Hn|Hn]; rewrite Hn;
        now rewrite ?orb_true_r. }
    destruct (Ascii.eqb nextchar "]") eqn:Hclose.
    { intros [= <- <-]. rewrite Hnext by reflexivity.
      rewrite skip_ws_app by (rewrite Ew; discriminate). rewrite Ew.
      simpl append. cbv iota. now rewrite Hclose. }
    destruct (Ascii.eqb nextchar ",") eqn:Hcomma; [|discriminate].
    intros H. rewrite Hnext by reflexivity.
    rewrite (skip_ws_app r0) by (rewrite Ew; discriminate). rewrite Ew.
    simpl append. cbv iota. rewrite Hclose, Hcomma.
    assert (Hw : skip_ws r' <> "").
    { apply Pa in H. destruct (skip_ws r'); [simpl in H; lia|discriminate]. }
    rewrite skip_ws_app by exact Hw.
    now apply IHa.
Qed.

(** An object followed by anything but white space is one value and
    then extra data. *)
Lemma loads_object_then_text (s t : string) (data : json) :
  loads (String "{" s) = inr data ->
  skip_ws t <> "" ->
  loads (String "{" s ++ t) = inl ExtraData.
Proof.
  unfold loads. simpl append.
  change (prefix BOM (String "{" s)) with false.
  change (prefix BOM (String "{" (s ++ t))) with false. cbv iota.
  change (skip_ws (String "{" s)) with (String "{" s).
  change (skip_ws (String "{" (s ++ t))) with (String "{" (s ++ t)).
  destruct (scan_once (S (2 * String.length (String "{" s))) (String "{" s))
    as [obj rest| |] eqn:E; try discriminate.
  destruct (skip_ws rest) eqn:Ew; [|discriminate].
  intros _ Ht.
  change (String "{" (s ++ t)) with (String "{" s ++ t).
  assert (Hfuel : S (2 * String.length (String "{" s))
                  <= S (2 * String.length (String "{" s ++ t)))
    by (rewrite length_append; lia).
  rewrite (proj1 (scanners_app _) _ _ _ t _ Hfuel E (or_intror eq_refl)).
  rewrite (skip_ws_app_blank _ _ Ew).
  destruct (skip_ws t); [congruence|reflexivity].
Qed.

End TailFacts.

(** ** A closing brace in the text after the object *)

Lemma skip_ws_closing_brace (a b : string) :
  Json.skip_ws (a ++ String "}" b) <> "".
Proof.
  induction a as [|c a IH]; simpl; [discriminate|].
  destruct (Json.is_ws c); [exact IH|discriminate].
Qed.

(** X4. The span is greedy: when the text after a complete JSON object
    holds another closing brace, the span runs on to that brace, the
    decoder finds extra data after the object, and [evaluate_ticket]
    raises the [JSONDecodeError], whatever the object is worth alone. *)
Theorem object_then_closing_brace_rejected
    (generate_content : string -> option response)
    (ticket_text pre body tail post : string) (data : json) :
  answers generate_content ticket_text
    (pre ++ "{" ++ body ++ tail ++ "}" ++ post) ->
  occurs "{" pre = false ->
  occurs "}" post = false ->
  Json.loads ("{" ++ body) = inr data ->
  re_search JSON_SPAN (pre ++ "{" ++ body ++ tail ++ "}" ++ post)
  = Some ("{" ++ body ++ tail ++ "}") /\
  evaluate_ticket generate_content ticket_text
  = Raises (MalformedJson Json.ExtraData).
Proof.
  intros Hans Hpre Hpost Hloads.
  assert (Hspan : re_search JSON_SPAN (pre ++ "{" ++ body ++ tail ++ "}" ++ post)
                  = Some ("{" ++ body ++ tail ++ "}")).
  { pose proof (re_search_between pre (body ++ tail) post Hpre Hpost) as H.
    rewrite !append_assoc in H. exact H. }
  split; [exact Hspan|].
  rewrite (evaluate_ticket_answers _ _ _ Hans), (evaluate_raw_span _ _ Hspan).
  unfold parse_and_validate.
  change ("{" ++ body ++ tail ++ "}") with (String "{" body ++ (tail ++ "}")).
  rewrite (TailFacts.loads_object_then_text body (tail ++ "}") data Hloads);
    [reflexivity|].
  apply skip_ws_closing_brace.
Qed.

Lemma object_then_closing_brace_rejected_witness :
  answers (canned (Some ("Here: " ++ "{" ++ (qs "overall_score" ++ ":18}")
                         ++ " (braces: {x" ++ "}" ++ ").")))
    "Customer: hello"
    ("Here: " ++ "{" ++ (qs "overall_score" ++ ":18}")
     ++ " (braces: {x" ++ "}" ++ ").") /\
  occurs "{" "Here: " = false /\
  occurs "}" ")." = false /\
  Json.loads ("{" ++ (qs "overall_score" ++ ":18}"))
  = inr (JObj [("overall_score", JInt 18)]) /\
  evaluate_ticket
    (canned (Some ("Here: " ++ "{" ++ (qs "overall_score" ++ ":18}")
                   ++ " (braces: {x" ++ "}" ++ ").")))
    "Customer: hello"
  = Raises (MalformedJson Json.ExtraData).
Proof.
  assert (Ha : answers
                 (canned (Some ("Here: " ++ "{" ++ (qs "overall_score" ++ ":18}")
                                ++ " (braces: {x" ++ "}" ++ ").")))
                 "Customer: hello"
                 ("Here: " ++ "{" ++ (qs "overall_score" ++ ":18}")
                  ++ " (braces: {x" ++ "}" ++ ").")).
  { eexists. split; reflexivity. }
  assert (Hl : Json.loads ("{" ++ (qs "overall_score" ++ ":18}"))
               = inr (JObj [("overall_score", JInt 18)]))
    by (vm_compute; reflexivity).
  split; [exact Ha|]. split; [reflexivity|]. split; [reflexivity|].
  split; [exact Hl|].
  exact (proj2 (object_then_closing_brace_rejected _ "Customer: hello"
                  "Here: " (qs "overall_score" ++ ":18}") " (braces: {x" ")."
                  _ Ha eq_refl eq_refl Hl)).
Defined.

(** ** Truncated objects *)

Lemma skip_ws_app_text (a t : string) :
  Json.skip_ws t <> "" -> Json.skip_ws (a ++ t) <> "".
Proof.
  intros Ht. induction a as [|c a IH]; simpl; [exact Ht|].
  destruct (Json.is_ws c); [exact IH|discriminate].
Qed.

(** An object that [json.loads] accepts is rejected when it is cut
    off, unless what is cut off is white space only. *)
Lemma loads_cut_object (kept lost : string) (data : json) :
  Json.loads ("{" ++ kept ++ lost) = inr data ->
  Json.skip_ws lost <> "" ->
  exists why, Json.loads ("{" ++ kept) = inl why /\ why <> Json.FuelExhausted.
Proof.
  intros Hfull Hlost.
  destruct (Json.loads ("{" ++ kept)) as [why|part] eqn:Hcut.
  - exists why. split; [reflexivity|].
    intros ->. now apply (JsonFacts.loads_fuel ("{" ++ kept)).
  - exfalso.
    pose proof (TailFacts.loads_object_then_text kept lost part Hcut Hlost) as H.
    change (String "{" kept ++ lost) with ("{" ++ kept ++ lost) in H.
    congruence.
Qed.

(** C4, as the specification states it, fails on the truncated object
    [{"criteria_scores": {"accuracy":5,]: no closing brace is left, the
    pattern of line 67 does not match and the error is the one of line
    69, not a [JSONDecodeError]. *)
Lemma truncated_object_counterexample :
  evaluate_ticket (canned (Some Scenario.truncated_raw)) "Customer: hello"
  = Raises (NoJsonFound (no_json_message Scenario.truncated_raw)) /\
  ~ (exists why,
       evaluate_ticket (canned (Some Scenario.truncated_raw)) "Customer: hello"
       = Raises (MalformedJson why)).
Proof.
  split; [reflexivity|]. intros [why H]. vm_compute in H. discriminate.
Qed.

(** C4, amended. The response ends inside a JSON object: after prose
    without an opening brace it holds [{] and [kept], where [{], [kept]
    and the lost end [lost] together are an object that [json.loads]
    accepts, and [lost] is more than white space.  When no closing brace
    is left in [kept], as in [{"criteria_scores": {"accuracy":5,], the
    pattern does not match and the error is the one of line 69.  When a
    closing brace is left, as in [{"criteria_scores": {"accuracy":5}]
    whose outer closing brace is missing, a span is extracted,
    [json.loads] rejects it, and the error is the [JSONDecodeError] and
    no other. *)
Theorem truncated_object_outcome
    (generate_content : string -> option response)
    (ticket_text pre kept lost : string) (data : json) :
  answers generate_content ticket_text (pre ++ "{" ++ kept) ->
  occurs "{" pre = false ->
  Json.loads ("{" ++ kept ++ lost) = inr data ->
  Json.skip_ws lost <> "" ->
  (occurs "}" kept = false ->
   re_search JSON_SPAN (pre ++ "{" ++ kept) = None /\
   evaluate_ticket generate_content ticket_text
   = Raises (NoJsonFound (no_json_message (pre ++ "{" ++ kept)))) /\
  (occurs "}" kept = true ->
   exists span why,
     re_search JSON_SPAN (pre ++ "{" ++ kept) = Some span /\
     prefix span ("{" ++ kept) = true /\
     Json.loads span = inl why /\
     why <> Json.FuelExhausted /\
     evaluate_ticket generate_content ticket_text
     = Raises (MalformedJson why)) /\
  evaluate_ticket (canned (Some Scenario.truncated_raw)) ticket_text
  = Raises (NoJsonFound (no_json_message Scenario.truncated_raw)) /\
  evaluate_ticket (canned (Some Scenario.unclosed_raw)) ticket_text
  = Raises (MalformedJson Json.ExpectingCommaDelimiter).
Proof.
  intros Hans Hpre Hfull Hlost.
  rewrite (evaluate_ticket_answers _ _ _ Hans).
  split; [|split; [|split]].
  - intros Hnone.
    assert (Hs : re_search JSON_SPAN (pre ++ "{" ++ kept) = None).
    { rewrite (re_search_skip _ _ Hpre).
      apply no_closing_brace_no_span. simpl. exact Hnone. }
    split; [exact Hs|]. now apply evaluate_raw_no_span.
  - intros Hsome.
    destruct (rfind "}" kept) as [j|] eqn:Ej.
    2:{ apply rfind_none in Ej. congruence. }
    destruct (rfind_split _ _ _ Ej) as (mid & post & -> & Hpost & _).
    assert (Hs : re_search JSON_SPAN (pre ++ "{" ++ (mid ++ String "}" post))
                 = Some ("{" ++ mid ++ "}")).
    { exact (re_search_between pre mid post Hpre Hpost). }
    assert (Hcut : exists why,
               Json.loads ("{" ++ (mid ++ "}")) = inl why /\
               why <> Json.FuelExhausted).
    { apply (loads_cut_object (mid ++ "}") (post ++ lost) data).
      - rewrite <- Hfull. f_equal. f_equal.
        now rewrite !append_assoc.
      - now apply skip_ws_app_text. }
    destruct Hcut as (why & Hwhy & Hfuel).
    exists ("{" ++ mid ++ "}"), why.
    split; [exact Hs|]. split.
    { change ("{" ++ mid ++ "}") with ("{" ++ (mid ++ "}")).
      replace ("{" ++ mid ++ String "}" post)
        with (("{" ++ (mid ++ "}")) ++ post).
      - apply prefix_app.
      - simpl. f_equal. now rewrite append_assoc. }
    split; [exact Hwhy|]. split; [exact Hfuel|].
    rewrite (evaluate_raw_span _ _ Hs). unfold parse_and_validate.
    change ("{" ++ mid ++ "}") with ("{" ++ (mid ++ "}")).
    now rewrite Hwhy.
  - reflexivity.
  - vm_compute. reflexivity.
Qed.

Lemma truncated_object_outcome_witness :
  (answers (canned (Some Scenario.unclosed_raw)) "Customer: hello"
     ("" ++ "{" ++ (qs "criteria_scores" ++ ": {" ++ qs "accuracy" ++ ":5}")) /\
   occurs "{" "" = false /\
   Json.loads ("{" ++ (qs "criteria_scores" ++ ": {" ++ qs "accuracy" ++ ":5}")
               ++ "}")
   = inr (JObj [("criteria_scores", JObj [("accuracy", JInt 5)])]) /\
   Json.skip_ws "}" <> "" /\
   occurs "}" (qs "criteria_scores" ++ ": {" ++ qs "accuracy" ++ ":5}") = true /\
   exists span why,
     re_search JSON_SPAN Scenario.unclosed_raw = Some span /\
     prefix span Scenario.unclosed_raw = true /\
     Json.loads span = inl why /\
     why <> Json.FuelExhausted /\
     evaluate_ticket (canned (Some Scenario.unclosed_raw)) "Customer: hello"
     = Raises (MalformedJson why)) /\
  (answers (canned (Some ("Here it is: " ++ Scenario.truncated_raw)))
     "Customer: hello"
     ("Here it is: " ++ "{"
      ++ (qs "criteria_scores" ++ ": {" ++ qs "accuracy" ++ ":5,")) /\
   occurs "{" "Here it is: " = false /\
   Json.loads ("{" ++ (qs "criteria_scores" ++ ": {" ++ qs "accuracy" ++ ":5,")
               ++ (qs "clarity" ++ ":3}}"))
   = inr (JObj [("criteria_scores",
                 JObj [("accuracy", JInt 5); ("clarity", JInt 3)])]) /\
   Json.skip_ws (qs "clarity" ++ ":3}}") <> "" /\
   occurs "}" (qs "criteria_scores" ++ ": {" ++ qs "accuracy" ++ ":5,") = false /\
   evaluate_ticket (canned (Some ("Here it is: " ++ Scenario.truncated_raw)))
     "Customer: hello"
   = Raises (NoJsonFound
               (no_json_message ("Here it is: " ++ Scenario.truncated_raw)))).
Proof.
  split.
  - assert (Ha : answers (canned (Some Scenario.unclosed_raw)) "Customer: hello"
                   ("" ++ "{"
                    ++ (qs "criteria_scores" ++ ": {" ++ qs "accuracy" ++ ":5}"))).
    { exists {| text := Some Scenario.unclosed_raw |}. split; reflexivity. }
    assert (Hl : Json.loads
                   ("{" ++ (qs "criteria_scores" ++ ": {" ++ qs "accuracy" ++ ":5}")
                    ++ "}")
                 = inr (JObj [("criteria_scores", JObj [("accuracy", JInt 5)])]))
      by (vm_compute; reflexivity).
    assert (Hw : Json.skip_ws "}" <> "") by (simpl; discriminate).
    split; [exact Ha|]. split; [reflexivity|]. split; [exact Hl|].
    split; [exact Hw|]. split; [reflexivity|].
    exact (proj1 (proj2
             (truncated_object_outcome _ "Customer: hello" ""
                (qs "criteria_scores" ++ ": {" ++ qs "accuracy" ++ ":5}") "}"
                _ Ha eq_refl Hl Hw)) eq_refl).
  - assert (Ha : answers (canned (Some ("Here it is: " ++ Scenario.truncated_raw)))
                   "Customer: hello"
                   ("Here it is: " ++ "{"
                    ++ (qs "criteria_scores" ++ ": {" ++ qs "accuracy" ++ ":5,"))).
    { exists {| text := Some ("Here it is: " ++ Scenario.truncated_raw) |}.
      split; reflexivity. }
    assert (Hl : Json.loads
                   ("{" ++ (qs "criteria_scores" ++ ": {" ++ qs "accuracy" ++ ":5,")
                    ++ (qs "clarity" ++ ":3}}"))
                 = inr (JObj [("criteria_scores",
                               JObj [("accuracy", JInt 5); ("clarity", JInt 3)])]))
      by (vm_compute; reflexivity).
    assert (Hw : Json.skip_ws (qs "clarity" ++ ":3}}") <> "")
      by (simpl; discriminate).
    split; [exact Ha|]. split; [reflexivity|]. split; [exact Hl|].
    split; [exact Hw|]. split; [reflexivity|].
    exact (proj2 (proj1
             (truncated_object_outcome _ "Customer: hello" "Here it is: "
                (qs "criteria_scores" ++ ": {" ++ qs "accuracy" ++ ":5,")
                (qs "clarity" ++ ":3}}")
                _ Ha eq_refl Hl Hw) eq_refl)).
Defined.
